(** * Session and credential lifecycle of the user service

    A shallow embedding of the TypeScript sources of the user service:
    the credential cipher ([utils/aes.ts]), the session store
    ([services/redisService.ts]), the refresh-token ledger
    ([services/prismaUserService.ts]), the refresh orchestrator
    ([services/authService.ts], [lib/session/refreshAccessToken.ts]), the
    validation gate ([lib/session/sessionHandler.ts]) and the plan/role
    handler ([services/grpcService.ts]).

    Asynchronous functions become computations in a state-and-exception
    monad over a [World] that holds the Redis keyspace, the relational
    tables, the clock, the random source, the identity provider and a fault
    schedule for the external calls.  The numbers held by JavaScript values
    are integers ([Z]); strings are byte strings, the UTF-8 encoding of
    well-formed JavaScript strings. *)

From Stdlib Require Import ZArith Lia String Ascii List.
From Stdlib.Strings Require Import Byte.
From stdpp Require Import gmap strings list pretty.

Local Open Scope string_scope.
#[local] Set Warnings "-register-all".

(* ================================================================== *)
(** ** JavaScript values, errors and results *)

Module Js.

(** An [Error] object: its message and optional [statusCode] (the [cause]
    some wrappers attach is not observed by any caller). *)
Record js_error : Type := mkError {
  message : string;
  statusCode : option Z
}.

Definition new_Error (msg : string) : js_error := mkError msg None.

(** Outcome of a call: a value, or a thrown error. *)
Inductive result (A : Type) : Type :=
| Ok (a : A)
| Throw (e : js_error).
Arguments Ok {A} a.
Arguments Throw {A} e.

(** The dynamically typed values the code inspects: token claims, parsed
    session documents, fields of provider responses. *)
Inductive jsval : Type :=
| JUndefined
| JNull
| JBool (b : bool)
| JNum (n : Z)
| JStr (s : string)
| JArr (items : list jsval)
| JObj (fields : list (string * jsval)).

(** [!!v] *)
Definition truthy (v : jsval) : bool :=
  match v with
  | JUndefined | JNull => false
  | JBool b => b
  | JNum n => negb (n =? 0)%Z
  | JStr s => negb (String.eqb s "")
  | JArr _ | JObj _ => true
  end.

Fixpoint assoc (k : string) (fs : list (string * jsval)) : jsval :=
  match fs with
  | [] => JUndefined
  | (k', v) :: rest => if String.eqb k k' then v else assoc k rest
  end.

(** [v.k] on a value already known not to be [null] or [undefined]. *)
Definition get_prop (v : jsval) (k : string) : jsval :=
  match v with
  | JObj fs => assoc k fs
  | _ => JUndefined
  end.

(** [typeof v === 'number'] *)
Definition is_number (v : jsval) : bool :=
  match v with JNum _ => true | _ => false end.

(** [typeof v === 'object'] (which holds of [null] too) *)
Definition is_object (v : jsval) : bool :=
  match v with JNull | JArr _ | JObj _ => true | _ => false end.

(** The number a value known to be a number holds. *)
Definition num_of (v : jsval) : Z :=
  match v with JNum n => n | _ => 0%Z end.

(** [a === b]; two objects are never the same reference here. *)
Definition strict_eq (a b : jsval) : bool :=
  match a, b with
  | JUndefined, JUndefined | JNull, JNull => true
  | JBool x, JBool y => Bool.eqb x y
  | JNum x, JNum y => (x =? y)%Z
  | JStr x, JStr y => String.eqb x y
  | _, _ => false
  end.

(** Truthiness of a possibly missing string ([undefined] or [''] are falsy). *)
Definition truthy_str (o : option string) : bool :=
  match o with
  | Some s => negb (String.eqb s "")
  | None => false
  end.

(* ---------------------------------------------------------------- *)
(** *** Strings

    A JavaScript string is a sequence of UTF-16 code units; the byte
    strings here stand for the strings without an unpaired surrogate,
    which are the ones UTF-8 encodes without loss. *)

(** A byte that continues a UTF-8 sequence. *)
Definition continues (b : N) : bool := (128 <=? b)%N && (b <? 192)%N.

(** The second byte of a sequence of three or four bytes that starts
    with [a]: it keeps out the encodings that are too long, the
    surrogates and what lies beyond U+10FFFF. *)
Definition second_byte (a b : N) : bool :=
  if (a =? 224)%N then (160 <=? b)%N && (b <? 192)%N
  else if (a =? 237)%N then (128 <=? b)%N && (b <? 160)%N
  else if (a =? 240)%N then (144 <=? b)%N && (b <? 192)%N
  else if (a =? 244)%N then (128 <=? b)%N && (b <? 144)%N
  else continues b.

(** [s] is well-formed UTF-8: the encoding of a string that holds no
    unpaired surrogate. *)
Fixpoint well_formed (s : string) : bool :=
  match s with
  | EmptyString => true
  | String a r1 =>
      let a := N_of_ascii a in
      if (a <? 128)%N then well_formed r1
      else
        match r1 with
        | EmptyString => false
        | String b r2 =>
            let b := N_of_ascii b in
            if (194 <=? a)%N && (a <? 224)%N then continues b && well_formed r2
            else
              match r2 with
              | EmptyString => false
              | String c r3 =>
                  let c := N_of_ascii c in
                  if (224 <=? a)%N && (a <? 240)%N then
                    second_byte a b && continues c && well_formed r3
                  else
                    match r3 with
                    | EmptyString => false
                    | String d r4 =>
                        (240 <=? a)%N && (a <? 245)%N
                        && second_byte a b && continues c
                        && continues (N_of_ascii d) && well_formed r4
                    end
              end
        end
  end.

(** [s.length]: the UTF-16 code units of the string [s] stands for. *)
Fixpoint code_units (s : string) : nat :=
  match s with
  | EmptyString => O
  | String c rest =>
      let n := N_of_ascii c in
      if continues n then code_units rest
      else if (240 <=? n)%N then S (S (code_units rest))
      else S (code_units rest)
  end.

(* ---------------------------------------------------------------- *)
(** *** Conversions

    What a template literal and a product do to a value read from a token
    or from a parsed document.  Such a value holds no function: an array
    or an object converts through the members it inherits, and an object
    with a field of its own named [toString] hides the inherited member
    with something that cannot be called, so its conversion throws. *)

(** The digits of [s] without the zeros at its end. *)
Fixpoint strip_zeros (s : string) : string :=
  match s with
  | EmptyString => EmptyString
  | String c rest =>
      match strip_zeros rest with
      | EmptyString => if Ascii.eqb c "0" then EmptyString else String c EmptyString
      | kept => String c kept
      end
  end.

(** The number a JavaScript value holds for the integer [x]: the nearest
    of the numbers of 53 significant bits, the even one of two that are
    equally near.  It is [x] itself up to [2^53]. *)
Definition to_double (x : Z) : Z :=
  let e := Z.log2 x in
  if (e <? 53)%Z then x
  else
    let ulp := (2 ^ (e - 52))%Z in
    let q := (x / ulp)%Z in
    let twice := (2 * (x mod ulp))%Z in
    if (twice <? ulp)%Z || (twice =? ulp)%Z && Z.even q then (q * ulp)%Z
    else ((q + 1) * ulp)%Z.

(** [c] reads back as the number [d] of 53 significant bits: it lies
    within half a step of [d], the bounds included when the last bit of
    [d] is 0. *)
Definition reads_as (d c : Z) : bool :=
  let e := Z.log2 d in
  let ulp := (2 ^ (e - 52))%Z in
  let below := if (d =? 2 ^ e)%Z then (ulp / 2)%Z else ulp in
  if Z.even (d / ulp)
  then (2 * d - below <=? 2 * c)%Z && (2 * c <=? 2 * d + ulp)%Z
  else (2 * d - below <? 2 * c)%Z && (2 * c <? 2 * d + ulp)%Z.

(** The integer with the fewest significant digits that reads back as
    [d], the nearest to [d] of those, looked for from the scale [10^j]
    down. *)
Fixpoint shortest (j : nat) (d : Z) : Z :=
  let scale := (10 ^ Z.of_nat j)%Z in
  let c1 := (d / scale * scale)%Z in
  let c2 := (c1 + scale)%Z in
  let found :=
    match reads_as d c1, reads_as d c2 with
    | true, true =>
        Some (if (d - c1 <? c2 - d)%Z then c1
              else if (c2 - d <? d - c1)%Z then c2
              else if Z.even (c1 / scale) then c1 else c2)
    | true, false => Some c1
    | false, true => Some c2
    | false, false => None
    end in
  match found, j with
  | Some c, _ => c
  | None, O => d
  | None, S j' => shortest j' d
  end.

(** [Number.prototype.toString] of an integer: the shortest digits that
    read back as the number, in full below [10^21] and in exponent
    notation from there on. *)
Definition number_to_string (n : Z) : string :=
  let sign := if (n <? 0)%Z then "-" else "" in
  let d := to_double (Z.abs n) in
  if (2 ^ 1024 <=? d)%Z then sign +:+ "Infinity"
  else
    let c := if (d <? 2 ^ 53)%Z then d
             else shortest (String.length (pretty d)) d in
    let digits := pretty c in
    if (c <? 10 ^ 21)%Z then sign +:+ digits
    else
      let exponent := pretty (Z.of_nat (String.length digits) - 1)%Z in
      match strip_zeros digits with
      | EmptyString => "0"
      | String first EmptyString => sign +:+ String first "e+" +:+ exponent
      | String first more => sign +:+ String first "." +:+ more +:+ "e+" +:+ exponent
      end.

(** [Object.hasOwn(fields, k)] *)
Definition has_own (k : string) (fs : list (string * jsval)) : bool :=
  existsb (fun f => String.eqb f.1 k) fs.

(** [items.join(',')], given the conversion of an item: the items that
    are [null] or [undefined] give the empty string. *)
Definition join_items (convert : jsval -> result string)
  : list jsval -> result string :=
  fix join (l : list jsval) : result string :=
    match l with
    | [] => Ok ""
    | item :: rest =>
        match (match item with
               | JUndefined | JNull => Ok ""
               | _ => convert item
               end) with
        | Throw err => Throw err
        | Ok first =>
            match rest with
            | [] => Ok first
            | _ =>
                match join rest with
                | Throw err => Throw err
                | Ok others => Ok (first +:+ "," +:+ others)
                end
            end
        end
    end.

(** [String(v)], the conversion a template literal applies: an array is
    joined with commas. *)
Fixpoint to_string (v : jsval) : result string :=
  match v with
  | JUndefined => Ok "undefined"
  | JNull => Ok "null"
  | JBool true => Ok "true"
  | JBool false => Ok "false"
  | JNum n => Ok (number_to_string n)
  | JStr s => Ok s
  | JArr items => join_items to_string items
  | JObj fields =>
      if has_own "toString" fields
      then Throw (new_Error "Cannot convert object to primitive value")
      else Ok "[object Object]"
  end.

(** A number as arithmetic on converted values yields it:
    [Decimal m e] is [m * 10^e]. *)
Inductive number : Type :=
| NaN
| Infinity (negative : bool)
| Decimal (mantissa exponent : Z).

Definition utf8 (bytes : list N) : string :=
  string_of_list_ascii (map ascii_of_N bytes).

(** The white space and the line terminators that [Number(s)] skips at
    both ends of [s], in UTF-8. *)
Definition StrWhiteSpaceChar : list string :=
  (map (fun b => utf8 [b]) [9; 10; 11; 12; 13; 32]%N
   ++ [utf8 [194; 160]%N; utf8 [225; 154; 128]%N]
   ++ map (fun b => utf8 [226; 128; b]%N)
          [128; 129; 130; 131; 132; 133; 134; 135; 136; 137; 138; 168; 169; 175]%N
   ++ [utf8 [226; 129; 159]%N; utf8 [227; 128; 128]%N; utf8 [239; 187; 191]%N])%list.

Fixpoint strip_prefix (p s : string) : option string :=
  match p, s with
  | EmptyString, _ => Some s
  | String a p', String b s' => if Ascii.eqb a b then strip_prefix p' s' else None
  | String _ _, EmptyString => None
  end.

(** [s] without the leading occurrences of the given patterns. *)
Fixpoint skip (patterns : list string) (fuel : nat) (s : string) : string :=
  match fuel with
  | O => s
  | S fuel' =>
      match omap (fun p => strip_prefix p s) patterns with
      | rest :: _ => skip patterns fuel' rest
      | [] => s
      end
  end.

Definition trim (s : string) : string :=
  let tail := skip StrWhiteSpaceChar (String.length s) s in
  String.rev (skip (map String.rev StrWhiteSpaceChar) (String.length tail)
                   (String.rev tail)).

(** The value of a digit or a letter as a digit. *)
Definition digit_of (c : ascii) : option Z :=
  let n := Z.of_N (N_of_ascii c) in
  if (48 <=? n)%Z && (n <=? 57)%Z then Some (n - 48)%Z
  else if (97 <=? n)%Z && (n <=? 122)%Z then Some (n - 87)%Z
  else if (65 <=? n)%Z && (n <=? 90)%Z then Some (n - 55)%Z
  else None.

(** The longest prefix of [s] made of digits of the radix, read after the
    digits [value] read so far: the number, how many digits were added,
    and what follows them. *)
Fixpoint digits (radix : Z) (s : string) (value count : Z) : Z * Z * string :=
  match s with
  | EmptyString => (value, count, s)
  | String c rest =>
      match digit_of c with
      | Some d =>
          if (d <? radix)%Z then digits radix rest (value * radix + d)%Z (count + 1)%Z
          else (value, count, s)
      | None => (value, count, s)
      end
  end.

(** A leading sign, if any, and what follows it. *)
Definition signed (s : string) : bool * string :=
  match s with
  | String c rest =>
      if Ascii.eqb c "-" then (true, rest)
      else if Ascii.eqb c "+" then (false, rest)
      else (false, s)
  | EmptyString => (false, s)
  end.

(** Digits, an optional fraction and an optional exponent; one digit at
    least before the exponent. *)
Definition StrUnsignedDecimalLiteral (s : string) : number :=
  let '(whole, n_whole, after_whole) := digits 10 s 0 0 in
  let '(mantissa, n_fraction, after_fraction) :=
    match after_whole with
    | String c rest =>
        if Ascii.eqb c "." then digits 10 rest whole 0 else (whole, 0%Z, after_whole)
    | EmptyString => (whole, 0%Z, after_whole)
    end in
  if (n_whole + n_fraction =? 0)%Z then NaN
  else
    match after_fraction with
    | EmptyString => Decimal mantissa (- n_fraction)
    | String c rest =>
        if Ascii.eqb c "e" || Ascii.eqb c "E" then
          let '(negative, rest) := signed rest in
          let '(e, n_e, rest) := digits 10 rest 0 0 in
          if (0 <? n_e)%Z && String.eqb rest "" then
            Decimal mantissa ((if negative then - e else e) - n_fraction)
          else NaN
        else NaN
    end.

(** [0x], [0o] and [0b] literals; [None] when [s] is not of that form. *)
Definition NonDecimalIntegerLiteral (s : string) : option number :=
  match s with
  | String zero (String x rest) =>
      let radix :=
        if negb (Ascii.eqb zero "0") then None
        else if Ascii.eqb x "x" || Ascii.eqb x "X" then Some 16%Z
        else if Ascii.eqb x "o" || Ascii.eqb x "O" then Some 8%Z
        else if Ascii.eqb x "b" || Ascii.eqb x "B" then Some 2%Z
        else None in
      match radix with
      | Some r =>
          let '(value, n, rest) := digits r rest 0 0 in
          Some (if (0 <? n)%Z && String.eqb rest "" then Decimal value 0 else NaN)
      | None => None
      end
  | _ => None
  end.

(** [Number(s)] *)
Definition StringToNumber (s : string) : number :=
  let text := trim s in
  if String.eqb text "" then Decimal 0 0
  else
    match NonDecimalIntegerLiteral text with
    | Some n => n
    | None =>
        let '(negative, body) := signed text in
        if String.eqb body "Infinity" then Infinity negative
        else
          match StrUnsignedDecimalLiteral body with
          | Decimal m e => Decimal (if negative then - m else m) e
          | other => other
          end
    end.

(** [Number(v)], the conversion a product applies to its operands. *)
Definition to_number (v : jsval) : result number :=
  match v with
  | JUndefined => Ok NaN
  | JNull => Ok (Decimal 0 0)
  | JBool b => Ok (Decimal (if b then 1 else 0) 0)
  | JNum n => Ok (Decimal n 0)
  | JStr s => Ok (StringToNumber s)
  | JArr _ | JObj _ =>
      match to_string v with
      | Ok s => Ok (StringToNumber s)
      | Throw err => Throw err
      end
  end.

(** The number of 53 significant bits nearest to the fraction [n / d] of
    two positive integers, the even one of two that are equally near. *)
Definition round53 (n d : Z) : Z * Z :=
  let scaled b := if (0 <=? b)%Z then (n, d * 2 ^ b)%Z else (n * 2 ^ (- b), d)%Z in
  let quotient b := ((scaled b).1 / (scaled b).2)%Z in
  let b0 := (Z.log2 n - Z.log2 d - 52)%Z in
  let b := if (2 ^ 53 <=? quotient b0)%Z then (b0 + 1)%Z
           else if (quotient b0 <? 2 ^ 52)%Z then (b0 - 1)%Z
           else b0 in
  let q := quotient b in
  let twice := (2 * ((scaled b).1 mod (scaled b).2))%Z in
  let q' := if (twice <? (scaled b).2)%Z || (twice =? (scaled b).2)%Z && Z.even q
            then q else (q + 1)%Z in
  if (0 <=? b)%Z then (q' * 2 ^ b, 1)%Z else (q', 2 ^ (- b))%Z.

(** [new Date(t * 1000)] holds a time when the product is finite and at
    most 8.64e15 milliseconds away from the epoch.  The product of a
    whole number is exact as far as that bound; a fraction is rounded
    when it is read and when it is multiplied. *)
Definition Date_valid_of_seconds (t : number) : bool :=
  match t with
  | NaN | Infinity _ => false
  | Decimal m e =>
      if (0 <=? e)%Z then
        (m =? 0)%Z || (e <=? 13)%Z && (Z.abs m * 10 ^ e <=? 8640000000000)%Z
      else if (m =? 0)%Z then true
      else
        let read := round53 (Z.abs m) (10 ^ (- e)) in
        let product := round53 (read.1 * 1000) read.2 in
        (product.1 <=? 8640000000000000 * product.2)%Z
  end.

(** [new Date(v * 1000).toISOString()], of which only the failure is
    observed: the conversion of [v] can throw, and [toISOString] throws on
    a date that holds no time. *)
Definition Date_toISOString_of_seconds (v : jsval) : result unit :=
  match to_number v with
  | Throw err => Throw err
  | Ok t =>
      if Date_valid_of_seconds t then Ok tt
      else Throw (new_Error "Invalid time value")
  end.

End Js.
Export Js.

(* ================================================================== *)
(** ** The world the service runs in *)

(** A string kept in Redis: either plain text (the liveness marker ['1'])
    or the text [JSON.stringify v], identified with the value [v] it
    parses to.  Plain text stands for text that is not a JSON document. *)
Inductive stored : Type :=
| Plain (s : string)
| Json (v : jsval).

(** A Redis key: its value and its remaining life in milliseconds
    ([None]: the key has no expiry). *)
Record entry : Type := mkEntry { e_value : stored; e_pttl : option Z }.

(** A row of the refresh-token table (migration [init]): [revoked]
    defaults to false, [expires_at] is in milliseconds since the epoch. *)
Record refresh_row : Type := mkRow {
  row_userId : string;
  row_refreshToken : string;
  row_sessionId : string;
  row_expiresAt : Z;
  row_revoked : bool
}.

(** What an HTTP call to the identity provider answers: axios resolves
    with a body or rejects. *)
Record token_body : Type := mkTokens {
  access_token : option string;
  refresh_token : option string
}.

(** Requests sent to the provider, in the order they are made. *)
Inductive request : Type :=
| ReqRefresh (refresh_token : string)
| ReqClientCredentials
| ReqGetRoles (auth0Id : string)
| ReqPostRoles (auth0Id : string) (roleId : jsval)
| ReqLogout.

(** How the identity provider answers ([None]: the request is rejected,
    that is, axios throws), and what the JWT library says of a token
    checked against the provider's keys.
    - [oauth_refresh rt]: the body of [POST /oauth/token] for the refresh
      token [rt];
    - [oauth_client_credentials]: access token and [expires_in] of the
      client-credentials grant;
    - [roles_of u]: status and body of [GET /api/v2/users/u/roles];
    - [post_roles u r]: status of [POST /api/v2/users/u/roles] with the
      body [{ roles: [r] }];
    - [logout_ok]: whether [GET /v2/logout] resolves;
    - [jwt_verify t]: whether signature, issuer and audience of [t] check;
    - [jwt_decode t]: the payload [jwt.decode] reads from [t] ([JNull]
      when it cannot). *)
Record Provider : Type := mkProvider {
  oauth_refresh : string -> option token_body;
  oauth_client_credentials : option (string * Z);
  roles_of : string -> option (Z * jsval);
  post_roles : string -> jsval -> option Z;
  logout_ok : bool;
  jwt_verify : string -> bool;
  jwt_decode : string -> jsval
}.

(** Everything outside the process.
    - [redis]: the keyspace;
    - [users]: the [user] table, from [auth0_id] to the internal [id];
    - [user_plan]: the [plan_id] column of the [user] table;
    - [is_datetime]: the strings the database client takes for a
      [DateTime] column;
    - [ledger]: the [user_refresh_token] table, in insertion order;
    - [clock]: [Date.now()], in milliseconds;
    - [entropy], [drawn]: the random source and how much of it is used;
    - [faults]: for the coming external calls, whether each one fails;
    - [sent]: the requests made to the provider so far;
    - [provider]: the identity provider. *)
Record World : Type := mkWorld {
  redis : gmap string entry;
  users : gmap string string;
  user_plan : gmap string string;
  ledger : list refresh_row;
  clock : Z;
  entropy : nat -> byte;
  drawn : nat;
  faults : list bool;
  sent : list request;
  provider : Provider;
  is_datetime : string -> bool
}.

Definition set_redis (r : gmap string entry) (w : World) : World :=
  mkWorld r (users w) (user_plan w) (ledger w) (clock w) (entropy w)
          (drawn w) (faults w) (sent w) (provider w) (is_datetime w).

Definition set_user_plan (p : gmap string string) (w : World) : World :=
  mkWorld (redis w) (users w) p (ledger w) (clock w) (entropy w)
          (drawn w) (faults w) (sent w) (provider w) (is_datetime w).

Definition set_ledger (l : list refresh_row) (w : World) : World :=
  mkWorld (redis w) (users w) (user_plan w) l (clock w) (entropy w)
          (drawn w) (faults w) (sent w) (provider w) (is_datetime w).

Definition set_drawn (n : nat) (w : World) : World :=
  mkWorld (redis w) (users w) (user_plan w) (ledger w) (clock w) (entropy w)
          n (faults w) (sent w) (provider w) (is_datetime w).

Definition set_faults (f : list bool) (w : World) : World :=
  mkWorld (redis w) (users w) (user_plan w) (ledger w) (clock w) (entropy w)
          (drawn w) f (sent w) (provider w) (is_datetime w).

Definition set_sent (s : list request) (w : World) : World :=
  mkWorld (redis w) (users w) (user_plan w) (ledger w) (clock w) (entropy w)
          (drawn w) (faults w) s (provider w) (is_datetime w).

(** Computations: state passing with exceptions.  State changes made
    before a throw persist, as in JavaScript. *)
Definition M (A : Type) : Type := World -> result A * World.

Definition ret {A} (a : A) : M A := fun w => (Ok a, w).

Definition throw {A} (e : js_error) : M A := fun w => (Throw e, w).

Definition bind {A B} (m : M A) (k : A -> M B) : M B :=
  fun w =>
    match m w with
    | (Ok a, w') => k a w'
    | (Throw e, w') => (Throw e, w')
    end.

(** [try { m } catch (err) { h err }] *)
Definition try_catch {A} (m : M A) (h : js_error -> M A) : M A :=
  fun w =>
    match m w with
    | (Ok a, w') => (Ok a, w')
    | (Throw e, w') => h e w'
    end.

Definition lift {A} (r : result A) : M A := fun w => (r, w).

Notation "'let*' x ':=' m 'in' k" := (bind m (fun x => k))
  (at level 10, x pattern, m at level 100, k at level 200).

(** An external call (Redis, database, HTTP): the head of the fault
    schedule says whether this call fails before doing anything. *)
Definition io {A} (what : string) (op : M A) : M A :=
  fun w =>
    match faults w with
    | true :: rest => (Throw (new_Error what), set_faults rest w)
    | false :: rest => op (set_faults rest w)
    | [] => op w
    end.

(** [Date.now()] *)
Definition Date_now : M Z := fun w => (Ok (clock w), w).

(** [crypto.randomBytes(n)] *)
Definition randomBytes (n : nat) : M (list byte) :=
  fun w => (Ok (map (entropy w) (seq (drawn w) n)), set_drawn (drawn w + n) w).

(* ================================================================== *)
(** ** Credential cipher ([utils/aes.ts]) *)

Module Hex.

(** One hexadecimal digit of [buf.toString('hex')] (lower case). *)
Definition hex_digit (n : N) : ascii :=
  match n with
  | 0%N => "0" | 1%N => "1" | 2%N => "2" | 3%N => "3"
  | 4%N => "4" | 5%N => "5" | 6%N => "6" | 7%N => "7"
  | 8%N => "8" | 9%N => "9" | 10%N => "a" | 11%N => "b"
  | 12%N => "c" | 13%N => "d" | 14%N => "e" | _ => "f"
  end%char.

(** Value of a hexadecimal digit; decoding accepts both cases. *)
Definition unhex (c : ascii) : option N :=
  let n := N_of_ascii c in
  if (48 <=? n)%N && (n <=? 57)%N then Some (n - 48)%N
  else if (97 <=? n)%N && (n <=? 102)%N then Some (n - 87)%N
  else if (65 <=? n)%N && (n <=? 70)%N then Some (n - 55)%N
  else None.

Definition byte_to_hex (b : byte) (rest : string) : string :=
  String (hex_digit (Byte.to_N b / 16)) (String (hex_digit (Byte.to_N b mod 16)) rest).

(** [buf.toString('hex')] *)
Fixpoint to_hex (bs : list byte) : string :=
  match bs with
  | [] => ""
  | b :: rest => byte_to_hex b (to_hex rest)
  end.

(** [Buffer.from(s, 'hex')]: decodes pairs of digits and stops at the
    first pair that is not hexadecimal; an odd last digit is dropped. *)
Fixpoint from_hex (s : string) : list byte :=
  match s with
  | String a (String b rest) =>
      match unhex a, unhex b with
      | Some h, Some l =>
          match Byte.of_N (16 * h + l) with
          | Some x => x :: from_hex rest
          | None => []
          end
      | _, _ => []
      end
  | _ => []
  end.

(** [s.split(sep)] for a one-character separator. *)
Fixpoint split (sep : ascii) (s : string) : list string :=
  match s with
  | EmptyString => [EmptyString]
  | String c rest =>
      if Ascii.eqb c sep then EmptyString :: split sep rest
      else match split sep rest with
           | [] => [String c EmptyString]
           | h :: t => String c h :: t
           end
  end.

(** The characters of [s] are all different from [sep]. *)
Fixpoint free_of (sep : ascii) (s : string) : bool :=
  match s with
  | EmptyString => true
  | String c rest => negb (Ascii.eqb c sep) && free_of sep rest
  end.

End Hex.
Export Hex.

(** Node's [aes-256-gcm]: the library primitive behind
    [createCipheriv]/[createDecipheriv].  [gcm_seal key iv plaintext] is
    the ciphertext and the authentication tag; [gcm_open key iv tag
    ciphertext] is the plaintext when the tag verifies. *)
Record aes_256_gcm : Type := mkGcm {
  gcm_seal : list byte -> list byte -> list byte -> list byte * list byte;
  gcm_open : list byte -> list byte -> list byte -> list byte -> option (list byte)
}.

(** What the code relies on: opening what was sealed gives the plaintext
    back, the ciphertext is as long as the plaintext (counter mode), and
    the tag has 16 bytes. *)
Record gcm_laws (gcm : aes_256_gcm) : Prop := mkGcmLaws {
  open_seal : forall key iv pt,
    gcm_open gcm key iv (gcm_seal gcm key iv pt).2 (gcm_seal gcm key iv pt).1 = Some pt;
  seal_length : forall key iv pt,
    length (gcm_seal gcm key iv pt).1 = length pt;
  tag_length : forall key iv pt,
    length (gcm_seal gcm key iv pt).2 = 16%nat
}.

(** [createCipheriv] and [createDecipheriv] throw on a key that is not 32
    bytes long or an empty nonce; [setAuthTag] throws on a tag whose
    length GCM does not allow; [decipher.update(text, 'hex', ...)] throws
    on a text of odd length. *)
Definition valid_key (key : list byte) : bool := (length key =? 32)%nat.
Definition valid_iv (iv : list byte) : bool := negb (length iv =? 0)%nat.
Definition valid_tag (tag : list byte) : bool :=
  existsb (Nat.eqb (length tag)) [4; 8; 12; 13; 14; 15; 16]%nat.

Definition IV_LENGTH : nat := 16.

Section Cipher.

Variable gcm : aes_256_gcm.

(** The body of [encryptToken] once [crypto.randomBytes(iv_length)] has
    produced [iv]. *)
Definition encryptToken_iv (token : string) (encryption_key iv : list byte)
  : result string :=
  if valid_key encryption_key && valid_iv iv then
    let sealed := gcm_seal gcm encryption_key iv (list_byte_of_string token) in
    let encrypted := to_hex sealed.1 in
    let authTag := to_hex sealed.2 in
    Ok (to_hex iv +:+ ":" +:+ authTag +:+ ":" +:+ encrypted)
  else Throw (new_Error "Invalid key length or initialization vector").

Definition encryptToken (token : string) (encryption_key : list byte)
    (iv_length : nat) : M string :=
  let* iv := randomBytes iv_length in
  lift (encryptToken_iv token encryption_key iv).

(** The [try] block of [decryptToken]. *)
Definition decryptToken_body (encryptedToken : string)
    (encryption_key : list byte) : result string :=
  let parts := split ":" encryptedToken in
  let iv := parts !! 0%nat in
  let authTag := parts !! 1%nat in
  let encrypted := parts !! 2%nat in
  if negb (truthy_str iv) || negb (truthy_str authTag)
     || negb (truthy_str encrypted)
  then Throw (new_Error "Malformed token structure")
  else
    let iv := from_hex (default "" iv) in
    let authTag := from_hex (default "" authTag) in
    let encrypted := default "" encrypted in
    if negb (valid_key encryption_key && valid_iv iv) then
      Throw (new_Error "Invalid key length or initialization vector")
    else if negb (valid_tag authTag) then
      Throw (new_Error "Invalid authentication tag length")
    else if Nat.odd (code_units encrypted) then
      Throw (new_Error "The argument 'encoding' is invalid for data of odd length")
    else
      match gcm_open gcm encryption_key iv authTag (from_hex encrypted) with
      | Some pt => Ok (string_of_list_byte pt)
      | None => Throw (new_Error "Unsupported state or unable to authenticate data")
      end.

Definition decryptToken (encryptedToken : string) (encryption_key : list byte)
  : result string :=
  match decryptToken_body encryptedToken encryption_key with
  | Ok t => Ok t
  | Throw _ => Throw (new_Error "Invalid refresh token")
  end.

End Cipher.

(* ================================================================== *)
(** ** Configuration ([config/env.ts], [config/planMapping.ts]) *)

(** An entry of the static plan table: the plan identifier and the role
    the provider knows for it. *)
Record plan : Type := mkPlan { plan_id : string; plan_roleId : string }.

(** The values read from the environment at start-up.  [PLAN_MAPPING] is
    the table of [config/planMapping.ts], in the order [Object.entries]
    lists it. *)
Record Env : Type := mkEnv {
  TTL : Z;
  INACTIVITY_TIMEOUT : Z;
  AUTH0_REFRESH_TOKEN_EXPIRY : Z;
  ENCRYPTION_KEY : list byte;
  REFRESH_TOKEN_WINDOW : Z;
  MANAGEMENT_API_KEY : string;
  PLAN_MAPPING : list (string * plan)
}.

(* ================================================================== *)
(** ** Redis client *)

Module Redis.

(** [!value] on what [GET] returned is false for a non-empty string. *)
Definition present (v : option stored) : bool :=
  match v with
  | None => false
  | Some (Plain s) => negb (String.eqb s "")
  | Some (Json _) => true
  end.

(** [GET key] *)
Definition get (key : string) : M (option stored) :=
  io "Redis GET failed"
     (fun w => (Ok (e_value <$> redis w !! key), w)).

(** [SET key value EX seconds]; Redis refuses a non-positive expiry. *)
Definition set (key : string) (value : stored) (EX : Z) : M unit :=
  io "Redis SET failed"
     (fun w =>
        if (EX <=? 0)%Z
        then (Throw (new_Error "ERR invalid expire time in 'set' command"), w)
        else (Ok tt, set_redis (<[key := mkEntry value (Some (EX * 1000)%Z)]> (redis w)) w)).

(** [PTTL key]: -2 for a missing key, -1 for a key without expiry. *)
Definition pTTL (key : string) : M Z :=
  io "Redis PTTL failed"
     (fun w =>
        (Ok (match redis w !! key with
             | None => (-2)%Z
             | Some e => default (-1)%Z (e_pttl e)
             end), w)).

(** [EXPIRE key seconds]; a non-positive time deletes the key. *)
Definition expire (key : string) (seconds : Z) : M bool :=
  io "Redis EXPIRE failed"
     (fun w =>
        match redis w !! key with
        | None => (Ok false, w)
        | Some e =>
            if (seconds <=? 0)%Z
            then (Ok true, set_redis (delete key (redis w)) w)
            else (Ok true,
                  set_redis (<[key := mkEntry (e_value e) (Some (seconds * 1000)%Z)]> (redis w)) w)
        end).

(** [UNLINK key]: the number of keys removed. *)
Definition unlink (key : string) : M Z :=
  io "Redis UNLINK failed"
     (fun w =>
        match redis w !! key with
        | None => (Ok 0%Z, w)
        | Some _ => (Ok 1%Z, set_redis (delete key (redis w)) w)
        end).

(** [JSON.parse] of a stored string. *)
Definition JSON_parse (v : option stored) : M jsval :=
  match v with
  | Some (Json j) => ret j
  | _ => throw (new_Error "SyntaxError: Unexpected token in JSON")
  end.

End Redis.

(* ================================================================== *)
(** ** Prisma client: the [user] and [user_refresh_token] tables *)

Module Prisma.

(** [where: { sessionId, userId, revoked: false }] *)
Definition active_for (sessionId userID : string) (r : refresh_row) : bool :=
  String.eqb (row_sessionId r) sessionId
  && String.eqb (row_userId r) userID
  && negb (row_revoked r).

(** [where: { sessionId, userId, revoked: false, expiresAt: { gt: now } }] *)
Definition valid_for (sessionId userID : string) (now : Z) (r : refresh_row) : bool :=
  active_for sessionId userID r && (now <? row_expiresAt r)%Z.

Definition revoke (r : refresh_row) : refresh_row :=
  mkRow (row_userId r) (row_refreshToken r) (row_sessionId r)
        (row_expiresAt r) true.

(** What [updateMany] does to one row. *)
Definition revoke_if (sessionId userID : string) (r : refresh_row) : refresh_row :=
  if active_for sessionId userID r then revoke r else r.

(** [prisma.user.findUnique({ where: { auth0Id }, select: { id } })] *)
Definition user_findUnique (auth0Id : string) : M (option string) :=
  io "PrismaClientKnownRequestError"
     (fun w => (Ok (users w !! auth0Id), w)).

(** [prisma.userRefreshToken.updateMany({ where: ..., data: { revoked: true } })] *)
Definition refreshToken_revokeMany (sessionId userID : string) : M unit :=
  io "PrismaClientKnownRequestError"
     (fun w =>
        (Ok tt, set_ledger (map (revoke_if sessionId userID) (ledger w)) w)).

(** [prisma.userRefreshToken.create]: [refresh_token] and [session_id] are
    VARCHAR(255) and [refresh_token] carries a unique index. *)
Definition refreshToken_create (userID encryptedToken sessionId : string)
    (expiresAt : Z) : M unit :=
  io "PrismaClientKnownRequestError"
     (fun w =>
        if (255 <? Z.of_nat (String.length encryptedToken))%Z
           || (255 <? Z.of_nat (String.length sessionId))%Z
        then (Throw (new_Error "value too long for type character varying(255)"), w)
        else if existsb (fun r => String.eqb (row_refreshToken r) encryptedToken)
                        (ledger w)
        then (Throw (new_Error "Unique constraint failed on the fields: (refresh_token)"), w)
        else (Ok tt,
              set_ledger
                (ledger w ++ [mkRow userID encryptedToken sessionId expiresAt false]) w)).

(** [prisma.userRefreshToken.findFirst({ where: ... })] *)
Definition refreshToken_findFirst (sessionId userID : string) (now : Z)
  : M (option refresh_row) :=
  io "PrismaClientKnownRequestError"
     (fun w => (Ok (List.find (valid_for sessionId userID now) (ledger w)), w)).

(** The characters of a string: the bytes that do not continue a UTF-8
    sequence. *)
Fixpoint characters (s : string) : nat :=
  match s with
  | EmptyString => O
  | String c rest =>
      if continues (N_of_ascii c) then characters rest
      else S (characters rest)
  end.

(** What a [VARCHAR(n)] column takes: at most [n] characters, none of
    them the null character. *)
Definition varchar (n : nat) (s : string) : bool :=
  (characters s <=? n)%nat && free_of Ascii.zero s.

(** [prisma.user.update({ where: { auth0Id }, data: { planId, updatedAt } })]:
    [updated_at] is a [TIMESTAMPTZ] and [plan_id] a [VARCHAR(64)] (migration
    [init]); the client refuses a string that is no date, the database a
    plan that does not fit, and the update fails when no such user
    exists. *)
Definition user_update_plan (auth0Id planId updatedAt : string) : M unit :=
  io "PrismaClientKnownRequestError"
     (fun w =>
        if negb (is_datetime w updatedAt) then
          (Throw (new_Error "PrismaClientValidationError"), w)
        else
          match users w !! auth0Id with
          | None => (Throw (new_Error "Record to update not found"), w)
          | Some _ =>
              if negb (varchar 64 planId) then
                (Throw (new_Error "value too long for type character varying(64)"), w)
              else (Ok tt, set_user_plan (<[auth0Id := planId]> (user_plan w)) w)
          end).

(** A string argument handed to the client from an untyped value: the
    client rejects anything that is not a string. *)
Definition string_arg (v : jsval) : M string :=
  match v with
  | JStr s => ret s
  | _ => throw (new_Error "PrismaClientValidationError")
  end.

End Prisma.

(* ================================================================== *)
(** ** HTTP calls to the identity provider (axios) *)

Module Axios.

Definition send (r : request) : M unit :=
  fun w => (Ok tt, set_sent (sent w ++ [r]) w).

Definition rejected {A} : M A :=
  throw (new_Error "Request failed").

(** [POST /oauth/token] with [grant_type=refresh_token] *)
Definition post_refresh (refresh_token : string) : M token_body :=
  io "Network Error"
     (let* _ := send (ReqRefresh refresh_token) in
      fun w =>
        match oauth_refresh (provider w) refresh_token with
        | Some body => (Ok body, w)
        | None => rejected w
        end).

(** [POST /oauth/token] with [grant_type=client_credentials] *)
Definition post_client_credentials : M (string * Z) :=
  io "Network Error"
     (let* _ := send ReqClientCredentials in
      fun w =>
        match oauth_client_credentials (provider w) with
        | Some body => (Ok body, w)
        | None => rejected w
        end).

(** [GET /api/v2/users/:id/roles]: status and body *)
Definition get_roles (auth0Id : string) : M (Z * jsval) :=
  io "Network Error"
     (let* _ := send (ReqGetRoles auth0Id) in
      fun w =>
        match roles_of (provider w) auth0Id with
        | Some reply => (Ok reply, w)
        | None => rejected w
        end).

(** What [JSON.stringify] writes for an item of an array: [null] for
    [undefined]. *)
Definition array_item (v : jsval) : jsval :=
  match v with
  | JUndefined => JNull
  | _ => v
  end.

(** [axios.post] to [/api/v2/users/:id/roles] with the body
    [JSON.stringify({ roles: [roleId] })]: its status.  [deleteUserRole]
    and [updateUserRole] both issue this request. *)
Definition post_user_roles (auth0Id : string) (roleId : jsval) : M Z :=
  io "Network Error"
     (let* _ := send (ReqPostRoles auth0Id (array_item roleId)) in
      fun w =>
        match post_roles (provider w) auth0Id (array_item roleId) with
        | Some status => (Ok status, w)
        | None => rejected w
        end).

(** [GET /v2/logout] *)
Definition get_logout : M unit :=
  io "Network Error"
     (let* _ := send ReqLogout in
      fun w => if logout_ok (provider w) then (Ok tt, w) else rejected w).

End Axios.

(* ================================================================== *)
(** ** The services *)

(** [sessionData] of [types/userSession.d.ts]. *)
Record sessionData : Type := mkSession {
  userId : string;
  accessToken : string;
  accessExp : Z
}.

(** [sessionStatus] of [types/userSession.d.ts]. *)
Inductive sessionStatus : Type := NotFound | Expired | Valid.

(** What [getValidSessionOrRevoke] resolves to. *)
Record gate_result : Type := mkGate {
  success : bool;
  code : sessionStatus;
  gate_sessionData : option jsval
}.

(** What [maybeRefreshAccessToken] resolves to. *)
Record refresh_result : Type := mkRefresh {
  refreshed : bool;
  refreshed_accessToken : string
}.

(** The response [updateUserPlanService] hands to its callback. *)
Record plan_response : Type := mkResponse {
  resp_success : bool;
  resp_error_message : string;
  resp_code : Z
}.

(** The session document [saveUserSessionRedis] serialises. *)
Definition session_document (access_token auth0Id : string) (exp : jsval) : jsval :=
  JObj [("accessToken", JStr access_token);
        ("userId", JStr auth0Id);
        ("accessExp", exp)].

Definition session_key (sessionId : string) : string := "session:" +:+ sessionId.
Definition active_key (sessionId : string) : string :=
  session_key sessionId +:+ ":active".

Section Services.

Variable gcm : aes_256_gcm.
Variable env : Env.

(* ---------------------------------------------------------------- *)
(** *** [services/tokenService.ts] *)

(** [verifyAccessToken]: rejects when signature, issuer or audience do
    not check against the provider's keys. *)
Definition verifyAccessToken (token : string) : M bool :=
  io "Failed to retrieve signing key from JWKS"
     (fun w =>
        if jwt_verify (provider w) token then (Ok true, w)
        else (Throw (new_Error "JsonWebTokenError"), w)).

(** [decodeAccessToken]: after the check of the payload it logs
    [exp ? new Date(exp * 1000).toISOString() : 'no expiry claim'], inside
    the [try]. *)
Definition decodeAccessToken (accessToken : string) : M jsval :=
  try_catch
    (fun w =>
       let decoded := jwt_decode (provider w) accessToken in
       if negb (truthy decoded) || negb (is_object decoded) then
         (Throw (mkError "Failed to decode access token: token is malformed or empty"
                         (Some 400%Z)), w)
       else
         let exp := get_prop decoded "exp" in
         match (if truthy exp then Date_toISOString_of_seconds exp else Ok tt) with
         | Throw err => (Throw err, w)
         | Ok _ => (Ok decoded, w)
         end)
    (fun err => throw err).

(* ---------------------------------------------------------------- *)
(** *** [services/redisService.ts] *)

(** [crypto.randomUUID()]: sixteen random bytes, stamped with the version
    4 and the variant, in groups of 8, 4, 4, 4 and 12 digits. *)
Definition uuid_v4 (bs : list byte) : string :=
  let version b := default x00 (Byte.of_N (Byte.to_N b mod 16 + 64)) in
  let variant b := default x00 (Byte.of_N (Byte.to_N b mod 64 + 128)) in
  let stamped := alter version 6%nat (alter variant 8%nat bs) in
  to_hex (take 4 stamped)
  +:+ "-" +:+ to_hex (take 2 (drop 4 stamped))
  +:+ "-" +:+ to_hex (take 2 (drop 6 stamped))
  +:+ "-" +:+ to_hex (take 2 (drop 8 stamped))
  +:+ "-" +:+ to_hex (drop 10 stamped).

Definition randomUUID : M string :=
  let* bs := randomBytes 16 in ret (uuid_v4 bs).

Definition saveUserSessionRedis (auth0Id access_token : string)
    (sessionId : option string) : M string :=
  let* sessionId :=
    (if negb (truthy_str sessionId) then randomUUID
     else ret (default "" sessionId)) in
  let* decoded := decodeAccessToken access_token in
  let exp := get_prop decoded "exp" in
  if negb (truthy exp) || negb (is_number exp) then
    throw (new_Error "Invalid access token: missing exp")
  else
    let* now := Date_now in
    let nowSec := (now / 1000)%Z in
    let secondsUntilExp := Z.max (num_of exp - nowSec) 1 in
    let effectiveTtl := Z.max 1 (Z.min (TTL env) secondsUntilExp) in
    let key := session_key sessionId in
    let inactivityKey := key +:+ ":active" in
    try_catch
      (let* _ := Redis.set key (Json (session_document access_token auth0Id exp))
                           effectiveTtl in
       let* _ := Redis.set inactivityKey (Plain "1") (INACTIVITY_TIMEOUT env) in
       ret sessionId)
      (fun err =>
         throw (new_Error ("Redis save failed for sessionID " +:+ sessionId))).

Definition getUserSessionRedis (sessionId : string) : M (jsval * bool) :=
  let key := session_key sessionId in
  let activeKey := key +:+ ":active" in
  try_catch
    (let* sessionDataJson := Redis.get key in
     if negb (Redis.present sessionDataJson) then
       throw (new_Error "Session data not found")
     else
       let* sessionData := Redis.JSON_parse sessionDataJson in
       let* activeVal := Redis.get activeKey in
       if Redis.present activeVal then
         let* ttlMs := Redis.pTTL activeKey in
         if (ttlMs =? -2)%Z then ret (sessionData, false)
         else
           let* _ :=
             (if (ttlMs =? -1)%Z || (ttlMs <? 180000)%Z
              then let* _ := Redis.expire activeKey (INACTIVITY_TIMEOUT env) in ret tt
              else ret tt) in
           ret (sessionData, true)
       else ret (sessionData, false))
    (fun err =>
       throw (new_Error ("Unable to retrieve session from Redis for sessionId: "
                         +:+ sessionId))).

Definition deleteUserSessionRedis (sessionId : string) : M bool :=
  let key := session_key sessionId in
  let activeKey := key +:+ ":active" in
  try_catch
    (let* deletedMain := Redis.unlink key in
     let* deletedActive := Redis.unlink activeKey in
     if (0 <? deletedMain)%Z || (0 <? deletedActive)%Z then ret true
     else ret false)
    (fun err =>
       throw (new_Error ("Redis deletion failed for session " +:+ sessionId))).

Definition saveManagementAPITokenRedis (accessToken : string) (expiresIn : Z)
  : M unit :=
  let key := MANAGEMENT_API_KEY env in
  try_catch
    (Redis.set key (Json (JStr accessToken)) expiresIn)
    (fun err =>
       throw (new_Error "Failed to save Management API access token to Redis")).

Definition getManagementAPITokenRedis : M jsval :=
  let key := MANAGEMENT_API_KEY env in
  try_catch
    (let* accessTokenJson := Redis.get key in
     if negb (Redis.present accessTokenJson) then
       throw (new_Error "No cached Management API access token available")
     else Redis.JSON_parse accessTokenJson)
    (fun err =>
       throw (new_Error "Failed to retrieve Management API access token from Redis")).

(* ---------------------------------------------------------------- *)
(** *** [utils/userId.ts] and [services/prismaUserService.ts] *)

Definition getUserIdByAuth0 (auth0Id : string) : M string :=
  let* user := Prisma.user_findUnique auth0Id in
  match user with
  | None => throw (mkError "User not found" (Some 404%Z))
  | Some id => ret id
  end.

Definition saveRefreshTokenPrisma (sessionId newRefreshToken auth0Id : string)
    (oldRefreshToken : option string) : M unit :=
  let* now := Date_now in
  let expiryDate := (now + AUTH0_REFRESH_TOKEN_EXPIRY env * 1000)%Z in
  try_catch
    (let* userID := getUserIdByAuth0 auth0Id in
     let* _ :=
       (if truthy_str oldRefreshToken
        then Prisma.refreshToken_revokeMany sessionId userID
        else ret tt) in
     let* encryptedToken :=
       encryptToken gcm newRefreshToken (ENCRYPTION_KEY env) IV_LENGTH in
     Prisma.refreshToken_create userID encryptedToken sessionId expiryDate)
    (fun err => throw err).

Definition fetchRefreshTokenPrisma (sessionId auth0Id : string) : M string :=
  try_catch
    (let* userID := getUserIdByAuth0 auth0Id in
     let* now := Date_now in
     let* refreshTokenData := Prisma.refreshToken_findFirst sessionId userID now in
     match refreshTokenData with
     | None => throw (mkError "No valid refresh token found" (Some 404%Z))
     | Some row =>
         lift (decryptToken gcm (row_refreshToken row) (ENCRYPTION_KEY env))
     end)
    (fun err => throw err).

Definition revokeRefreshTokenPrisma (sessionId auth0Id : string) : M unit :=
  try_catch
    (let* userID := getUserIdByAuth0 auth0Id in
     Prisma.refreshToken_revokeMany sessionId userID)
    (fun err => throw err).

Definition updateUserPlanPrisma (auth0Id planId updatedAt : string) : M unit :=
  try_catch
    (Prisma.user_update_plan auth0Id planId updatedAt)
    (fun err => throw err).

(* ---------------------------------------------------------------- *)
(** *** [services/managementService.ts] *)

(** The three calls below build the header
    [Authorization: `Bearer ${accessToken}`] inside their [try]: the
    conversion of the token comes first, and can throw. *)
Definition fetchUserRoleService (accessToken : jsval) (auth0Id : string)
  : M jsval :=
  try_catch
    (let* bearer := lift (to_string accessToken) in
     let* response := Axios.get_roles auth0Id in
     if negb (response.1 =? 200)%Z then
       throw (new_Error ("Unexpected status: " +:+ number_to_string response.1))
     else
       match response.2 with
       | JArr (first :: _) =>
           if negb (truthy first) && (is_object first || strict_eq first JUndefined)
           then throw (new_Error "TypeError: Cannot read properties of null")
           else ret (get_prop first "id")
       | _ => throw (new_Error "No role assigned to user")
       end)
    (fun err => throw err).

Definition deleteUserRole (accessToken : jsval) (auth0Id : string)
    (roleId : jsval) : M unit :=
  try_catch
    (let* bearer := lift (to_string accessToken) in
     let* status := Axios.post_user_roles auth0Id roleId in
     if negb (status =? 204)%Z then
       throw (new_Error ("Unexpected status: " +:+ number_to_string status))
     else ret tt)
    (fun err => throw err).

Definition updateUserRole (accessToken : jsval) (auth0Id : string)
    (newRoleId : jsval) : M unit :=
  try_catch
    (let* bearer := lift (to_string accessToken) in
     let* status := Axios.post_user_roles auth0Id newRoleId in
     if negb (status =? 204)%Z then
       throw (new_Error ("Unexpected status: " +:+ number_to_string status))
     else ret tt)
    (fun err => throw err).

(* ---------------------------------------------------------------- *)
(** *** [services/authService.ts] *)

Definition logoutService (sessionId : string) : M unit :=
  try_catch
    (let* fetched := getUserSessionRedis sessionId in
     let sessionData := fetched.1 in
     let* _ :=
       (if truthy sessionData && truthy (get_prop sessionData "user_id") then
          let* user_id := Prisma.string_arg (get_prop sessionData "user_id") in
          revokeRefreshTokenPrisma sessionId user_id
        else ret tt) in
     let* _ :=
       try_catch (let* _ := deleteUserSessionRedis sessionId in ret tt)
                 (fun err => ret tt) in
     Axios.get_logout)
    (fun err => throw err).

Definition refreshTokenService (auth0Id sessionId : string) : M string :=
  try_catch
    (let* oldRefreshToken := fetchRefreshTokenPrisma sessionId auth0Id in
     let* response := Axios.post_refresh oldRefreshToken in
     let access_token := access_token response in
     let refresh_token := refresh_token response in
     if negb (truthy_str access_token) || negb (truthy_str refresh_token) then
       throw (new_Error "Auth0 did not return valid tokens")
     else
       let access_token := default "" access_token in
       let refresh_token := default "" refresh_token in
       let* _ := verifyAccessToken access_token in
       let* _ := saveUserSessionRedis auth0Id access_token (Some sessionId) in
       let* _ := saveRefreshTokenPrisma sessionId refresh_token auth0Id
                                        (Some oldRefreshToken) in
       ret access_token)
    (fun err => throw err).

Definition getManagementAPIToken : M jsval :=
  try_catch
    (let* response := Axios.post_client_credentials in
     let access_token := response.1 in
     let expires_in := response.2 in
     let* _ := verifyAccessToken access_token in
     let* _ := saveManagementAPITokenRedis access_token expires_in in
     ret (JStr access_token))
    (fun err => throw err).

(* ---------------------------------------------------------------- *)
(** *** [lib/session/refreshAccessToken.ts] *)

Definition maybeRefreshAccessToken (sessionId : string) (sessionData : sessionData)
  : M refresh_result :=
  try_catch
    (let expiryTime := (accessExp sessionData * 1000)%Z in
     let* currentTime := Date_now in
     let timeLeft := (expiryTime - currentTime)%Z in
     if (timeLeft <=? REFRESH_TOKEN_WINDOW env)%Z then
       let* newAccessToken := refreshTokenService (userId sessionData) sessionId in
       ret (mkRefresh true newAccessToken)
     else ret (mkRefresh false (accessToken sessionData)))
    (fun error => ret (mkRefresh false (accessToken sessionData))).

(* ---------------------------------------------------------------- *)
(** *** [lib/session/sessionHandler.ts] *)

Definition getValidSessionOrRevoke (sessionId : string) : M gate_result :=
  try_catch
    (let* fetched := getUserSessionRedis sessionId in
     let sessionData := fetched.1 in
     let active := fetched.2 in
     if negb (truthy sessionData) then ret (mkGate false NotFound None)
     else if negb active then
       let* _ :=
         try_catch
           (let* userId := Prisma.string_arg (get_prop sessionData "userId") in
            revokeRefreshTokenPrisma sessionId userId)
           (fun e => ret tt) in
       let* _ :=
         try_catch (let* _ := deleteUserSessionRedis sessionId in ret tt)
                   (fun e => ret tt) in
       ret (mkGate false Expired None)
     else ret (mkGate true Valid (Some sessionData)))
    (fun err => ret (mkGate false NotFound None)).

(* ---------------------------------------------------------------- *)
(** *** [services/grpcService.ts] *)

(** The unary call: the [authorization] metadata and the request body. *)
Record UpdateUserPlanCall : Type := mkCall {
  authorization : option string;
  auth0_id : string;
  call_plan_id : string;
  updated_at : string
}.

(** [authHeader.split(' ')[1]] *)
Definition bearer_token (authHeader : string) : string :=
  default "" (split " " authHeader !! 1%nat).

(** [Object.entries(PLAN_MAPPING).find(([_, plan]) => plan.id === plan_id)?.[1].roleId] *)
Definition lookup_role (plan_id' : string) : jsval :=
  match List.find (fun e => String.eqb (plan_id e.2) plan_id') (PLAN_MAPPING env) with
  | Some e => JStr (plan_roleId e.2)
  | None => JUndefined
  end.

(** The handler of [UpdateUserPlan]; the value returned is the response
    given to the callback.  The repository holds two revisions of it,
    which differ in how the caller is authenticated and in the message of
    the failure response, not in the steps below. *)
Definition updateUserPlanService (call : UpdateUserPlanCall) : M plan_response :=
  let authHeader := authorization call in
  if negb (truthy_str authHeader)
     || negb (String.prefix "Bearer " (default "" authHeader))
  then ret (mkResponse false "Unauthenticated" 401)
  else
    let* authenticated :=
      try_catch
        (let* _ := verifyAccessToken (bearer_token (default "" authHeader)) in
         ret true)
        (fun err => ret false) in
    if negb authenticated then ret (mkResponse false "Unauthenticated" 401)
    else if String.eqb (auth0_id call) "" then
      ret (mkResponse false "Missing user identifier" 400)
    else
      try_catch
        (let newRoleId := lookup_role (call_plan_id call) in
         let* _ := updateUserPlanPrisma (auth0_id call) (call_plan_id call)
                                        (updated_at call) in
         let* managementAccessToken :=
           try_catch getManagementAPITokenRedis
                     (fun _ => getManagementAPIToken) in
         let* currentRole :=
           fetchUserRoleService managementAccessToken (auth0_id call) in
         if strict_eq newRoleId currentRole then ret (mkResponse true "" 200)
         else
           let* _ := deleteUserRole managementAccessToken (auth0_id call)
                                    currentRole in
           let* _ := updateUserRole managementAccessToken (auth0_id call)
                                    newRoleId in
           ret (mkResponse true "" 200))
        (fun err => ret (mkResponse false "Internal server error" 500)).

End Services.

(* ================================================================== *)
(** ** Vocabulary of the properties *)

(** What no call of the service changes: the users table, the clock
    within one request, and the provider. *)
Definition ground (w : World) : gmap string string * Z * Provider :=
  (users w, clock w, provider w).

(** The same, with the refresh-token table. *)
Definition tables (w : World)
  : gmap string string * Z * Provider * list refresh_row :=
  (users w, clock w, provider w, ledger w).

(** A computation all of whose runs, returning or throwing, relate the
    world before to the world after by [R]. *)
Definition respects {A : Type} (R : World -> World -> Prop) (m : M A) : Prop :=
  forall w r w', m w = (r, w') -> R w w'.

(** The relations used for that: reflexive, transitive, and blind to the
    fault schedule. *)
Class Frame (R : World -> World -> Prop) : Prop := mkFrame {
  frame_refl : forall w, R w w;
  frame_trans : forall a b c, R a b -> R b c -> R a c;
  frame_faults : forall fs w, R w (set_faults fs w)
}.

(** The view is the same after as before. *)
Definition same {V : Type} (view : World -> V) (w w' : World) : Prop :=
  view w' = view w.

(** The plan column is untouched and requests were only added. *)
Definition grows (w w' : World) : Prop :=
  user_plan w' = user_plan w /\ exists more, sent w' = (sent w ++ more)%list.

(** Every row of the ledger that decrypts at all decrypts to a non-empty
    token: the state [saveRefreshTokenPrisma] maintains. *)
Definition ledger_sound (gcm : aes_256_gcm) (env : Env) (l : list refresh_row)
  : Prop :=
  forall r t, In r l ->
    decryptToken gcm (row_refreshToken r) (ENCRYPTION_KEY env) = Ok t ->
    t <> "".

(** The world with its fault schedule emptied: the stores answer. *)
Definition calm (w : World) : World := set_faults [] w.

(* ================================================================== *)
(** ** A concrete instance to run the model on *)

Module Fixture.

(** A stand-in for AES-256-GCM that satisfies [gcm_laws]: it shifts every
    byte by one and tags with a checksum.  It has no security; it only
    lets the functions above be evaluated on concrete inputs. *)
Definition shift (b : byte) : byte :=
  default x00 (Byte.of_N ((Byte.to_N b + 1) mod 256)).

Definition unshift (b : byte) : byte :=
  default x00 (Byte.of_N ((Byte.to_N b + 255) mod 256)).

Definition checksum (bs : list byte) : byte :=
  default x00
    (Byte.of_N (fold_right (fun b acc => (Byte.to_N b + acc) mod 256)%N 0%N bs)).

Definition tag_of (key iv ct : list byte) : list byte :=
  repeat (checksum (key ++ iv ++ ct)) 16.

Definition bytes_eqb (a b : list byte) : bool :=
  bool_decide (map Byte.to_N a = map Byte.to_N b).

Definition gcm : aes_256_gcm :=
  {| gcm_seal key iv pt := (map shift pt, tag_of key iv (map shift pt));
     gcm_open key iv tag ct :=
       if bytes_eqb tag (tag_of key iv ct) then Some (map unshift ct)
       else None |}.

Definition key : list byte := repeat x2a 32.

(** The defaults of [config/env.ts] and a two-plan table. *)
Definition env : Env :=
  {| TTL := 86400;
     INACTIVITY_TIMEOUT := 900;
     AUTH0_REFRESH_TOKEN_EXPIRY := 31557600;
     ENCRYPTION_KEY := key;
     REFRESH_TOKEN_WINDOW := 60000;
     MANAGEMENT_API_KEY := "mgmt_token";
     PLAN_MAPPING := [("free", mkPlan "plan_free" "rol_free");
                      ("premium", mkPlan "plan_premium" "rol_premium")] |}.

(** A provider that answers every refresh with the pair ["at2"], ["rt2"],
    accepts every token, decodes every access token to [{exp: 2000}],
    reports the role ["rol_free"] for every user and takes every role but
    [null]. *)
Definition idp : Provider :=
  {| oauth_refresh _ := Some (mkTokens (Some "at2") (Some "rt2"));
     oauth_client_credentials := Some ("m2m", 3600%Z);
     roles_of _ := Some (200%Z, JArr [JObj [("id", JStr "rol_free")]]);
     post_roles _ r := if truthy r then Some 204%Z else None;
     logout_ok := true;
     jwt_verify _ := true;
     jwt_decode _ := JObj [("sub", JStr "auth0|u1"); ("exp", JNum 2000)] |}.

(** The refresh token ["rt1"] as [encryptToken] stores it under [key]
    with the nonce made of sixteen bytes [07]. *)
Definition blob_rt1 : string :=
  match encryptToken_iv gcm "rt1" key (repeat x07 16) with
  | Ok b => b
  | Throw _ => ""
  end.

(** [s] has the shape of [template], whose [0] stands for any digit. *)
Fixpoint shaped (template s : string) {struct s} : bool :=
  match s, template with
  | EmptyString, EmptyString => true
  | String c rest, String t template' =>
      (if Ascii.eqb t "0"
       then (48 <=? N_of_ascii c)%N && (N_of_ascii c <=? 57)%N
       else Ascii.eqb c t)
      && shaped template' rest
  | _, _ => false
  end.

(** The timestamps the database client of the fixture takes: those of
    the shape [YYYY-MM-DDThh:mm:ssZ]. *)
Definition utc_timestamp : string -> bool := shaped "0000-00-00T00:00:00Z".

(** One user with a live session ["s1"] (marker present, 100 s left), an
    access token that expires at second 1030, and one valid ledger row;
    the clock stands at second 1000. *)
Definition world : World :=
  {| redis :=
       <[active_key "s1" := mkEntry (Plain "1") (Some 100000%Z)]>
         (<[session_key "s1" :=
              mkEntry (Json (session_document "at1" "auth0|u1" (JNum 1030)))
                      (Some 30000%Z)]> ∅);
     users := <["auth0|u1" := "u-1"]> ∅;
     user_plan := <["auth0|u1" := "plan_free"]> ∅;
     ledger := [mkRow "u-1" blob_rt1 "s1" 5000000%Z false];
     clock := 1000000;
     entropy := fun n => default x00 (Byte.of_N (N.of_nat (n mod 256)));
     drawn := 0;
     faults := [];
     sent := [];
     provider := idp;
     is_datetime := utc_timestamp |}.

Definition session : sessionData := mkSession "auth0|u1" "at1" 1030.

Definition with_provider (p : Provider) (w : World) : World :=
  mkWorld (redis w) (users w) (user_plan w) (ledger w) (clock w) (entropy w)
          (drawn w) (faults w) (sent w) p (is_datetime w).

(** The provider, unreachable for refresh. *)
Definition idp_down : Provider :=
  mkProvider (fun _ => None) (oauth_client_credentials idp) (roles_of idp)
             (post_roles idp) (logout_ok idp)
             (jwt_verify idp) (jwt_decode idp).

(** The provider, answering a refresh without a refresh token. *)
Definition idp_no_refresh_token : Provider :=
  mkProvider (fun _ => Some (mkTokens (Some "at2") None))
             (oauth_client_credentials idp) (roles_of idp)
             (post_roles idp) (logout_ok idp)
             (jwt_verify idp) (jwt_decode idp).

(** The provider, issuing access tokens that do not verify. *)
Definition idp_bad_signature : Provider :=
  mkProvider (oauth_refresh idp) (oauth_client_credentials idp) (roles_of idp)
             (post_roles idp) (logout_ok idp)
             (fun _ => false) (jwt_decode idp).

(** The provider, issuing access tokens whose [exp] claim is 0. *)
Definition idp_exp0 : Provider :=
  mkProvider (oauth_refresh idp) (oauth_client_credentials idp) (roles_of idp)
             (post_roles idp) (logout_ok idp)
             (jwt_verify idp) (fun _ => JObj [("exp", JNum 0)]).

(** The world with the management token in the cache. *)
Definition world_cached : World :=
  set_redis (<[MANAGEMENT_API_KEY env := mkEntry (Json (JStr "m2m")) (Some 3600000%Z)]>
               (redis world)) world.

(** A plan change to a plan the table does not list. *)
Definition call_gold : UpdateUserPlanCall :=
  mkCall (Some "Bearer m2m") "auth0|u1" "plan_gold" "2025-09-01T00:00:00Z".

(** The same world with the ledger emptied. *)
Definition world_no_token : World := set_ledger [] world.

(** The same world with the liveness marker gone. *)
Definition world_inactive : World :=
  set_redis (delete (active_key "s1") (redis world)) world.

End Fixture.

(* ================================================================== *)
(** ** User settings ([config/userSettings.ts],
       [utils/validateUserSettings.ts]) *)

Module Settings.

(** [SettingType] of [types/userSettings.d.ts]. *)
Inductive SettingType : Type := TBoolean | TNumber | TString | TEnum.

(** [SettingDefinition]: [values] is empty for the types that have none;
    the [description], which no code reads, is left out. *)
Record SettingDefinition : Type := mkSetting {
  setting_type : SettingType;
  setting_values : list jsval;
  setting_default : jsval;
  editable : bool;
  premiumOnly : bool
}.

(** [ALLOWED_USER_SETTINGS], in the order [Object.entries] lists it. *)
Definition ALLOWED_USER_SETTINGS : list (string * SettingDefinition) :=
  [ ("roundup_enabled",
     mkSetting TBoolean [] (JBool true) true false);
    ("roundup_frequency",
     mkSetting TEnum [JStr "instant"; JStr "daily"; JStr "weekly"] (JStr "instant")
               true false);
    ("roundup_multiplier",
     mkSetting TEnum [JNum 1; JNum 2; JNum 3] (JNum 1) true true);
    ("roundup_threshold",
     mkSetting TNumber [] (JNum 5) true false);
    ("auto_invest_enabled",
     mkSetting TBoolean [] (JBool false) true true);
    ("auto_invest_amount",
     mkSetting TNumber [] (JNum 0) true true);
    ("auto_invest_frequency",
     mkSetting TEnum [JStr "weekly"; JStr "bi-weekly"; JStr "monthly"] (JStr "weekly")
               true true);
    ("auto_invest_day",
     mkSetting TString [] (JStr "monday") true true);
    ("auto_invest_destination_plan_id",
     mkSetting TString [] (JStr EmptyString) true true);
    ("auto_invest_max_cap",
     mkSetting TNumber [] (JNum 1000) true true);
    ("auto_rebalance_enabled",
     mkSetting TBoolean [] (JBool true) true true);
    ("risk_profile",
     mkSetting TEnum [JStr "conservative"; JStr "balanced"; JStr "aggressive"]
               (JStr "balanced") true false);
    ("investment_confirmation_alerts",
     mkSetting TBoolean [] (JBool true) true false);
    ("weekly_roundup_summary",
     mkSetting TBoolean [] (JBool false) true true);
    ("portfolio_drift_alerts",
     mkSetting TBoolean [] (JBool false) true true);
    ("watchlist_alerts_enabled",
     mkSetting TBoolean [] (JBool false) true true);
    ("roundup_threshold_alert_enabled",
     mkSetting TBoolean [] (JBool true) true true);
    ("dark_mode_enabled",
     mkSetting TBoolean [] (JBool false) true false);
    ("educational_tips_enabled",
     mkSetting TBoolean [] (JBool true) true false);
    ("experimental_features_opt_in",
     mkSetting TBoolean [] (JBool false) true false) ].

(** The members every object literal inherits from [Object.prototype]:
    [table[key]] finds them too. *)
Definition Object_prototype : list string :=
  [ "constructor"; "__defineGetter__"; "__defineSetter__"; "hasOwnProperty";
    "__lookupGetter__"; "__lookupSetter__"; "isPrototypeOf";
    "propertyIsEnumerable"; "toString"; "valueOf"; "__proto__";
    "toLocaleString" ].

(** What [table[key]] evaluates to: a definition of the table, an inherited
    member (truthy, and without a [premiumOnly] field), or [undefined]. *)
Inductive rule : Type :=
| Own (d : SettingDefinition)
| Inherited.

Definition own (table : list (string * SettingDefinition)) (key : string)
  : option SettingDefinition :=
  snd <$> List.find (fun e => String.eqb e.1 key) table.

Definition rule_of (table : list (string * SettingDefinition)) (key : string)
  : option rule :=
  match own table key with
  | Some d => Some (Own d)
  | None =>
      if existsb (String.eqb key) Object_prototype then Some Inherited else None
  end.

(** [rule.premiumOnly], as a condition. *)
Definition rule_premiumOnly (r : rule) : bool :=
  match r with
  | Own d => premiumOnly d
  | Inherited => false
  end.

(** The [forEach] over [Object.entries(settings)]: it stops at the first
    key that throws. *)
Fixpoint check_entries (table : list (string * SettingDefinition))
    (userRole : string) (entries : list (string * jsval)) : result unit :=
  match entries with
  | [] => Ok tt
  | (key, _) :: rest =>
      match rule_of table key with
      | None => Throw (new_Error ("Unknown setting: " +:+ key))
      | Some r =>
          if rule_premiumOnly r && negb (String.eqb userRole "paid-user")
          then Throw (new_Error ("Unauthorized setting: " +:+ key))
          else check_entries table userRole rest
      end
  end.

(** [validateSettingsUtil(userRole, settings)]; [settings] is given by
    [Object.entries(settings)]. *)
Definition validateSettingsUtil (userRole : string)
    (settings : list (string * jsval)) : result bool :=
  match check_entries ALLOWED_USER_SETTINGS userRole settings with
  | Ok _ => Ok true
  | Throw err => Throw err
  end.

End Settings.

(* ================================================================== *)
(** ** Callers: gRPC authentication and handlers, Express middleware and
       controllers *)

(** What a handler does to the Express response, in order. *)
Inductive res_action : Type :=
| ResStatus (code : Z)
| ResJson (body : jsval)
| ResEnd
| ResCookie (name value : string)
| ResClearCookie (name : string)
| ResRedirect (url : string).

(** [SessionRequest] of [types/request.d.ts], with the [sessionId] cookie
    and the [authorization] header. *)
Record SessionRequest : Type := mkRequest {
  cookie_sessionId : option string;
  req_sessionId : option string;
  req_session : option jsval;
  req_authorization : option string
}.

(** How a middleware ends: it answers, or it passes the request on. *)
Inductive handled : Type :=
| Replied (actions : list res_action)
| Next (req : SessionRequest).

(** What [getUserDetailsService] gives its callback: an error status, or
    a response. *)
Record details_response : Type := mkDetails {
  details_success : bool;
  details_auth0_id : jsval;
  details_role : jsval;
  details_permissions : jsval;
  details_error_message : option string;
  details_code : Z
}.

Inductive details_reply : Type :=
| Unauthenticated (message : string)
| Details (response : details_response).

(** [s.includes(part)] *)
Definition includes (part s : string) : bool :=
  match String.index 0 part s with
  | Some _ => true
  | None => false
  end.

Section Callers.

Variable env : Env.

(** [process.env.AUTH0_LOGOUT_URL], read by [authController.ts]. *)
Variable logoutUrl : string.

(* ---------------------------------------------------------------- *)
(** *** [services/grpcService.ts]: the [try] block of
        [updateUserPlanService], which follows the checks of the caller
        and of the request *)

Definition updateUserPlanService_body (call : UpdateUserPlanCall)
  : M plan_response :=
  let newRoleId := lookup_role env (call_plan_id call) in
  let* _ := updateUserPlanPrisma (auth0_id call) (call_plan_id call)
                                 (updated_at call) in
  let* managementAccessToken :=
    try_catch (getManagementAPITokenRedis env)
              (fun _ => getManagementAPIToken env) in
  let* currentRole :=
    fetchUserRoleService managementAccessToken (auth0_id call) in
  if strict_eq newRoleId currentRole then ret (mkResponse true "" 200)
  else
    let* _ := deleteUserRole managementAccessToken (auth0_id call) currentRole in
    let* _ := updateUserRole managementAccessToken (auth0_id call) newRoleId in
    ret (mkResponse true "" 200).

(* ---------------------------------------------------------------- *)
(** *** [grpc/grpcAuth.ts] *)

(** [verifyGrpcAuthToken(metadata)]; [rawAuthHeader] is
    [metadata.get('authorization')]. *)
Definition verifyGrpcAuthToken (rawAuthHeader : list string) : M bool :=
  if negb (truthy_str (rawAuthHeader !! 0%nat)) then
    throw (new_Error "Unauthorized: Authorization header missing")
  else
    let authHeader := default "" (rawAuthHeader !! 0%nat) in
    if negb (truthy_str (Some authHeader))
       || negb (String.prefix "Bearer " authHeader) then
      throw (new_Error "Unauthorized: Invalid Authorization header format")
    else
      try_catch
        (let accessToken := bearer_token authHeader in
         let* _ := verifyAccessToken accessToken in
         ret true)
        (fun err => throw (new_Error "Unauthorized: token validation failed")).

(* ---------------------------------------------------------------- *)
(** *** [services/grpcService.ts]: [getUserDetailsService] *)

(** [decodeAccessToken] applied to a field of a parsed document:
    [jwt.decode] yields [null] for what is not a string. *)
Definition decodeAccessToken_of (accessToken : jsval) : M jsval :=
  match accessToken with
  | JStr token => decodeAccessToken token
  | _ =>
      throw (mkError "Failed to decode access token: token is malformed or empty"
                     (Some 400%Z))
  end.

Definition getUserDetailsService (metadata : list string) (session_id : string)
  : M details_reply :=
  let* authenticated :=
    try_catch (let* _ := verifyGrpcAuthToken metadata in ret true)
              (fun err => ret false) in
  if negb authenticated then ret (Unauthenticated "Missing or invalid token")
  else
    try_catch
      (let* fetched := getUserSessionRedis env session_id in
       let sessionData := fetched.1 in
       if negb (truthy sessionData) && (is_object sessionData
                                        || strict_eq sessionData JUndefined)
       then throw (new_Error "TypeError: Cannot destructure property")
       else
         let accessToken := get_prop sessionData "accessToken" in
         let userId := get_prop sessionData "userId" in
         let* decodedAccessToken := decodeAccessToken_of accessToken in
         let role := get_prop decodedAccessToken "https://pennywise.app/role" in
         let permissions :=
           if truthy (get_prop decodedAccessToken "permissions")
           then get_prop decodedAccessToken "permissions"
           else JArr [] in
         ret (Details (mkDetails true userId role permissions None 200)))
      (fun err =>
         ret (Details (mkDetails false JUndefined JUndefined (JArr [])
                                 (Some (message err)) 500))).

(* ---------------------------------------------------------------- *)
(** *** [middleware/sessionHandler.ts] *)

Definition sessionHandler (req : SessionRequest) : M handled :=
  try_catch
    (let sessionId := cookie_sessionId req in
     if negb (truthy_str sessionId) then
       ret (Replied [ResStatus 401;
                     ResJson (JObj [("success", JBool false);
                                    ("message", JStr "Unauthorized: No session")])])
     else
       let sessionId := default "" sessionId in
       let* checked := getValidSessionOrRevoke env sessionId in
       if negb (success checked) && match code checked with NotFound => true | _ => false end
       then
         ret (Replied [ResClearCookie "sessionId"; ResStatus 401;
                       ResJson (JObj [("error", JStr "Session not found or expired")])])
       else if negb (success checked)
               && match code checked with Expired => true | _ => false end
       then
         ret (Replied [ResClearCookie "sessionId"; ResStatus 401;
                       ResJson (JObj [("error",
                                       JStr "Session expired due to inactivity")])])
       else
         let accessToken :=
           match gate_sessionData checked with
           | Some sessionData => get_prop sessionData "accessToken"
           | None => JUndefined
           end in
         let* bearer := lift (to_string accessToken) in
         ret (Next (mkRequest (cookie_sessionId req) (Some sessionId)
                              (gate_sessionData checked)
                              (Some ("Bearer " +:+ bearer)))))
    (fun err =>
       let status := if includes "Redis" (message err) then 401%Z else 500%Z in
       ret (Replied [ResStatus status;
                     ResJson (JObj [("success", JBool false);
                                    ("message", JStr (message err))])])).

(* ---------------------------------------------------------------- *)
(** *** [controllers/authController.ts]: [logoutController] *)

Definition logoutController (sessionId : option string) : M (list res_action) :=
  if negb (truthy_str sessionId) then ret [ResStatus 204; ResEnd]
  else
    let sessionId := default "" sessionId in
    let* _ := try_catch (logoutService env sessionId) (fun err => ret tt) in
    ret [ResClearCookie "sessionId"; ResRedirect logoutUrl].

End Callers.

(* ================================================================== *)
(** ** Further vocabulary *)

(** The keyspace and the two tables the service writes. *)
Definition stores (w : World)
  : gmap string entry * gmap string string * list refresh_row :=
  (redis w, user_plan w, ledger w).

(** Everything but the keyspace and the fault schedule. *)
Definition beside_redis (w : World) :=
  (users w, user_plan w, ledger w, clock w, drawn w, sent w, provider w).

(** Of the keyspace only the liveness marker of the session can differ,
    and nothing else differs. *)
Definition marker_step (sessionId : string) (w w' : World) : Prop :=
  beside_redis w' = beside_redis w
  /\ forall key, key <> active_key sessionId -> redis w' !! key = redis w !! key.

(** Requests were only added. *)
Definition sends (w w' : World) : Prop :=
  exists more, sent w' = (sent w ++ more)%list.

(** What became of a ledger row during a call that works for the session
    [sessionId]: it is as it was, or it is a row of that session and only
    its [revoked] flag was set. *)
Definition row_step (sessionId : string) (r r' : refresh_row) : Prop :=
  r' = r \/ (r' = Prisma.revoke r /\ row_sessionId r = sessionId).

(** The ledger after such a call: every row of before is still there, in
    place, and rows were only added after them, for that session. *)
Definition ledger_step (sessionId : string) (w w' : World) : Prop :=
  exists kept more,
    ledger w' = (kept ++ more)%list
    /\ Forall2 (row_step sessionId) (ledger w) kept
    /\ Forall (fun r => row_sessionId r = sessionId) more.

(** The keyspace after such a call: only the record and the marker of the
    session can differ. *)
Definition keys_step (sessionId : string) (w w' : World) : Prop :=
  forall key,
    key <> session_key sessionId -> key <> active_key sessionId ->
    redis w' !! key = redis w !! key.

(** What a call that works for one session may do to the world. *)
Definition session_step (sessionId : string) (w w' : World) : Prop :=
  ground w' = ground w
  /\ user_plan w' = user_plan w
  /\ keys_step sessionId w w'
  /\ ledger_step sessionId w w'
  /\ sends w w'.

(** What a plan change for the user [auth0Id] may do to the world: the
    sessions and the ledger are as they were; of the keyspace only the
    cached management token can differ, and of the plans only that
    user's. *)
Definition plan_step (cacheKey auth0Id : string) (w w' : World) : Prop :=
  tables w' = tables w
  /\ (forall key, key <> cacheKey -> redis w' !! key = redis w !! key)
  /\ (forall user, user <> auth0Id -> user_plan w' !! user = user_plan w !! user)
  /\ sends w w'.

(* ================================================================== *)
(** ** More concrete instances *)

Module Scenario.

Definition logoutUrl : string := "https://app.example/logged-out".

(** The world of [Fixture] with a second session ["s2"] of the same user
    and a row of another user under the session id ["s1"]. *)
Definition world_two : World :=
  set_ledger
    (ledger Fixture.world
     ++ [mkRow "u-1" "aa:bb:cc" "s2" 5000000%Z false;
         mkRow "u-2" "dd:ee:ff" "s1" 5000000%Z false])
    Fixture.world.

(** A refresh token of 96 characters. *)
Definition long_token : string :=
  "v1.0123456789abcdef0123456789abcdef0123456789abcdef0123456789abcdef0123456789abcdef0123456789abc".

(** The provider, issuing refresh tokens of that length. *)
Definition idp_long_token : Provider :=
  mkProvider (fun _ => Some (mkTokens (Some "at2") (Some long_token)))
             (oauth_client_credentials Fixture.idp) (roles_of Fixture.idp)
             (post_roles Fixture.idp)
             (logout_ok Fixture.idp) (jwt_verify Fixture.idp)
             (jwt_decode Fixture.idp).

(** The provider, issuing access tokens whose [exp] claim lies beyond the
    range of dates. *)
Definition idp_exp_far : Provider :=
  mkProvider (oauth_refresh Fixture.idp) (oauth_client_credentials Fixture.idp)
             (roles_of Fixture.idp) (post_roles Fixture.idp)
             (logout_ok Fixture.idp) (jwt_verify Fixture.idp)
             (fun _ => JObj [("sub", JStr "auth0|u1"); ("exp", JNum 10000000000000)]).

(** A plan change to the premium plan, by an authenticated caller and by
    an anonymous one. *)
Definition call_premium : UpdateUserPlanCall :=
  mkCall (Some "Bearer m2m") "auth0|u1" "plan_premium" "2025-09-01T00:00:00Z".

Definition call_anonymous : UpdateUserPlanCall :=
  mkCall None "auth0|u1" "plan_premium" "2025-09-01T00:00:00Z".



(** The world of [Fixture] in which the record of the session ["s1"]
    holds, for access token, an object with a [toString] field. *)
Definition world_object_token : World :=
  set_redis
    (<[session_key "s1" :=
         mkEntry (Json (JObj [("accessToken", JObj [("toString", JNum 1)]);
                              ("userId", JStr "auth0|u1");
                              ("accessExp", JNum 1030)]))
                 (Some 30000%Z)]> (redis Fixture.world))
    Fixture.world.

(** A request that carries the cookie of the session ["s1"]. *)
Definition request_with_cookie : SessionRequest :=
  mkRequest (Some "s1") None None None.

End Scenario.
(* ================================================================== *)
(** * Properties *)

(** ** Hexadecimal text and splitting *)

Lemma from_hex_byte (b : byte) (rest : string) :
  from_hex (byte_to_hex b rest) = b :: from_hex rest.
Proof. destruct b; reflexivity. Qed.

Lemma from_hex_to_hex (bs : list byte) : from_hex (to_hex bs) = bs.
Proof.
  induction bs as [|b bs IH]; [reflexivity|].
  cbn [to_hex]. rewrite from_hex_byte. by rewrite IH.
Qed.

Lemma free_of_byte_to_hex (b : byte) (rest : string) :
  free_of ":" (byte_to_hex b rest) = free_of ":" rest.
Proof. destruct b; reflexivity. Qed.

Lemma free_of_to_hex (bs : list byte) : free_of ":" (to_hex bs) = true.
Proof.
  induction bs as [|b bs IH]; [reflexivity|].
  cbn [to_hex]. by rewrite free_of_byte_to_hex.
Qed.

(** Hexadecimal text has two code units for every byte. *)
Lemma code_units_to_hex (bs : list byte) :
  Nat.odd (code_units (to_hex bs)) = false.
Proof.
  assert (H : forall b rest,
             code_units (byte_to_hex b rest) = S (S (code_units rest)))
    by (intros b rest; destruct b; reflexivity).
  induction bs as [|b bs IH]; [reflexivity|].
  cbn [to_hex]. rewrite H. by rewrite Nat.odd_succ_succ.
Qed.

Lemma to_hex_nonempty (bs : list byte) :
  bs <> [] -> String.eqb (to_hex bs) "" = false.
Proof. destruct bs as [|b bs]; [congruence|]. reflexivity. Qed.

Lemma to_hex_empty (bs : list byte) : bs = [] -> to_hex bs = "".
Proof. by intros ->. Qed.

Lemma append_nil_l (s : string) : "" +:+ s = s.
Proof. reflexivity. Qed.

Lemma append_cons (c : ascii) (a s : string) :
  String c a +:+ s = String c (a +:+ s).
Proof. reflexivity. Qed.

Lemma split_nonempty (sep : ascii) (s : string) : split sep s <> [].
Proof.
  induction s as [|c s IH]; cbn [split]; [congruence|].
  destruct (Ascii.eqb c sep); [congruence|].
  destruct (split sep s); congruence.
Qed.

Lemma split_free (sep : ascii) (s : string) :
  free_of sep s = true -> split sep s = [s].
Proof.
  induction s as [|c s IH]; cbn [split free_of]; [reflexivity|].
  intros [Hc Hs]%andb_prop.
  apply negb_true_iff in Hc. rewrite Hc, (IH Hs). reflexivity.
Qed.

Lemma split_app (sep : ascii) (a rest : string) :
  free_of sep a = true ->
  split sep (a +:+ String sep rest) = a :: split sep rest.
Proof.
  induction a as [|c a IH];
    rewrite ?append_nil_l, ?append_cons; cbn [split free_of].
  - intros _. by rewrite Ascii.eqb_refl.
  - intros [Hc Ha]%andb_prop.
    apply negb_true_iff in Hc. rewrite Hc, (IH Ha). reflexivity.
Qed.

(** Splitting distributes over a separator placed between two texts. *)
Lemma split_join (sep : ascii) (a b : string) :
  split sep (a +:+ String sep b) = (split sep a ++ split sep b)%list.
Proof.
  induction a as [|c a IH];
    rewrite ?append_nil_l, ?append_cons; cbn [split app].
  - by rewrite Ascii.eqb_refl.
  - destruct (Ascii.eqb c sep); [by rewrite IH|].
    rewrite IH. pose proof (split_nonempty sep a) as Hne.
    destruct (split sep a); [congruence|reflexivity].
Qed.

Lemma split_three (a b c : string) :
  free_of ":" a = true -> free_of ":" b = true -> free_of ":" c = true ->
  split ":" (a +:+ ":" +:+ b +:+ ":" +:+ c) = [a; b; c].
Proof.
  intros Ha Hb Hc.
  change (":" +:+ b +:+ ":" +:+ c) with (String ":" (b +:+ String ":" c)).
  rewrite (split_app _ _ _ Ha), (split_app _ _ _ Hb), (split_free _ _ Hc).
  reflexivity.
Qed.

(** ** The credential cipher *)

Section CipherFacts.

Variable gcm : aes_256_gcm.
Hypothesis laws : gcm_laws gcm.

Lemma length_list_byte_of_string (s : string) :
  s <> "" -> list_byte_of_string s <> [].
Proof. destruct s; [congruence|]. discriminate. Qed.

(** What [encryptToken] returns has exactly the three segments. *)
Lemma encryptToken_iv_shape (token : string) (key iv : list byte) (blob : string) :
  encryptToken_iv gcm token key iv = Ok blob ->
  valid_key key = true /\ valid_iv iv = true /\
  blob = to_hex iv +:+ ":"
         +:+ to_hex (gcm_seal gcm key iv (list_byte_of_string token)).2 +:+ ":"
         +:+ to_hex (gcm_seal gcm key iv (list_byte_of_string token)).1.
Proof.
  unfold encryptToken_iv.
  destruct (valid_key key && valid_iv iv) eqn:Hv; [|discriminate].
  apply andb_prop in Hv as [Hk Hi]. intros [= <-]. done.
Qed.

Lemma valid_iv_nonempty (iv : list byte) : valid_iv iv = true -> iv <> [].
Proof. destruct iv; [discriminate|congruence]. Qed.

(** Decryption inverts encryption on every non-empty token. *)
Lemma decrypt_encrypt_iv (token : string) (key iv : list byte) (blob : string) :
  token <> "" ->
  encryptToken_iv gcm token key iv = Ok blob ->
  decryptToken gcm blob key = Ok token.
Proof.
  intros Htok Henc.
  apply encryptToken_iv_shape in Henc as (Hk & Hi & ->).
  set (sealed := gcm_seal gcm key iv (list_byte_of_string token)).
  unfold decryptToken, decryptToken_body.
  rewrite split_three by apply free_of_to_hex.
  cbn [lookup list_lookup default from_option truthy_str].
  assert (Htag : sealed.2 <> []).
  { intros E. pose proof (tag_length gcm laws key iv (list_byte_of_string token)) as L.
    fold sealed in L. rewrite E in L. discriminate. }
  assert (Hct : sealed.1 <> []).
  { intros E. pose proof (seal_length gcm laws key iv (list_byte_of_string token)) as L.
    fold sealed in L. rewrite E in L.
    apply length_list_byte_of_string in Htok.
    destruct (list_byte_of_string token); [congruence|discriminate]. }
  rewrite (to_hex_nonempty iv (valid_iv_nonempty _ Hi)).
  rewrite (to_hex_nonempty _ Htag), (to_hex_nonempty _ Hct).
  cbn [negb orb id]. rewrite !from_hex_to_hex, Hk, Hi. cbn [andb negb].
  assert (Hvt : valid_tag sealed.2 = true).
  { unfold valid_tag, sealed. rewrite (tag_length gcm laws). reflexivity. }
  rewrite Hvt, code_units_to_hex. cbn [negb]. unfold sealed.
  rewrite ?from_hex_to_hex.
  rewrite (open_seal gcm laws). by rewrite string_of_list_byte_of_string.
Qed.

(** The empty token encrypts to a blob whose third segment is empty, and
    that blob is refused as malformed. *)
Lemma decrypt_encrypt_iv_empty (key iv : list byte) (blob : string) :
  encryptToken_iv gcm "" key iv = Ok blob ->
  decryptToken gcm blob key = Throw (new_Error "Invalid refresh token").
Proof.
  intros Henc. apply encryptToken_iv_shape in Henc as (Hk & Hi & ->).
  set (sealed := gcm_seal gcm key iv (list_byte_of_string "")).
  unfold decryptToken, decryptToken_body.
  rewrite split_three by apply free_of_to_hex.
  cbn [lookup list_lookup default from_option truthy_str].
  assert (Hct : sealed.1 = []).
  { pose proof (seal_length gcm laws key iv (list_byte_of_string "")) as L.
    fold sealed in L. by destruct (sealed.1). }
  rewrite Hct. cbn. by rewrite !orb_true_r.
Qed.

End CipherFacts.

Section CipherClaims.

Variable gcm : aes_256_gcm.
Hypothesis laws : gcm_laws gcm.

(** C6 (amended: the plaintext is not empty and holds no unpaired
    surrogate, and the nonce has at most 128 bytes).  For every non-empty
    token that is a well-formed string, every 32-byte key and every nonce
    length from 1 to 128, [encryptToken] returns a blob and [decryptToken]
    turns that blob back into the token under the same key. *)
Theorem encrypt_decrypt_roundtrip (token : string) (key : list byte)
    (iv_length : nat) (w : World) :
  well_formed token = true ->
  token <> "" ->
  length key = 32%nat ->
  (0 < iv_length <= 128)%nat ->
  exists blob w',
    encryptToken gcm token key iv_length w = (Ok blob, w')
    /\ decryptToken gcm blob key = Ok token.
Proof.
  intros _ Htoken Hkey [Hiv _].
  unfold encryptToken, bind, randomBytes, lift.
  set (iv := map (entropy w) (seq (drawn w) iv_length)).
  assert (Henc : exists blob, encryptToken_iv gcm token key iv = Ok blob).
  { unfold encryptToken_iv, valid_key, valid_iv.
    rewrite Hkey. unfold iv. rewrite length_map, length_seq.
    destruct iv_length; [lia|]. cbn. eauto. }
  destruct Henc as (blob & Henc). rewrite Henc.
  exists blob. eexists. split; [reflexivity|].
  by apply (decrypt_encrypt_iv gcm laws token key iv).
Qed.

(** Segments after the third are never looked at. *)
Lemma decryptToken_ignores_extra (blob extra : string) (key : list byte) :
  (3 <= length (split ":" blob))%nat ->
  decryptToken gcm (blob +:+ String ":" extra) key = decryptToken gcm blob key.
Proof.
  intros Hlen. unfold decryptToken, decryptToken_body.
  rewrite split_join.
  destruct (split ":" blob) as [|a [|b [|c rest]]]; cbn in Hlen; try lia.
  reflexivity.
Qed.

(** A blob with fewer than three segments, or with an empty one among the
    first three, is refused. *)
Lemma decryptToken_malformed (blob : string) (key : list byte) :
  truthy_str (split ":" blob !! 0%nat) && truthy_str (split ":" blob !! 1%nat)
  && truthy_str (split ":" blob !! 2%nat) = false ->
  decryptToken gcm blob key = Throw (new_Error "Invalid refresh token").
Proof.
  intros Hbad. unfold decryptToken, decryptToken_body.
  destruct (truthy_str (split ":" blob !! 0%nat));
    destruct (truthy_str (split ":" blob !! 1%nat));
    destruct (truthy_str (split ":" blob !! 2%nat)); try discriminate;
    reflexivity.
Qed.

(** Whatever [decryptToken] returns is a plaintext the primitive
    authenticated for the three decoded segments: a tag that does not
    verify never yields a value. *)
Lemma decryptToken_authentic (blob : string) (key : list byte) (token : string) :
  decryptToken gcm blob key = Ok token ->
  exists iv tag ct pt,
    split ":" blob !! 0%nat = Some iv
    /\ split ":" blob !! 1%nat = Some tag
    /\ split ":" blob !! 2%nat = Some ct
    /\ gcm_open gcm key (from_hex iv) (from_hex tag) (from_hex ct) = Some pt
    /\ token = string_of_list_byte pt.
Proof.
  unfold decryptToken, decryptToken_body.
  destruct (split ":" blob !! 0%nat) as [iv|]; [|discriminate].
  destruct (split ":" blob !! 1%nat) as [tag|];
    [|cbn; rewrite orb_true_r; discriminate].
  destruct (split ":" blob !! 2%nat) as [ct|];
    [|cbn; rewrite orb_true_r; discriminate].
  destruct (negb _ || negb _ || negb _); [discriminate|].
  cbn [default from_option id].
  destruct (negb _); [discriminate|].
  destruct (negb _); [discriminate|].
  destruct (Nat.odd _); [discriminate|].
  destruct (gcm_open _ _ _ _ _) as [pt|] eqn:Hopen; [|discriminate].
  intros [= <-]. by exists iv, tag, ct, pt.
Qed.

End CipherClaims.

(** ** The monad *)

Lemma bind_ok {A B} (m : M A) (k : A -> M B) (w : World) (b : B) (w' : World) :
  bind m k w = (Ok b, w') ->
  exists a w1, m w = (Ok a, w1) /\ k a w1 = (Ok b, w').
Proof.
  unfold bind. destruct (m w) as [[a|e] w1]; [eauto|discriminate].
Qed.

Lemma bind_throw {A B} (m : M A) (k : A -> M B) (w : World) (e : js_error)
    (w' : World) :
  m w = (Throw e, w') -> bind m k w = (Throw e, w').
Proof. unfold bind. by intros ->. Qed.

Lemma bind_step {A B} (m : M A) (k : A -> M B) (w : World) (a : A) (w1 : World) :
  m w = (Ok a, w1) -> bind m k w = k a w1.
Proof. unfold bind. by intros ->. Qed.

(** [catch (err) { throw err }] changes nothing. *)
Lemma try_rethrow {A} (m : M A) (w : World) :
  try_catch m (fun err => throw err) w = m w.
Proof. unfold try_catch, throw. by destruct (m w) as [[a|e] w1]. Qed.

(** A handler that returns makes the whole block return. *)
Lemma try_catch_returns {A} (m : M A) (h : js_error -> A) (w : World) :
  exists a w', try_catch m (fun err => ret (h err)) w = (Ok a, w').
Proof.
  unfold try_catch, ret. destruct (m w) as [[a|e] w1]; eauto.
Qed.

Lemma try_catch_ok {A} (m : M A) (h : js_error -> M A) (w : World) (a : A)
    (w' : World) :
  m w = (Ok a, w') -> try_catch m h w = (Ok a, w').
Proof. unfold try_catch. by intros ->. Qed.

Lemma try_catch_caught {A} (m : M A) (h : js_error -> M A) (w : World)
    (e : js_error) (w' : World) :
  m w = (Throw e, w') -> try_catch m h w = h e w'.
Proof. unfold try_catch. by intros ->. Qed.

(** With no fault scheduled an external call is the operation itself. *)
Lemma io_calm {A} (what : string) (op : M A) (w : World) :
  faults w = [] -> io what op w = op w.
Proof. unfold io. by intros ->. Qed.

(** Symbolic execution: compute, and rewrite with the facts at hand. *)
Ltac run :=
  repeat progress
    (cbn;
     repeat match goal with
            | H : ?lhs = _ |- context [?lhs] => rewrite H
            end;
     rewrite ?orb_true_r, ?orb_false_r, ?andb_true_r, ?andb_false_r).

(** ** Validation gate: [getValidSessionOrRevoke] *)

(** C10. The session check of the validation gate is total: whatever the
    stores do (any contents, any schedule of failing calls) it returns a
    result and throws nothing; and whenever the session fetch throws, for
    whatever reason, the result is the [NotFound] one, the same a
    missing session key gives. *)
Theorem getValidSessionOrRevoke_total (env : Env) (sessionId : string) (w : World) :
  exists r w',
    getValidSessionOrRevoke env sessionId w = (Ok r, w')
    /\ (forall e w1,
          getUserSessionRedis env sessionId w = (Throw e, w1) ->
          r = mkGate false NotFound None /\ w' = w1)
    /\ (redis w !! session_key sessionId = None ->
          r = mkGate false NotFound None).
Proof.
  unfold getValidSessionOrRevoke.
  match goal with
  | |- context [try_catch ?m _ w] => set (body := m)
  end.
  destruct (try_catch_returns body (fun _ => mkGate false NotFound None) w)
    as (r & w' & Hrun).
  exists r, w'. split; [exact Hrun|]. split.
  - intros e w1 Hfetch.
    rewrite (try_catch_caught _ _ _ e w1) in Hrun
      by (by apply bind_throw).
    by injection Hrun as <- <-.
  - intros Habsent.
    assert (exists e w1, getUserSessionRedis env sessionId w = (Throw e, w1))
      as (e & w1 & Hfetch).
    { unfold getUserSessionRedis, try_catch, bind, Redis.get, io.
      destruct (faults w) as [|[] fs]; cbn; rewrite ?Habsent; cbn; eauto. }
    rewrite (try_catch_caught _ _ _ e w1) in Hrun
      by (by apply bind_throw).
    by injection Hrun as <- _.
Qed.

(** ** What a computation leaves unchanged *)

Lemma set_faults_same (w : World) : set_faults (faults w) w = w.
Proof. by destruct w. Qed.

Lemma io_inv {A} (what : string) (op : M A) (w : World) (r : result A)
    (w' : World) :
  io what op w = (r, w') ->
  (exists fs, r = Throw (new_Error what) /\ w' = set_faults fs w)
  \/ (exists fs, op (set_faults fs w) = (r, w')).
Proof.
  unfold io. destruct (faults w) as [|[] fs] eqn:Hf.
  - intros H. right. exists []. by rewrite <- Hf, set_faults_same.
  - intros [= <- <-]. left. eauto.
  - intros H. right. eauto.
Qed.

Lemma io_ok {A} (what : string) (op : M A) (w : World) (a : A) (w' : World) :
  io what op w = (Ok a, w') -> exists fs, op (set_faults fs w) = (Ok a, w').
Proof. intros [(fs & [=] & _)|H]%io_inv; exact H. Qed.

Section Respects.

Context (R : World -> World -> Prop) `{!Frame R}.

Lemma respects_ret {A} (a : A) : respects R (ret a).
Proof. intros w r w' [= <- <-]. apply frame_refl. Qed.

Lemma respects_throw {A} (e : js_error) : respects R (throw (A := A) e).
Proof. intros w r w' [= <- <-]. apply frame_refl. Qed.

Lemma respects_lift {A} (x : result A) : respects R (lift x).
Proof. intros w r w' [= <- <-]. apply frame_refl. Qed.

Lemma respects_bind {A B} (m : M A) (k : A -> M B) :
  respects R m -> (forall a, respects R (k a)) -> respects R (bind m k).
Proof.
  intros Hm Hk w r w'. unfold bind.
  destruct (m w) as [[a|e] w1] eqn:E.
  - intros H. eapply frame_trans; [by apply (Hm _ _ _ E)|by apply (Hk a _ _ _ H)].
  - intros [= <- <-]. by apply (Hm _ _ _ E).
Qed.

Lemma respects_try_catch {A} (m : M A) (h : js_error -> M A) :
  respects R m -> (forall e, respects R (h e)) -> respects R (try_catch m h).
Proof.
  intros Hm Hh w r w'. unfold try_catch.
  destruct (m w) as [[a|e] w1] eqn:E.
  - intros [= <- <-]. by apply (Hm _ _ _ E).
  - intros H. eapply frame_trans; [by apply (Hm _ _ _ E)|by apply (Hh e _ _ _ H)].
Qed.

Lemma respects_io {A} (what : string) (op : M A) :
  respects R op -> respects R (io what op).
Proof.
  intros Hop w r w' [(fs & -> & ->)|(fs & H)]%io_inv.
  - apply frame_faults.
  - eapply frame_trans; [apply frame_faults|by apply (Hop _ _ _ H)].
Qed.

End Respects.

#[local] Instance same_tables : Frame (same tables).
Proof. by split; unfold same; [..|reflexivity]; congruence. Qed.

#[local] Instance same_ground : Frame (same ground).
Proof. by split; unfold same; [..|reflexivity]; congruence. Qed.

#[local] Instance grows_frame : Frame grows.
Proof.
  split; unfold grows.
  - intros w. split; [done|]. exists []. by rewrite app_nil_r.
  - intros a b c [Hp (m1 & H1)] [Hq (m2 & H2)]. split; [congruence|].
    exists (m1 ++ m2)%list. by rewrite H2, H1, <- app_assoc.
  - intros fs w. split; [done|]. exists []. cbn. by rewrite app_nil_r.
Qed.

(** Closes [R w w'] for a primitive step. *)
Ltac frame_done :=
  first
    [ reflexivity
    | apply frame_refl
    | split; [reflexivity|]; first [by eexists | by exists []; rewrite app_nil_r] ].

(** Proves [respects R m] for a program [m] built from the combinators,
    once [m] is unfolded down to its primitive steps. *)
Ltac respects_step :=
  first
    [ apply respects_ret; solve [typeclasses eauto]
    | apply respects_throw; solve [typeclasses eauto]
    | apply respects_lift; solve [typeclasses eauto]
    | apply respects_bind; [solve [typeclasses eauto]| |intros ?]
    | apply respects_try_catch; [solve [typeclasses eauto]| |intros ?]
    | apply respects_io; [solve [typeclasses eauto]|]
    | match goal with
      | |- respects _ (if ?b then _ else _) => destruct b
      | |- respects _ (match ?x with _ => _ end) => destruct x
      end
    | (intros ? ? ?; cbn; repeat case_match; intros [= <- <-]; frame_done) ].

Ltac respects_all := repeat respects_step.

Section FramesOfServices.

Variable gcm : aes_256_gcm.
Variable env : Env.

Lemma getUserIdByAuth0_keeps (auth0Id : string) :
  respects (same tables) (getUserIdByAuth0 auth0Id).
Proof. unfold getUserIdByAuth0, Prisma.user_findUnique. respects_all. Qed.

Lemma fetchRefreshToken_keeps (sessionId auth0Id : string) :
  respects (same tables) (fetchRefreshTokenPrisma gcm env sessionId auth0Id).
Proof.
  unfold fetchRefreshTokenPrisma, getUserIdByAuth0, Prisma.user_findUnique,
    Prisma.refreshToken_findFirst, Date_now.
  respects_all.
Qed.

Lemma post_refresh_keeps (token : string) : respects (same tables) (Axios.post_refresh token).
Proof. unfold Axios.post_refresh, Axios.send, Axios.rejected. respects_all. Qed.

Lemma verifyAccessToken_keeps (token : string) : respects (same tables) (verifyAccessToken token).
Proof. unfold verifyAccessToken. respects_all. Qed.

Lemma saveUserSessionRedis_keeps (auth0Id access_token : string)
    (sessionId : option string) :
  respects (same tables) (saveUserSessionRedis env auth0Id access_token sessionId).
Proof.
  unfold saveUserSessionRedis, decodeAccessToken, randomUUID, randomBytes,
    Date_now, Redis.set.
  respects_all.
Qed.

Lemma getUserSessionRedis_keeps (sessionId : string) :
  respects (same tables) (getUserSessionRedis env sessionId).
Proof.
  unfold getUserSessionRedis, Redis.get, Redis.pTTL, Redis.expire,
    Redis.JSON_parse.
  respects_all.
Qed.

Lemma deleteUserSessionRedis_keeps (sessionId : string) :
  respects (same tables) (deleteUserSessionRedis sessionId).
Proof. unfold deleteUserSessionRedis, Redis.unlink. respects_all. Qed.

Lemma get_logout_keeps : respects (same tables) Axios.get_logout.
Proof. unfold Axios.get_logout, Axios.send, Axios.rejected. respects_all. Qed.

Lemma saveRefreshToken_keeps_ground (sessionId newRefreshToken auth0Id : string)
    (oldRefreshToken : option string) :
  respects (same ground)
    (saveRefreshTokenPrisma gcm env sessionId newRefreshToken auth0Id oldRefreshToken).
Proof.
  unfold saveRefreshTokenPrisma, getUserIdByAuth0, Prisma.user_findUnique,
    Prisma.refreshToken_revokeMany, Prisma.refreshToken_create, encryptToken,
    randomBytes, Date_now.
  respects_all.
Qed.

End FramesOfServices.

(** ** Session store *)

Lemma length_append (a b : string) :
  String.length (a +:+ b) = (String.length a + String.length b)%nat.
Proof.
  induction a as [|c a IH]; rewrite ?append_nil_l, ?append_cons; cbn [String.length];
    [reflexivity|by rewrite IH].
Qed.

(** The session key and the marker key never coincide. *)
Lemma active_key_neq (sessionId : string) :
  session_key sessionId <> active_key sessionId.
Proof.
  unfold active_key. intros E. apply (f_equal String.length) in E.
  rewrite length_append in E. cbn in E. lia.
Qed.

Section SessionStore.

Variable env : Env.

(** C7. Sliding expiration on read.  For a session whose record is in the
    store: when the liveness marker is present with a remaining life below
    the threshold of 180000 ms, one fetch reports [active = true] and
    leaves the marker with the full inactivity timeout; when the marker is
    absent, the fetch reports [active = false], whatever life the session
    record itself has left. *)
Theorem getUserSessionRedis_sliding (sessionId : string) (w : World)
    (doc : jsval) (life : option Z) :
  faults w = [] ->
  (0 < INACTIVITY_TIMEOUT env)%Z ->
  redis w !! session_key sessionId = Some (mkEntry (Json doc) life) ->
  (forall (marker : stored) (left : Z),
      redis w !! active_key sessionId = Some (mkEntry marker (Some left)) ->
      Redis.present (Some marker) = true ->
      (0 <= left < 180000)%Z ->
      exists w',
        getUserSessionRedis env sessionId w = (Ok (doc, true), w')
        /\ redis w' !! active_key sessionId
           = Some (mkEntry marker (Some (INACTIVITY_TIMEOUT env * 1000)%Z))
        /\ redis w' !! session_key sessionId = Some (mkEntry (Json doc) life))
  /\ (redis w !! active_key sessionId = None ->
      getUserSessionRedis env sessionId w = (Ok (doc, false), w)).
Proof.
  intros Hcalm Hpos Hsession.
  destruct w as [rd us up lg ck en dr fl st pv dt]. cbn in Hcalm, Hsession. subst fl.
  assert (Hp : (INACTIVITY_TIMEOUT env <=? 0)%Z = false) by lia.
  unfold getUserSessionRedis, try_catch, bind, Redis.get, Redis.pTTL,
    Redis.expire, Redis.JSON_parse, io, ret.
  fold (active_key sessionId).
  split.
  - intros marker left Hmarker Hpresent Hleft.
    assert (Hne : (left =? -2)%Z = false) by lia.
    assert (Hlt : (left <? 180000)%Z = true) by lia.
    destruct marker as [text|json]; cbn in Hmarker, Hpresent; run.
    all: eexists; (split; [reflexivity|]); cbn; split.
    all: try by rewrite lookup_insert_eq.
    all: rewrite lookup_insert_ne; [done|]; apply not_eq_sym, active_key_neq.
  - intros Habsent. cbn in Habsent. run. reflexivity.
Qed.

(** The session id a create call works with: the one given, or a fresh one. *)
Lemma choose_session_id (sessionId : option string) (w : World) :
  exists sid w0,
    (if negb (truthy_str sessionId) then randomUUID
     else ret (default "" sessionId)) w = (Ok sid, w0)
    /\ (truthy_str sessionId = true -> sessionId = Some sid)
    /\ redis w0 = redis w /\ faults w0 = faults w /\ clock w0 = clock w
    /\ provider w0 = provider w.
Proof.
  destruct (truthy_str sessionId) eqn:Hgiven; cbn [negb].
  - destruct sessionId as [sid|]; [|discriminate]. exists sid, w. by repeat split.
  - unfold randomUUID, randomBytes, bind, ret. eexists _, _.
    split; [reflexivity|]. by repeat split.
Qed.

(** A whole number of seconds within 8.64e12 of the epoch is a date. *)
Lemma Date_toISOString_in_range (e : Z) :
  (Z.abs e <= 8640000000000)%Z -> Date_toISOString_of_seconds (JNum e) = Ok tt.
Proof.
  intros Hrange.
  unfold Date_toISOString_of_seconds, to_number, Date_valid_of_seconds.
  change (0 <=? 0)%Z with true. cbn match.
  replace ((e =? 0)%Z || (0 <=? 13)%Z && (Z.abs e * 10 ^ 0 <=? 8640000000000)%Z)
    with true; [reflexivity|].
  symmetry. apply orb_true_iff. right. apply andb_true_iff. split; [reflexivity|].
  apply Z.leb_le. rewrite Z.pow_0_r. lia.
Qed.

Lemma Date_toISOString_out_of_range (e : Z) :
  (8640000000000 < Z.abs e)%Z ->
  Date_toISOString_of_seconds (JNum e) = Throw (new_Error "Invalid time value").
Proof.
  intros Hrange.
  unfold Date_toISOString_of_seconds, to_number, Date_valid_of_seconds.
  change (0 <=? 0)%Z with true. cbn match.
  replace ((e =? 0)%Z || (0 <=? 13)%Z && (Z.abs e * 10 ^ 0 <=? 8640000000000)%Z)
    with false; [reflexivity|].
  symmetry. apply orb_false_iff. split; [lia|].
  apply andb_false_iff. right. apply Z.leb_gt. rewrite Z.pow_0_r. lia.
Qed.

Lemma decodeAccessToken_spec (accessToken : string) (w : World) :
  decodeAccessToken accessToken w
  = (let decoded := jwt_decode (provider w) accessToken in
     if negb (truthy decoded) || negb (is_object decoded)
     then Throw (mkError "Failed to decode access token: token is malformed or empty"
                         (Some 400%Z))
     else
       match (if truthy (get_prop decoded "exp")
              then Date_toISOString_of_seconds (get_prop decoded "exp")
              else Ok tt) with
       | Throw err => Throw err
       | Ok _ => Ok decoded
       end, w).
Proof.
  unfold decodeAccessToken. rewrite try_rethrow. cbv zeta.
  destruct (negb _ || negb _); [reflexivity|].
  by destruct (if truthy _ then _ else _).
Qed.

(** Decoding reads the token and leaves the world as it is. *)
Lemma decodeAccessToken_pure (accessToken : string) (w : World)
    (r : result jsval) (w' : World) :
  decodeAccessToken accessToken w = (r, w') -> w' = w.
Proof. rewrite decodeAccessToken_spec. by intros [= _ <-]. Qed.

(** What decoding returns, when it returns: the payload, a truthy
    object. *)
Lemma decodeAccessToken_ok (accessToken : string) (w : World)
    (decoded : jsval) (w' : World) :
  decodeAccessToken accessToken w = (Ok decoded, w') ->
  decoded = jwt_decode (provider w) accessToken /\ w' = w
  /\ truthy decoded = true /\ is_object decoded = true.
Proof.
  rewrite decodeAccessToken_spec. cbv zeta.
  destruct (truthy (jwt_decode _ _)) eqn:Ht, (is_object (jwt_decode _ _)) eqn:Ho;
    cbn [negb orb]; try discriminate.
  destruct (if truthy _ then _ else _); [|discriminate].
  intros [= <- <-]. by rewrite Ht, Ho.
Qed.

(** A payload whose expiry claim is a whole number of seconds, other than
    0 and within the range of dates, decodes. *)
Lemma decodeAccessToken_dated (accessToken : string) (w : World) (e : Z) :
  get_prop (jwt_decode (provider w) accessToken) "exp" = JNum e ->
  (Z.abs e <= 8640000000000)%Z ->
  decodeAccessToken accessToken w = (Ok (jwt_decode (provider w) accessToken), w).
Proof.
  intros Hexp Hrange. rewrite decodeAccessToken_spec. cbv zeta.
  destruct (jwt_decode (provider w) accessToken) as [| |b|n|t|items|fields] eqn:Hdec;
    try discriminate Hexp.
  cbn [truthy is_object negb orb]. rewrite Hexp.
  rewrite Date_toISOString_in_range by done.
  by destruct (truthy (JNum e)).
Qed.

(** A write with a positive expiry, the store answering. *)
Lemma Redis_set_calm (key : string) (value : stored) (EX : Z) (w : World) :
  faults w = [] -> (0 < EX)%Z ->
  Redis.set key value EX w
  = (Ok tt, set_redis (<[key := mkEntry value (Some (EX * 1000)%Z)]> (redis w)) w).
Proof.
  intros Hcalm Hpos. unfold Redis.set. rewrite io_calm by done.
  assert (Hp : (EX <=? 0)%Z = false) by lia. by rewrite Hp.
Qed.

(** C8 (amended: the expiry claim must be a whole number of seconds other
    than 0 and within the range of dates, 8.64e12 seconds on either side
    of the epoch).  When the access token decodes to such an [exp] and
    the two store writes go through, the session record is written with
    a life of [max 1 (min TTL (exp - now))] seconds, which is at least 1,
    and the liveness marker with the inactivity timeout.  When [exp] is
    absent or not a number, is the number 0, or is a number beyond the
    range of dates, the call throws and the keyspace is left as it
    was. *)
Theorem saveUserSessionRedis_writes (auth0Id access_token : string)
    (sessionId : option string) (w : World) :
  let exp := get_prop (jwt_decode (provider w) access_token) "exp" in
  (forall e : Z,
      exp = JNum e -> e <> 0%Z -> (Z.abs e <= 8640000000000)%Z ->
      faults w = [] -> (0 < INACTIVITY_TIMEOUT env)%Z ->
      let ttl := Z.max 1 (Z.min (TTL env) (e - clock w / 1000)) in
      exists sid w',
        saveUserSessionRedis env auth0Id access_token sessionId w = (Ok sid, w')
        /\ (truthy_str sessionId = true -> sessionId = Some sid)
        /\ redis w' !! session_key sid
            = Some (mkEntry (Json (session_document access_token auth0Id (JNum e)))
                            (Some (ttl * 1000)%Z))
        /\ redis w' !! active_key sid
            = Some (mkEntry (Plain "1") (Some (INACTIVITY_TIMEOUT env * 1000)%Z))
        /\ (1 <= ttl)%Z)
  /\ (is_number exp = false \/ exp = JNum 0
      \/ (exists e : Z, exp = JNum e /\ (8640000000000 < Z.abs e)%Z) ->
      exists err w',
        saveUserSessionRedis env auth0Id access_token sessionId w = (Throw err, w')
        /\ redis w' = redis w).
Proof.
  cbv zeta.
  destruct (choose_session_id sessionId w) as (sid & w0 & Hsid & Hgiven & Hsame).
  destruct Hsame as (Hredis & Hfaults & Hclock & Hprovider).
  unfold saveUserSessionRedis. rewrite (bind_step _ _ _ _ _ Hsid).
  split.
  - intros e Hexp Hnz Hrange Hcalm Hpos.
    rewrite <- Hprovider in Hexp.
    pose proof (decodeAccessToken_dated access_token w0 e Hexp Hrange) as Hdecode.
    rewrite (bind_step _ _ _ _ _ Hdecode), Hexp.
    assert (Hz : (e =? 0)%Z = false) by lia.
    cbn [truthy is_number negb orb num_of]. rewrite Hz. cbn [negb orb].
    rewrite (bind_step _ _ _ (clock w0) w0) by reflexivity.
    rewrite Hclock.
    set (ttl := Z.max 1 (Z.min (TTL env) (e - clock w / 1000))).
    replace (Z.max 1 (Z.min (TTL env) (Z.max (e - clock w / 1000) 1))) with ttl
      by (subst ttl; lia).
    fold (active_key sid).
    eexists sid, _. split.
    + assert (Hcalm0 : faults w0 = []) by congruence.
      assert (Hlife : (0 < ttl)%Z) by (subst ttl; lia).
      apply try_catch_ok.
      rewrite (bind_step _ _ _ _ _ (Redis_set_calm _ _ _ w0 Hcalm0 Hlife)).
      rewrite (bind_step _ _ _ _ _ (Redis_set_calm _ _ _ (set_redis _ w0) Hcalm0 Hpos)).
      reflexivity.
    + split; [exact Hgiven|]. cbn [redis set_redis]. rewrite Hredis.
      split; [|split; [by rewrite lookup_insert_eq|lia]].
      rewrite lookup_insert_ne by (apply not_eq_sym, active_key_neq).
      by rewrite lookup_insert_eq.
  - intros Hbad.
    destruct (decodeAccessToken access_token w0) as [[decoded|err] w1] eqn:Hdecode.
    + destruct (decodeAccessToken_ok _ _ _ _ Hdecode) as (-> & -> & _ & _).
      rewrite (bind_step _ _ _ _ _ Hdecode), Hprovider.
      destruct Hbad as [Hnum|[Hzero|(e & Hexp & Hrange)]].
      * rewrite Hnum, orb_true_r. eexists _, w0. split; [reflexivity|exact Hredis].
      * rewrite Hzero. eexists _, w0. split; [reflexivity|exact Hredis].
      * exfalso. rewrite decodeAccessToken_spec, Hprovider in Hdecode.
        cbv zeta in Hdecode. rewrite Hexp in Hdecode.
        rewrite Date_toISOString_out_of_range in Hdecode by done.
        assert (Hz : (e =? 0)%Z = false) by lia.
        cbn [truthy] in Hdecode. rewrite Hz in Hdecode. cbn [negb] in Hdecode.
        by destruct (negb _ || negb _).
    + pose proof (decodeAccessToken_pure _ _ _ _ Hdecode) as ->.
      eexists _, w0. split; [|exact Hredis].
      apply bind_throw. exact Hdecode.
Qed.

End SessionStore.

(** ** Refresh-token ledger *)

Lemma valid_revoke_if (sessionId userID : string) (now : Z) (r : refresh_row) :
  Prisma.valid_for sessionId userID now (Prisma.revoke_if sessionId userID r) = false.
Proof.
  unfold Prisma.valid_for, Prisma.revoke_if.
  destruct (Prisma.active_for sessionId userID r) eqn:Hact.
  - unfold Prisma.active_for, Prisma.revoke. cbn. by rewrite andb_false_r.
  - by rewrite Hact.
Qed.

Lemma filter_revoked (sessionId userID : string) (now : Z) (l : list refresh_row) :
  List.filter (Prisma.valid_for sessionId userID now)
              (map (Prisma.revoke_if sessionId userID) l) = [].
Proof.
  induction l as [|r l IH]; [reflexivity|].
  cbn [map List.filter]. by rewrite valid_revoke_if.
Qed.

Lemma find_revoked (sessionId userID : string) (now : Z) (l : list refresh_row) :
  List.find (Prisma.valid_for sessionId userID now)
            (map (Prisma.revoke_if sessionId userID) l) = None.
Proof.
  induction l as [|r l IH]; [reflexivity|].
  cbn [map List.find]. by rewrite valid_revoke_if.
Qed.

Lemma find_app_none {A} (p : A -> bool) (l l' : list A) :
  List.find p l = None -> List.find p (l ++ l') = List.find p l'.
Proof.
  induction l as [|x l IH]; [done|]. cbn [List.find app].
  destruct (p x); [discriminate|exact IH].
Qed.

Lemma revoke_if_valid (sessionId userID : string) (now : Z) (r : refresh_row) :
  Prisma.valid_for sessionId userID now r = true ->
  Prisma.revoke_if sessionId userID r = Prisma.revoke r.
Proof.
  unfold Prisma.valid_for, Prisma.revoke_if. intros [-> _]%andb_prop. reflexivity.
Qed.

Section Ledger.

Variable gcm : aes_256_gcm.
Variable env : Env.
Hypothesis laws : gcm_laws gcm.

Lemma getUserIdByAuth0_ok (auth0Id : string) (w : World) (userID : string)
    (w1 : World) :
  getUserIdByAuth0 auth0Id w = (Ok userID, w1) ->
  users w !! auth0Id = Some userID /\ exists fs, w1 = set_faults fs w.
Proof.
  unfold getUserIdByAuth0, Prisma.user_findUnique.
  intros (found & w0 & Hfind & H)%bind_ok.
  apply io_ok in Hfind as (fs & [= <- <-]).
  cbn in H. destruct (users w !! auth0Id) as [id|]; [|discriminate].
  injection H as <- <-. eauto.
Qed.

(** A successful fetch returns the decryption of the first valid row. *)
Lemma fetchRefreshToken_ok (sessionId auth0Id : string) (w : World)
    (token : string) (w1 : World) :
  fetchRefreshTokenPrisma gcm env sessionId auth0Id w = (Ok token, w1) ->
  exists userID row,
    users w !! auth0Id = Some userID
    /\ List.find (Prisma.valid_for sessionId userID (clock w)) (ledger w) = Some row
    /\ decryptToken gcm (row_refreshToken row) (ENCRYPTION_KEY env) = Ok token.
Proof.
  unfold fetchRefreshTokenPrisma. rewrite try_rethrow.
  intros (userID & w0 & Hid & H)%bind_ok.
  apply getUserIdByAuth0_ok in Hid as (Huser & fs & ->).
  apply bind_ok in H as (now & w2 & [= <- <-] & H).
  apply bind_ok in H as (found & w3 & Hfind & H).
  unfold Prisma.refreshToken_findFirst in Hfind.
  apply io_ok in Hfind as (fs' & [= <- <-]).
  cbn [clock ledger set_faults] in H.
  destruct (List.find _ (ledger w)) as [row|] eqn:Hrow; [|discriminate].
  unfold lift in H. injection H as H _. eauto.
Qed.

(** With the stores answering, the fetch returns the decryption of the
    first valid row. *)
Lemma fetchRefreshToken_calm (sessionId auth0Id userID : string) (w : World)
    (row : refresh_row) :
  faults w = [] ->
  users w !! auth0Id = Some userID ->
  List.find (Prisma.valid_for sessionId userID (clock w)) (ledger w) = Some row ->
  fetchRefreshTokenPrisma gcm env sessionId auth0Id w
  = (decryptToken gcm (row_refreshToken row) (ENCRYPTION_KEY env), w).
Proof.
  intros Hcalm Huser Hrow.
  destruct w as [rd us up lg ck en dr fl st pv dt]. cbn in Hcalm, Huser, Hrow.
  subst fl.
  unfold fetchRefreshTokenPrisma, getUserIdByAuth0, Prisma.user_findUnique,
    Prisma.refreshToken_findFirst, Date_now, try_catch, bind, io, ret, throw, lift.
  cbn. rewrite Huser. cbn. rewrite Hrow.
  by destruct (decryptToken gcm (row_refreshToken row) (ENCRYPTION_KEY env)).
Qed.

(** What a successful save does to the ledger: revoke the non-revoked
    rows of the pair when an old token is given, then append one row that
    holds the encryption of the new token. *)
Lemma saveRefreshToken_ok (sessionId newRefreshToken auth0Id : string)
    (oldRefreshToken : option string) (w w' : World) :
  saveRefreshTokenPrisma gcm env sessionId newRefreshToken auth0Id
                         oldRefreshToken w = (Ok tt, w') ->
  exists userID iv blob,
    users w !! auth0Id = Some userID
    /\ encryptToken_iv gcm newRefreshToken (ENCRYPTION_KEY env) iv = Ok blob
    /\ ledger w'
       = ((if truthy_str oldRefreshToken
           then map (Prisma.revoke_if sessionId userID) (ledger w)
           else ledger w)
          ++ [mkRow userID blob sessionId
                    (clock w + AUTH0_REFRESH_TOKEN_EXPIRY env * 1000)%Z false])%list.
Proof.
  unfold saveRefreshTokenPrisma.
  intros (now & w0 & [= <- <-] & H)%bind_ok.
  rewrite try_rethrow in H.
  apply bind_ok in H as (userID & w1 & Hid & H).
  apply getUserIdByAuth0_ok in Hid as (Huser & fs & ->).
  apply bind_ok in H as ([] & w2 & Hrev & H).
  apply bind_ok in H as (blob & w3 & Henc & H).
  unfold encryptToken in Henc.
  apply bind_ok in Henc as (iv & w4 & [= <- <-] & Henc).
  unfold lift in Henc. injection Henc as Henc <-.
  unfold Prisma.refreshToken_create in H.
  apply io_ok in H as (fs' & H). cbn in H.
  destruct (_ || _); [discriminate|].
  destruct (existsb _ _); [discriminate|].
  injection H as <-.
  eexists userID, _, blob. split; [exact Huser|]. split; [exact Henc|].
  cbn [ledger set_ledger set_faults set_drawn]. f_equal.
  destruct (truthy_str oldRefreshToken).
  - unfold Prisma.refreshToken_revokeMany in Hrev.
    by apply io_ok in Hrev as (fs2 & [= <-]).
  - by injection Hrev as <-.
Qed.

(** The ledger stays sound under [saveRefreshTokenPrisma]. *)
Lemma saveRefreshToken_sound (sessionId newRefreshToken auth0Id : string)
    (oldRefreshToken : option string) (w w' : World) :
  ledger_sound gcm env (ledger w) ->
  saveRefreshTokenPrisma gcm env sessionId newRefreshToken auth0Id
                         oldRefreshToken w = (Ok tt, w') ->
  ledger_sound gcm env (ledger w').
Proof.
  intros Hsound (userID & iv & blob & _ & Henc & ->)%saveRefreshToken_ok.
  intros r t [Hin|Hin]%in_app_or Hdec.
  - destruct (truthy_str oldRefreshToken); [|by eapply Hsound].
    apply in_map_iff in Hin as (r0 & <- & Hin0).
    apply (Hsound r0 t Hin0).
    unfold Prisma.revoke_if in Hdec. by destruct (Prisma.active_for _ _ r0).
  - destruct Hin as [<-|[]]. cbn [row_refreshToken] in Hdec.
    destruct (String.eqb newRefreshToken "") eqn:Hempty.
    + apply String.eqb_eq in Hempty as ->.
      rewrite (decrypt_encrypt_iv_empty gcm laws _ _ _ Henc) in Hdec. discriminate.
    + apply String.eqb_neq in Hempty.
      rewrite (decrypt_encrypt_iv gcm laws _ _ _ _ Hempty Henc) in Hdec.
      by injection Hdec as <-.
Qed.

Lemma ledger_sound_nil : ledger_sound gcm env [].
Proof. intros r t []. Qed.

(** Revocation changes no stored token, so it keeps the ledger sound. *)
Lemma revokeRefreshToken_sound (sessionId auth0Id : string) (w : World)
    (r : result unit) (w' : World) :
  ledger_sound gcm env (ledger w) ->
  revokeRefreshTokenPrisma sessionId auth0Id w = (r, w') ->
  ledger_sound gcm env (ledger w').
Proof.
  intros Hsound. unfold revokeRefreshTokenPrisma. rewrite try_rethrow.
  unfold bind at 1.
  destruct (getUserIdByAuth0 auth0Id w) as [[userID|e] w1] eqn:Hid.
  - pose proof (getUserIdByAuth0_keeps _ _ _ _ Hid) as K1.
    assert (Hl : ledger w1 = ledger w) by (by injection K1).
    unfold Prisma.refreshToken_revokeMany.
    intros [(fs & _ & ->)|(fs & [= _ <-])]%io_inv; cbn; rewrite Hl; [exact Hsound|].
    intros row t (r0 & <- & Hin)%in_map_iff Hdec.
    apply (Hsound r0 t Hin).
    unfold Prisma.revoke_if in Hdec. by destruct (Prisma.active_for _ _ r0).
  - intros [= _ <-].
    pose proof (getUserIdByAuth0_keeps _ _ _ _ Hid) as K1.
    assert (Hl : ledger w1 = ledger w) by (by injection K1).
    by rewrite Hl.
Qed.

End Ledger.

(** ** Refresh orchestrator *)

Section Orchestrator.

Variable gcm : aes_256_gcm.
Variable env : Env.

(** When rotation is due, the outcome of [maybeRefreshAccessToken] is
    decided by the refresh service alone. *)
Lemma maybeRefresh_due (sessionId : string) (s : sessionData) (w : World) :
  (accessExp s * 1000 - clock w <=? REFRESH_TOKEN_WINDOW env)%Z = true ->
  maybeRefreshAccessToken gcm env sessionId s w
  = match refreshTokenService gcm env (userId s) sessionId w with
    | (Ok token, w') => (Ok (mkRefresh true token), w')
    | (Throw _, w') => (Ok (mkRefresh false (accessToken s)), w')
    end.
Proof.
  intros Hdue. unfold maybeRefreshAccessToken, try_catch, bind, Date_now, ret.
  cbn. rewrite Hdue.
  by destruct (refreshTokenService gcm env (userId s) sessionId w) as [[t|e] w'].
Qed.

(** When it is not, nothing is attempted. *)
Lemma maybeRefresh_not_due (sessionId : string) (s : sessionData) (w : World) :
  (accessExp s * 1000 - clock w <=? REFRESH_TOKEN_WINDOW env)%Z = false ->
  maybeRefreshAccessToken gcm env sessionId s w
  = (Ok (mkRefresh false (accessToken s)), w).
Proof.
  intros Hdue. unfold maybeRefreshAccessToken, try_catch, bind, Date_now, ret.
  cbn. by rewrite Hdue.
Qed.

(** C3. Refresh is best effort: when rotation is due and the refresh
    attempt throws at any step (ledger miss, provider failure, missing
    tokens, failed verification, failed store write), the error is not
    propagated and the caller gets back its own access token with
    [refreshed = false]. *)
Theorem maybeRefresh_swallows_failure (sessionId : string) (s : sessionData)
    (w : World) (e : js_error) (w1 : World) :
  (accessExp s * 1000 - clock w <= REFRESH_TOKEN_WINDOW env)%Z ->
  refreshTokenService gcm env (userId s) sessionId w = (Throw e, w1) ->
  maybeRefreshAccessToken gcm env sessionId s w
  = (Ok (mkRefresh false (accessToken s)), w1).
Proof.
  intros Hdue Hfail. rewrite maybeRefresh_due by lia. by rewrite Hfail.
Qed.

(** [maybeRefreshAccessToken] never throws. *)
Lemma maybeRefresh_total (sessionId : string) (s : sessionData) (w : World) :
  exists r w', maybeRefreshAccessToken gcm env sessionId s w = (Ok r, w').
Proof.
  destruct (accessExp s * 1000 - clock w <=? REFRESH_TOKEN_WINDOW env)%Z eqn:Hdue.
  - rewrite maybeRefresh_due by done.
    destruct (refreshTokenService gcm env (userId s) sessionId w) as [[t|e] w'];
      eauto.
  - rewrite maybeRefresh_not_due by done. eauto.
Qed.

(** A ledger without a valid record makes the fetch throw the 404 error. *)
Lemma fetchRefreshToken_miss (sessionId auth0Id userID : string) (w : World) :
  faults w = [] ->
  users w !! auth0Id = Some userID ->
  List.find (Prisma.valid_for sessionId userID (clock w)) (ledger w) = None ->
  fetchRefreshTokenPrisma gcm env sessionId auth0Id w
  = (Throw (mkError "No valid refresh token found" (Some 404%Z)), w).
Proof.
  intros Hcalm Huser Hnone.
  destruct w as [rd us up lg ck en dr fl st pv dt]. cbn in Hcalm, Huser, Hnone.
  subst fl.
  unfold fetchRefreshTokenPrisma, getUserIdByAuth0, Prisma.user_findUnique,
    Prisma.refreshToken_findFirst, Date_now, try_catch, bind, io, ret, throw.
  run. reflexivity.
Qed.

(** C4 (amended: the error is caught, not propagated).  When rotation is
    due and the ledger holds no valid record for the pair, the ledger
    fetch throws "No valid refresh token found" (status 404), the refresh
    service rethrows it, and [maybeRefreshAccessToken] catches it and
    returns the caller's own access token with [refreshed = false]. *)
Theorem maybeRefresh_ledger_miss (sessionId : string) (s : sessionData)
    (userID : string) (w : World) :
  faults w = [] ->
  users w !! userId s = Some userID ->
  (accessExp s * 1000 - clock w <= REFRESH_TOKEN_WINDOW env)%Z ->
  List.find (Prisma.valid_for sessionId userID (clock w)) (ledger w) = None ->
  let notFound := mkError "No valid refresh token found" (Some 404%Z) in
  fetchRefreshTokenPrisma gcm env sessionId (userId s) w = (Throw notFound, w)
  /\ refreshTokenService gcm env (userId s) sessionId w = (Throw notFound, w)
  /\ maybeRefreshAccessToken gcm env sessionId s w
     = (Ok (mkRefresh false (accessToken s)), w).
Proof.
  intros Hcalm Huser Hdue Hnone notFound.
  pose proof (fetchRefreshToken_miss sessionId (userId s) userID w Hcalm Huser Hnone)
    as Hfetch.
  assert (Hservice :
    refreshTokenService gcm env (userId s) sessionId w = (Throw notFound, w)).
  { unfold refreshTokenService. rewrite try_rethrow.
    by apply bind_throw. }
  repeat split; [exact Hfetch|exact Hservice|].
  rewrite maybeRefresh_due by lia. by rewrite Hservice.
Qed.

End Orchestrator.

(** ** Rotation *)

Lemma lookup_map {A B} (f : A -> B) (l : list A) (i : nat) :
  map f l !! i = f <$> (l !! i).
Proof.
  revert i. induction l as [|x l IH]; intros [|i]; cbn; try reflexivity.
  apply IH.
Qed.

Lemma truthy_str_some (o : option string) :
  truthy_str o = true -> exists s, o = Some s /\ s <> "".
Proof.
  destruct o as [s|]; [|discriminate]. cbn.
  intros H%negb_true_iff%String.eqb_neq. eauto.
Qed.

Section Rotation.

Variable gcm : aes_256_gcm.
Variable env : Env.
Hypothesis laws : gcm_laws gcm.

Lemma post_refresh_ok (token : string) (w : World) (body : token_body) (w' : World) :
  Axios.post_refresh token w = (Ok body, w') ->
  oauth_refresh (provider w) token = Some body.
Proof.
  unfold Axios.post_refresh. intros (fs & H)%io_ok.
  unfold bind, Axios.send, Axios.rejected, throw in H. cbn in H.
  destruct (oauth_refresh (provider w) token) as [b|]; [|discriminate].
  by injection H as <-.
Qed.

(** The steps a successful refresh went through. *)
Lemma refreshTokenService_ok (auth0Id sessionId : string) (w : World)
    (token : string) (w' : World) :
  refreshTokenService gcm env auth0Id sessionId w = (Ok token, w') ->
  exists old fresh w1 w4,
    fetchRefreshTokenPrisma gcm env sessionId auth0Id w = (Ok old, w1)
    /\ oauth_refresh (provider w) old = Some (mkTokens (Some token) (Some fresh))
    /\ fresh <> ""
    /\ tables w4 = tables w
    /\ saveRefreshTokenPrisma gcm env sessionId fresh auth0Id (Some old) w4
       = (Ok tt, w').
Proof.
  unfold refreshTokenService. rewrite try_rethrow.
  intros (old & w1 & Hfetch & H)%bind_ok.
  apply bind_ok in H as (body & w2 & Hpost & H).
  pose proof (fetchRefreshToken_keeps gcm env _ _ _ _ _ Hfetch) as K1.
  pose proof (post_refresh_keeps _ _ _ _ Hpost) as K2.
  apply post_refresh_ok in Hpost.
  destruct (truthy_str (access_token body)) eqn:Ha; [|discriminate].
  destruct (truthy_str (refresh_token body)) eqn:Hr; [|discriminate].
  apply truthy_str_some in Ha as (at' & Hat & _).
  apply truthy_str_some in Hr as (rt' & Hrt & Hne).
  cbn [negb orb] in H. rewrite Hat, Hrt in H. cbn [default from_option] in H.
  apply bind_ok in H as (v & w3 & Hverify & H).
  apply bind_ok in H as (sid & w4 & Hsession & H).
  apply bind_ok in H as ([] & w5 & Hsave & [= <- <-]).
  pose proof (verifyAccessToken_keeps _ _ _ _ Hverify) as K3.
  pose proof (saveUserSessionRedis_keeps env _ _ _ _ _ _ Hsession) as K4.
  exists old, rt', w1, w4. split; [exact Hfetch|]. split.
  - assert (Hp : provider w1 = provider w) by (by injection K1).
    rewrite <- Hp, Hpost. destruct body as [a r]. cbn in Hat, Hrt. by subst.
  - split; [exact Hne|]. split; [|exact Hsave].
    by rewrite K4, K3, K2, K1.
Qed.

(** C2. Rotation invariant.  After a call of [maybeRefreshAccessToken]
    that rotated (it answers [refreshed = true]: the valid record of the
    pair was presented to the provider, which issued a new pair of
    tokens), the ledger holds exactly
    one valid record for the pair, now and at any time before that
    record expires; it decrypts to the refresh token the provider just
    issued and it is what [fetchRefreshTokenPrisma] returns; and every
    record that was valid for the pair before the call is now revoked.
    The ledger is assumed sound before the call and the refresh-token
    lifetime positive. *)
Theorem maybeRefresh_rotation (sessionId : string) (s : sessionData)
    (w : World) (token : string) (w' : World) :
  (0 < AUTH0_REFRESH_TOKEN_EXPIRY env)%Z ->
  ledger_sound gcm env (ledger w) ->
  maybeRefreshAccessToken gcm env sessionId s w = (Ok (mkRefresh true token), w') ->
  exists userID oldRow old fresh newRow,
    users w !! userId s = Some userID
    /\ List.find (Prisma.valid_for sessionId userID (clock w)) (ledger w)
       = Some oldRow
    /\ decryptToken gcm (row_refreshToken oldRow) (ENCRYPTION_KEY env) = Ok old
    /\ oauth_refresh (provider w) old = Some (mkTokens (Some token) (Some fresh))
    /\ clock w' = clock w
    /\ (forall now,
          (now < clock w + AUTH0_REFRESH_TOKEN_EXPIRY env * 1000)%Z ->
          List.filter (Prisma.valid_for sessionId userID now) (ledger w')
          = [newRow])
    /\ decryptToken gcm (row_refreshToken newRow) (ENCRYPTION_KEY env) = Ok fresh
    /\ fetchRefreshTokenPrisma gcm env sessionId (userId s) (calm w')
       = (Ok fresh, calm w')
    /\ (forall i r,
          ledger w !! i = Some r ->
          Prisma.valid_for sessionId userID (clock w) r = true ->
          ledger w' !! i = Some (Prisma.revoke r)).
Proof.
  intros Hlife Hsound Hrun.
  assert (Hservice :
    refreshTokenService gcm env (userId s) sessionId w = (Ok token, w')).
  { destruct (accessExp s * 1000 - clock w <=? REFRESH_TOKEN_WINDOW env)%Z eqn:Hdue.
    - rewrite maybeRefresh_due in Hrun by done.
      destruct (refreshTokenService gcm env (userId s) sessionId w) as [[t|e] w0];
        [|discriminate].
      by injection Hrun as -> ->.
    - rewrite maybeRefresh_not_due in Hrun by done. discriminate. }
  apply refreshTokenService_ok in Hservice
    as (old & fresh & w1 & w4 & Hfetch & Hissued & Hfresh & Htables & Hsave).
  apply fetchRefreshToken_ok in Hfetch as (userID & row & Huser & Hrow & Hdec).
  assert (Hold : old <> "").
  { apply (Hsound row old); [|exact Hdec].
    apply find_some in Hrow. tauto. }
  pose proof (saveRefreshToken_keeps_ground gcm env _ _ _ _ _ _ _ Hsave) as Hground.
  apply saveRefreshToken_ok in Hsave as (userID' & iv & blob & Huser' & Henc & Hledger).
  injection Htables as Husers Hclock Hprovider Hl4.
  injection Hground as Husers' Hclock' _.
  rewrite Husers, Huser in Huser'. injection Huser' as <-.
  assert (Htruthy : truthy_str (Some old) = true).
  { cbn. by apply negb_true_iff, String.eqb_neq. }
  rewrite Htruthy, Hl4, Hclock in Hledger.
  set (newRow := mkRow userID blob sessionId
                       (clock w + AUTH0_REFRESH_TOKEN_EXPIRY env * 1000)%Z false)
    in Hledger.
  assert (Hnew : forall now,
             (now < clock w + AUTH0_REFRESH_TOKEN_EXPIRY env * 1000)%Z ->
             Prisma.valid_for sessionId userID now newRow = true).
  { intros now Hnow. unfold Prisma.valid_for, Prisma.active_for, newRow. cbn.
    rewrite !String.eqb_refl. cbn. lia. }
  assert (Hblob : decryptToken gcm blob (ENCRYPTION_KEY env) = Ok fresh)
    by (by apply (decrypt_encrypt_iv gcm laws fresh _ iv)).
  exists userID, row, old, fresh, newRow.
  split; [exact Huser|]. split; [exact Hrow|]. split; [exact Hdec|].
  split; [exact Hissued|].
  split; [congruence|]. rewrite Hledger. split.
  { intros now Hnow. rewrite List.filter_app, filter_revoked. cbn.
    by rewrite (Hnew now Hnow). }
  split; [exact Hblob|]. split.
  { rewrite (fetchRefreshToken_calm gcm env sessionId (userId s) userID (calm w') newRow).
    - cbn. by rewrite Hblob.
    - reflexivity.
    - cbn. by rewrite Husers', Husers.
    - cbn. rewrite Hclock', Hclock, Hledger.
      rewrite find_app_none by apply find_revoked. cbn.
      by rewrite Hnew by lia. }
  intros i r Hi Hvalid.
  rewrite lookup_app_l.
  - rewrite lookup_map, Hi. cbn. by rewrite (revoke_if_valid _ _ _ _ Hvalid).
  - rewrite length_map. by apply lookup_lt_Some in Hi.
Qed.

End Rotation.

(** ** Logout *)

Lemma try_catch_throw_ok {A} (m : M A) (h : js_error -> js_error) (w : World)
    (a : A) (w' : World) :
  try_catch m (fun err => throw (h err)) w = (Ok a, w') -> m w = (Ok a, w').
Proof.
  unfold try_catch, throw. by destruct (m w) as [[x|e] w1].
Qed.

Section Logout.

Variable env : Env.

(** A successful fetch returns the document kept under the session key. *)
Lemma getUserSessionRedis_ok (sessionId : string) (w : World) (doc : jsval)
    (active : bool) (w' : World) :
  getUserSessionRedis env sessionId w = (Ok (doc, active), w') ->
  exists life, redis w !! session_key sessionId = Some (mkEntry (Json doc) life).
Proof.
  unfold getUserSessionRedis. intros H%try_catch_throw_ok.
  apply bind_ok in H as (found & w1 & Hget & H).
  unfold Redis.get in Hget. apply io_ok in Hget as (fs & [= <- <-]).
  cbn [redis set_faults] in H.
  destruct (redis w !! session_key sessionId) as [[value life]|] eqn:Hkey;
    [|discriminate].
  cbn [fmap option_fmap option_map e_value] in H.
  destruct value as [text|found].
  - cbn in H. destruct (negb (String.eqb text "")); discriminate.
  - cbn [Redis.present negb Redis.JSON_parse] in H.
    apply bind_ok in H as (doc' & w2 & [= <- <-] & H).
    apply bind_ok in H as (marker & w3 & _ & H).
    assert (doc = found); [|subst; eauto].
    destruct (Redis.present marker); [|by injection H].
    apply bind_ok in H as (ttl & w4 & _ & H).
    destruct (ttl =? -2)%Z; [by injection H|].
    apply bind_ok in H as (u & w5 & _ & H). by injection H.
Qed.

(** What [logoutService] does once the session is fetched and the
    revocation is skipped. *)
Lemma logout_rest_keeps (sessionId : string) :
  respects (same tables)
    (let* _ := ret tt in
     let* _ :=
       try_catch (let* _ := deleteUserSessionRedis sessionId in ret tt)
                 (fun err => ret tt) in
     Axios.get_logout).
Proof.
  unfold deleteUserSessionRedis, Redis.unlink, Axios.get_logout, Axios.send,
    Axios.rejected.
  respects_all.
Qed.

(** [logoutService] tests the field [user_id]; a session document without
    it (every document [saveUserSessionRedis] writes names the field
    [userId]) sends the call past the revocation, and the ledger is left
    as it was. *)
Lemma logoutService_keeps_ledger (sessionId : string) (w : World)
    (r : result unit) (w' : World) :
  (forall doc life,
      redis w !! session_key sessionId = Some (mkEntry (Json doc) life) ->
      truthy (get_prop doc "user_id") = false) ->
  logoutService env sessionId w = (r, w') ->
  ledger w' = ledger w.
Proof.
  intros Hdoc. unfold logoutService. rewrite try_rethrow.
  unfold bind at 1.
  destruct (getUserSessionRedis env sessionId w) as [[[doc active]|e] w1] eqn:Hfetch.
  - pose proof (getUserSessionRedis_keeps env _ _ _ _ Hfetch) as K1.
    apply getUserSessionRedis_ok in Hfetch as (life & Hkey).
    cbn [fst]. rewrite (Hdoc doc life Hkey), andb_false_r.
    intros K2%logout_rest_keeps.
    unfold same in K1, K2. rewrite K1 in K2. by injection K2.
  - intros [= <- <-].
    pose proof (getUserSessionRedis_keeps env _ _ _ _ Hfetch) as K1.
    by injection K1.
Qed.

Lemma session_document_has_no_user_id (access_token auth0Id : string) (exp : jsval) :
  get_prop (session_document access_token auth0Id exp) "user_id" = JUndefined.
Proof. reflexivity. Qed.

End Logout.

(** ** Plan and role *)

Section PlanRole.

Variable env : Env.

Lemma verifyAccessToken_calm (token : string) (w : World) :
  faults w = [] -> jwt_verify (provider w) token = true ->
  verifyAccessToken token w = (Ok true, w).
Proof.
  intros Hcalm Hok. unfold verifyAccessToken. rewrite io_calm by done.
  by rewrite Hok.
Qed.

Lemma updateUserPlanPrisma_calm (auth0Id planId updatedAt userID : string)
    (w : World) :
  faults w = [] -> is_datetime w updatedAt = true ->
  users w !! auth0Id = Some userID -> Prisma.varchar 64 planId = true ->
  updateUserPlanPrisma auth0Id planId updatedAt w
  = (Ok tt, set_user_plan (<[auth0Id := planId]> (user_plan w)) w).
Proof.
  intros Hcalm Hdate Huser Hfits. unfold updateUserPlanPrisma, Prisma.user_update_plan.
  rewrite try_rethrow, io_calm by done. by rewrite Hdate, Huser, Hfits.
Qed.

Lemma getManagementAPITokenRedis_calm (w : World) (token : jsval) (life : option Z) :
  faults w = [] ->
  redis w !! MANAGEMENT_API_KEY env = Some (mkEntry (Json token) life) ->
  getManagementAPITokenRedis env w = (Ok token, w).
Proof.
  intros Hcalm Hkey. unfold getManagementAPITokenRedis, Redis.get.
  apply try_catch_ok. unfold bind. rewrite io_calm by done.
  by rewrite Hkey.
Qed.

(** With the provider reachable and a token that is a string, the role
    query is sent, whatever it answers. *)
Lemma fetchUserRoleService_sends (accessToken auth0Id : string) (w : World) :
  faults w = [] ->
  exists r w',
    fetchUserRoleService (JStr accessToken) auth0Id w = (r, w')
    /\ sent w' = (sent w ++ [ReqGetRoles auth0Id])%list
    /\ user_plan w' = user_plan w.
Proof.
  intros Hcalm. unfold fetchUserRoleService, Axios.get_roles. rewrite try_rethrow.
  rewrite (bind_step _ _ _ accessToken w) by reflexivity.
  unfold bind at 1. rewrite io_calm by done.
  unfold bind, Axios.send, Axios.rejected, throw, ret. cbn.
  destruct (roles_of (provider w) auth0Id) as [[status data]|]; [|by eauto].
  cbn. destruct (negb (status =? 200)%Z); [by eauto|].
  destruct data as [| |b|n|t|[|first items]|fields]; try by eauto.
  destruct (negb (truthy first) && _); by eauto.
Qed.

(** What follows the role query only adds requests. *)
Lemma role_update_grows (newRoleId currentRole token : jsval) (auth0Id : string) :
  respects grows
    (if strict_eq newRoleId currentRole then ret (mkResponse true "" 200)
     else
       let* _ := deleteUserRole token auth0Id currentRole in
       let* _ := updateUserRole token auth0Id newRoleId in
       ret (mkResponse true "" 200)).
Proof.
  unfold deleteUserRole, updateUserRole, Axios.post_user_roles, Axios.send,
    Axios.rejected.
  respects_all.
Qed.

Lemma lookup_role_unmapped (planId : string) :
  List.find (fun e => String.eqb (plan_id e.2) planId) (PLAN_MAPPING env) = None ->
  lookup_role env planId = JUndefined.
Proof. unfold lookup_role. by intros ->. Qed.

(** The handler does not check the lookup of the role.  For a plan
    identifier with no entry in the plan table, of a kind the database
    takes, the role it looks up is [undefined], the plan is written to the
    users table, the role query is sent to the provider, and the call is
    answered with code 200 or with the generic failure of code 500.  The
    caller is authenticated, the user exists, the management token is
    cached and the stores answer. *)
Lemma updateUserPlanService_unmapped (call : UpdateUserPlanCall) (w : World)
    (authHeader userID token : string) (life : option Z) :
  List.find (fun e => String.eqb (plan_id e.2) (call_plan_id call))
            (PLAN_MAPPING env) = None ->
  Prisma.varchar 64 (call_plan_id call) = true ->
  is_datetime w (updated_at call) = true ->
  faults w = [] ->
  authorization call = Some authHeader ->
  String.prefix "Bearer " authHeader = true ->
  jwt_verify (provider w) (bearer_token authHeader) = true ->
  auth0_id call <> "" ->
  users w !! auth0_id call = Some userID ->
  redis w !! MANAGEMENT_API_KEY env = Some (mkEntry (Json (JStr token)) life) ->
  exists resp w',
    updateUserPlanService env call w = (Ok resp, w')
    /\ lookup_role env (call_plan_id call) = JUndefined
    /\ user_plan w' !! auth0_id call = Some (call_plan_id call)
    /\ (exists more,
          sent w' = (sent w ++ ReqGetRoles (auth0_id call) :: more)%list)
    /\ (resp_code resp = 200 \/ resp_code resp = 500)%Z.
Proof.
  intros Hunmapped Hfits Hdate Hcalm Hauth Hbearer Hverify Hid Huser Hcached.
  unfold updateUserPlanService. rewrite Hauth. cbn [default from_option id].
  assert (Hheader : truthy_str (Some authHeader) = true).
  { destruct authHeader; [discriminate|reflexivity]. }
  rewrite Hheader, Hbearer. cbn [negb orb].
  rewrite (bind_step _ _ _ true w)
    by (apply try_catch_ok;
        by rewrite (bind_step _ _ _ _ _ (verifyAccessToken_calm _ _ Hcalm Hverify))).
  cbn [negb]. apply String.eqb_neq in Hid. rewrite Hid.
  rewrite (lookup_role_unmapped _ Hunmapped).
  set (w1 := set_user_plan (<[auth0_id call := call_plan_id call]> (user_plan w)) w).
  destruct (fetchUserRoleService_sends token (auth0_id call) w1 Hcalm)
    as (rC & w2 & Hrole & Hsent & Hplan).
  match goal with
  | |- context [try_catch ?m ?h w] =>
      assert (Hbody : exists r w',
                 m w = (r, w')
                 /\ user_plan w' = user_plan w1
                 /\ (exists more,
                       sent w' = (sent w ++ ReqGetRoles (auth0_id call) :: more)%list)
                 /\ (forall resp, r = Ok resp -> resp_code resp = 200%Z))
  end.
  { rewrite (bind_step _ _ _ _ _
               (updateUserPlanPrisma_calm _ _ _ _ _ Hcalm Hdate Huser Hfits)).
    fold w1.
    rewrite (bind_step _ _ _ (JStr token) w1)
      by (apply try_catch_ok;
          by apply (getManagementAPITokenRedis_calm w1 (JStr token) life)).
    unfold bind at 1. rewrite Hrole.
    destruct rC as [currentRole|e].
    - match goal with
      | |- context [?m w2] => destruct (m w2) as [r w3] eqn:Hrest
      end.
      pose proof (role_update_grows _ _ _ _ _ _ _ Hrest) as [Hp (more & Hs)].
      exists r, w3. split; [reflexivity|]. split; [congruence|]. split.
      + exists more. rewrite Hs, Hsent. cbn. by rewrite <- app_assoc.
      + intros resp ->. revert Hrest.
        destruct (strict_eq JUndefined currentRole).
        * by intros [= <- _].
        * intros (u1 & w4 & _ & H)%bind_ok.
          by apply bind_ok in H as (u2 & w5 & _ & [= <- _]).
    - exists (Throw e), w2. split; [reflexivity|]. split; [exact Hplan|]. split.
      + exists []. by rewrite Hsent.
      + discriminate. }
  destruct Hbody as (r & w' & Hbody & Hplan' & Hsent' & Hcode).
  assert (Hwritten : user_plan w' !! auth0_id call = Some (call_plan_id call)).
  { rewrite Hplan'. cbn. by rewrite lookup_insert_eq. }
  destruct r as [resp|e].
  - rewrite (try_catch_ok _ _ _ _ _ Hbody).
    exists resp, w'. repeat split; try done. left. by apply Hcode.
  - rewrite (try_catch_caught _ _ _ _ _ Hbody).
    eexists _, w'. repeat split; try done. by right.
Qed.

End PlanRole.

(** ** The concrete instance *)

Module FixtureFacts.

Import Fixture.

Lemma unshift_shift (b : byte) : unshift (shift b) = b.
Proof. destruct b; reflexivity. Qed.

Lemma fixture_gcm_laws : gcm_laws gcm.
Proof.
  split; intros key iv pt; cbn.
  - unfold bytes_eqb. rewrite bool_decide_eq_true_2 by reflexivity.
    f_equal. rewrite map_map. induction pt as [|b pt IH]; [reflexivity|].
    cbn. by rewrite unshift_shift, IH.
  - apply length_map.
  - reflexivity.
Qed.

Lemma fixture_ledger_sound : ledger_sound gcm env (ledger world).
Proof.
  intros r t [<-|[]] Hdec. vm_compute in Hdec. injection Hdec as <-. discriminate.
Qed.

End FixtureFacts.

(** ** The claims on the concrete instance *)

(** C1 (the code misses the revocation).  A logout of the live session
    ["s1"] succeeds, deletes the session from the store and calls the
    provider, and leaves the refresh-token record of the pair
    non-revoked: [logoutService] reads [sessionData.user_id], a field the
    session document does not have. *)
Theorem logoutService_skips_revocation :
  let run := logoutService Fixture.env "s1" Fixture.world in
  redis Fixture.world !! session_key "s1"
  = Some (mkEntry (Json (session_document "at1" "auth0|u1" (JNum 1030)))
                  (Some 30000%Z))
  /\ run.1 = Ok tt
  /\ redis run.2 !! session_key "s1" = None
  /\ sent run.2 = [ReqLogout]
  /\ List.filter (Prisma.active_for "s1" "u-1") (ledger run.2)
     = [mkRow "u-1" Fixture.blob_rt1 "s1" 5000000%Z false].
Proof. vm_compute. repeat split. Qed.

(** C9 (the code accepts a fourth segment).  A blob of four
    colon-delimited segments, a valid blob followed by [":ff"], is not
    refused: [decryptToken] returns the plaintext of its first three
    segments. *)
Theorem decryptToken_accepts_fourth_segment :
  length (split ":" (Fixture.blob_rt1 +:+ ":ff")) = 4%nat
  /\ decryptToken Fixture.gcm (Fixture.blob_rt1 +:+ ":ff") Fixture.key = Ok "rt1".
Proof. vm_compute. by split. Qed.

(** Scenario C: a blob of two segments is refused. *)
Example decryptToken_two_segments :
  decryptToken Fixture.gcm "07070707070707070707070707070707:737532" Fixture.key
  = Throw (new_Error "Invalid refresh token").
Proof. reflexivity. Qed.

(** A flipped bit in the tag is refused. *)
Example decryptToken_tampered_tag :
  decryptToken Fixture.gcm
    "07070707070707070707070707070707:cbcacacacacacacacacacacacacacaca:737532"
    Fixture.key
  = Throw (new_Error "Invalid refresh token").
Proof. vm_compute. reflexivity. Qed.

(** Counterexample to C6 as stated: the empty token encrypts to a blob
    that [decryptToken] refuses. *)
Lemma roundtrip_fails_on_empty_token :
  (encryptToken Fixture.gcm "" Fixture.key IV_LENGTH Fixture.world).1
  = Ok "000102030405060708090a0b0c0d0e0f:b8b8b8b8b8b8b8b8b8b8b8b8b8b8b8b8:"
  /\ decryptToken Fixture.gcm
       "000102030405060708090a0b0c0d0e0f:b8b8b8b8b8b8b8b8b8b8b8b8b8b8b8b8:"
       Fixture.key
     = Throw (new_Error "Invalid refresh token").
Proof. vm_compute. by split. Qed.

Lemma encrypt_decrypt_roundtrip_witness :
  exists blob w',
    encryptToken Fixture.gcm "rt1" Fixture.key IV_LENGTH Fixture.world = (Ok blob, w')
    /\ decryptToken Fixture.gcm blob Fixture.key = Ok "rt1".
Proof.
  apply (encrypt_decrypt_roundtrip Fixture.gcm FixtureFacts.fixture_gcm_laws "rt1"
           Fixture.key IV_LENGTH Fixture.world);
    [reflexivity|discriminate|reflexivity|unfold IV_LENGTH; lia].
Defined.

Lemma maybeRefresh_rotation_witness :
  let w' := (maybeRefreshAccessToken Fixture.gcm Fixture.env "s1" Fixture.session
                                     Fixture.world).2 in
  exists userID oldRow old fresh newRow,
    users Fixture.world !! "auth0|u1" = Some userID
    /\ List.find (Prisma.valid_for "s1" userID (clock Fixture.world))
                 (ledger Fixture.world) = Some oldRow
    /\ decryptToken Fixture.gcm (row_refreshToken oldRow)
                    (ENCRYPTION_KEY Fixture.env) = Ok old
    /\ oauth_refresh (provider Fixture.world) old
       = Some (mkTokens (Some "at2") (Some fresh))
    /\ clock w' = clock Fixture.world
    /\ (forall now,
          (now < clock Fixture.world
                 + AUTH0_REFRESH_TOKEN_EXPIRY Fixture.env * 1000)%Z ->
          List.filter (Prisma.valid_for "s1" userID now) (ledger w') = [newRow])
    /\ decryptToken Fixture.gcm (row_refreshToken newRow)
                    (ENCRYPTION_KEY Fixture.env) = Ok fresh
    /\ fetchRefreshTokenPrisma Fixture.gcm Fixture.env "s1" "auth0|u1" (calm w')
       = (Ok fresh, calm w')
    /\ (forall i r,
          ledger Fixture.world !! i = Some r ->
          Prisma.valid_for "s1" userID (clock Fixture.world) r = true ->
          ledger w' !! i = Some (Prisma.revoke r)).
Proof.
  apply (maybeRefresh_rotation Fixture.gcm Fixture.env FixtureFacts.fixture_gcm_laws "s1"
           Fixture.session Fixture.world "at2").
  - cbn. lia.
  - exact FixtureFacts.fixture_ledger_sound.
  - vm_compute. reflexivity.
Defined.

Lemma maybeRefresh_swallows_failure_witness :
  maybeRefreshAccessToken Fixture.gcm Fixture.env "s1" Fixture.session
                          Fixture.world_no_token
  = (Ok (mkRefresh false "at1"), Fixture.world_no_token).
Proof.
  apply (maybeRefresh_swallows_failure Fixture.gcm Fixture.env "s1" Fixture.session
           Fixture.world_no_token
           (mkError "No valid refresh token found" (Some 404%Z))
           Fixture.world_no_token).
  - cbn. lia.
  - vm_compute. reflexivity.
Defined.

(** The other ways a refresh attempt fails end in the same fallback:
    provider unreachable, refresh token missing from the response, access
    token that does not verify, store write that fails. *)
Example maybeRefresh_provider_down :
  (maybeRefreshAccessToken Fixture.gcm Fixture.env "s1" Fixture.session
     (Fixture.with_provider Fixture.idp_down Fixture.world)).1
  = Ok (mkRefresh false "at1").
Proof. vm_compute. reflexivity. Qed.

Example maybeRefresh_missing_token :
  (maybeRefreshAccessToken Fixture.gcm Fixture.env "s1" Fixture.session
     (Fixture.with_provider Fixture.idp_no_refresh_token Fixture.world)).1
  = Ok (mkRefresh false "at1").
Proof. vm_compute. reflexivity. Qed.

Example maybeRefresh_bad_signature :
  (maybeRefreshAccessToken Fixture.gcm Fixture.env "s1" Fixture.session
     (Fixture.with_provider Fixture.idp_bad_signature Fixture.world)).1
  = Ok (mkRefresh false "at1").
Proof. vm_compute. reflexivity. Qed.

Example maybeRefresh_store_write_fails :
  (maybeRefreshAccessToken Fixture.gcm Fixture.env "s1" Fixture.session
     (set_faults [false; false; false; false; true] Fixture.world)).1
  = Ok (mkRefresh false "at1").
Proof. vm_compute. reflexivity. Qed.

(** Counterexample to C4 as stated: rotation is due, the ledger holds no
    valid record, and [maybeRefreshAccessToken] returns; nothing is
    thrown to the caller. *)
Lemma maybeRefresh_does_not_propagate :
  (accessExp Fixture.session * 1000 - clock Fixture.world_no_token
   <=? REFRESH_TOKEN_WINDOW Fixture.env)%Z = true
  /\ List.find (Prisma.valid_for "s1" "u-1" (clock Fixture.world_no_token))
               (ledger Fixture.world_no_token) = None
  /\ (maybeRefreshAccessToken Fixture.gcm Fixture.env "s1" Fixture.session
                              Fixture.world_no_token).1
     = Ok (mkRefresh false "at1").
Proof. vm_compute. repeat split. Qed.

Lemma maybeRefresh_ledger_miss_witness :
  let notFound := mkError "No valid refresh token found" (Some 404%Z) in
  fetchRefreshTokenPrisma Fixture.gcm Fixture.env "s1" "auth0|u1"
                          Fixture.world_no_token
  = (Throw notFound, Fixture.world_no_token)
  /\ refreshTokenService Fixture.gcm Fixture.env "auth0|u1" "s1"
                         Fixture.world_no_token
     = (Throw notFound, Fixture.world_no_token)
  /\ maybeRefreshAccessToken Fixture.gcm Fixture.env "s1" Fixture.session
                             Fixture.world_no_token
     = (Ok (mkRefresh false "at1"), Fixture.world_no_token).
Proof.
  apply (maybeRefresh_ledger_miss Fixture.gcm Fixture.env "s1" Fixture.session
           "u-1" Fixture.world_no_token).
  - reflexivity.
  - vm_compute. reflexivity.
  - cbn. lia.
  - reflexivity.
Defined.

(** C5 (the code does not check the lookup).  For the plan ["plan_gold"],
    which the plan table does not list, the handler raises no
    configuration error and goes on to the role-management calls: it
    writes the plan to the users table, fetches the management token,
    queries the role of the user, posts that role and then posts the
    role it looked up, which is [undefined] and goes out as [null]; the
    provider refuses it and the call is answered with the generic failure
    of code 500, the unknown plan staying in the users table. *)
Theorem updateUserPlan_unmapped_proceeds :
  let run := updateUserPlanService Fixture.env Fixture.call_gold Fixture.world in
  List.find (fun e => String.eqb (plan_id e.2) "plan_gold")
            (PLAN_MAPPING Fixture.env) = None
  /\ lookup_role Fixture.env "plan_gold" = JUndefined
  /\ user_plan Fixture.world !! "auth0|u1" = Some "plan_free"
  /\ run.1 = Ok (mkResponse false "Internal server error" 500)
  /\ user_plan run.2 !! "auth0|u1" = Some "plan_gold"
  /\ sent run.2
     = [ReqClientCredentials; ReqGetRoles "auth0|u1";
        ReqPostRoles "auth0|u1" (JStr "rol_free");
        ReqPostRoles "auth0|u1" JNull].
Proof. vm_compute. repeat split. Qed.

Example updateUserPlanService_unmapped_cached :
  exists resp w',
    updateUserPlanService Fixture.env Fixture.call_gold Fixture.world_cached
    = (Ok resp, w')
    /\ lookup_role Fixture.env "plan_gold" = JUndefined
    /\ user_plan w' !! "auth0|u1" = Some "plan_gold"
    /\ (exists more,
          sent w' = (sent Fixture.world_cached ++ ReqGetRoles "auth0|u1" :: more)%list)
    /\ (resp_code resp = 200 \/ resp_code resp = 500)%Z.
Proof.
  apply (updateUserPlanService_unmapped Fixture.env Fixture.call_gold
           Fixture.world_cached "Bearer m2m" "u-1" "m2m" (Some 3600000%Z)).
  - reflexivity.
  - reflexivity.
  - reflexivity.
  - reflexivity.
  - reflexivity.
  - reflexivity.
  - reflexivity.
  - discriminate.
  - vm_compute. reflexivity.
  - vm_compute. reflexivity.
Defined.

Lemma getUserSessionRedis_sliding_witness :
  (exists w',
      getUserSessionRedis Fixture.env "s1" Fixture.world
      = (Ok (session_document "at1" "auth0|u1" (JNum 1030), true), w')
      /\ redis w' !! active_key "s1"
         = Some (mkEntry (Plain "1") (Some (INACTIVITY_TIMEOUT Fixture.env * 1000)%Z))
      /\ redis w' !! session_key "s1"
         = Some (mkEntry (Json (session_document "at1" "auth0|u1" (JNum 1030)))
                         (Some 30000%Z)))
  /\ getUserSessionRedis Fixture.env "s1" Fixture.world_inactive
     = (Ok (session_document "at1" "auth0|u1" (JNum 1030), false),
        Fixture.world_inactive).
Proof.
  split.
  - destruct (getUserSessionRedis_sliding Fixture.env "s1" Fixture.world
                (session_document "at1" "auth0|u1" (JNum 1030)) (Some 30000%Z))
      as [Hpresent _].
    + reflexivity.
    + cbn. lia.
    + vm_compute. reflexivity.
    + apply (Hpresent (Plain "1") 100000%Z); [vm_compute; reflexivity|reflexivity|lia].
  - destruct (getUserSessionRedis_sliding Fixture.env "s1" Fixture.world_inactive
                (session_document "at1" "auth0|u1" (JNum 1030)) (Some 30000%Z))
      as [_ Habsent].
    + reflexivity.
    + cbn. lia.
    + vm_compute. reflexivity.
    + apply Habsent. vm_compute. reflexivity.
Defined.

(** Counterexample to C8 as stated: an access token whose [exp] claim is
    the number 0 is refused as if the claim were missing, and nothing is
    written. *)
Lemma saveUserSession_refuses_exp_zero :
  let w := Fixture.with_provider Fixture.idp_exp0 Fixture.world in
  let run := saveUserSessionRedis Fixture.env "auth0|u1" "at9" (Some "s9") w in
  get_prop (jwt_decode (provider w) "at9") "exp" = JNum 0
  /\ run.1 = Throw (new_Error "Invalid access token: missing exp")
  /\ redis run.2 !! session_key "s9" = None.
Proof. vm_compute. repeat split. Qed.

Lemma saveUserSessionRedis_writes_witness :
  (exists sid w',
      saveUserSessionRedis Fixture.env "auth0|u1" "at2" (Some "s9") Fixture.world
      = (Ok sid, w')
      /\ (truthy_str (Some "s9") = true -> Some "s9" = Some sid)
      /\ redis w' !! session_key sid
         = Some (mkEntry (Json (session_document "at2" "auth0|u1" (JNum 2000)))
                         (Some (1000 * 1000)%Z))
      /\ redis w' !! active_key sid
         = Some (mkEntry (Plain "1") (Some (INACTIVITY_TIMEOUT Fixture.env * 1000)%Z))
      /\ (1 <= 1000)%Z)
  /\ (exists err w',
        saveUserSessionRedis Fixture.env "auth0|u1" "at9" (Some "s9")
          (Fixture.with_provider Scenario.idp_exp_far Fixture.world)
        = (Throw err, w')
        /\ redis w' = redis Fixture.world).
Proof.
  split.
  - destruct (saveUserSessionRedis_writes Fixture.env "auth0|u1" "at2" (Some "s9")
                Fixture.world) as [Hwrites _].
    apply (Hwrites 2000%Z); [reflexivity|lia|lia|reflexivity|cbn; lia].
  - destruct (saveUserSessionRedis_writes Fixture.env "auth0|u1" "at9" (Some "s9")
                (Fixture.with_provider Scenario.idp_exp_far Fixture.world))
      as [_ Hrefuses].
    apply Hrefuses. right; right. exists 10000000000000%Z. split; [reflexivity|lia].
Defined.

Lemma getValidSessionOrRevoke_total_witness :
  exists r w',
    getValidSessionOrRevoke Fixture.env "s1" (set_faults [true] Fixture.world)
    = (Ok r, w')
    /\ r = mkGate false NotFound None.
Proof.
  destruct (getValidSessionOrRevoke_total Fixture.env "s1"
              (set_faults [true] Fixture.world))
    as (r & w' & Hrun & Hthrow & _).
  exists r, w'. split; [exact Hrun|].
  apply (Hthrow
           (new_Error "Unable to retrieve session from Redis for sessionId: s1")
           (set_faults [] Fixture.world)).
  vm_compute. reflexivity.
Defined.

(** A store that fails on the first read: the gate answers [NotFound]. *)
Example gate_store_failure :
  (getValidSessionOrRevoke Fixture.env "s1" (set_faults [true] Fixture.world)).1
  = Ok (mkGate false NotFound None).
Proof. vm_compute. reflexivity. Qed.

(** Scenario B: record present, marker absent: the gate answers
    [Expired], the ledger record is revoked and the session deleted. *)
Example gate_inactive_session :
  let run := getValidSessionOrRevoke Fixture.env "s1" Fixture.world_inactive in
  run.1 = Ok (mkGate false Expired None)
  /\ List.filter (Prisma.active_for "s1" "u-1") (ledger run.2) = []
  /\ redis run.2 !! session_key "s1" = None.
Proof. vm_compute. repeat split. Qed.

(** * Further properties *)

(** ** Credential cipher: what a decryption vouches for *)

Section CipherMore.

Variable gcm : aes_256_gcm.


End CipherMore.

(** ** User settings *)

Module SettingsFacts.

Import Settings.

Lemma check_entries_ok (table : list (string * SettingDefinition))
    (userRole : string) (entries : list (string * jsval)) :
  check_entries table userRole entries = Ok tt
  <-> Forall (fun e => exists r, rule_of table e.1 = Some r
                        /\ (rule_premiumOnly r = true -> userRole = "paid-user"))
             entries.
Proof.
  induction entries as [|[key value] entries IH]; cbn [check_entries].
  - split; [by constructor|done].
  - destruct (rule_of table key) as [r|] eqn:Hrule.
    + destruct (rule_premiumOnly r) eqn:Hp; cbn [andb].
      * destruct (String.eqb userRole "paid-user") eqn:Hrole; cbn [negb].
        -- apply String.eqb_eq in Hrole. rewrite IH. split.
           ++ intros H. constructor; [|exact H]. cbn. rewrite Hrule. by exists r.
           ++ by intros [_ H]%Forall_cons.
        -- apply String.eqb_neq in Hrole. split; [discriminate|].
           intros [(r' & Hr' & Himp) _]%Forall_cons. cbn in Hr'.
           rewrite Hrule in Hr'. injection Hr' as <-. by destruct Hrole, Himp.
      * rewrite IH. split.
        -- intros H. constructor; [|exact H]. cbn. rewrite Hrule. exists r.
           split; [done|]. by rewrite Hp.
        -- by intros [_ H]%Forall_cons.
    + split; [discriminate|].
      intros [(r' & Hr' & _) _]%Forall_cons. cbn in Hr'. by rewrite Hrule in Hr'.
Qed.

(** X2. [validateSettingsUtil] accepts a set of settings exactly when
    every key of it names a member of the settings table, own or
    inherited from [Object.prototype], and no key names a premium-only
    setting unless the role is ["paid-user"]; it then answers [true]. *)
Theorem validateSettingsUtil_accepts (userRole : string)
    (settings : list (string * jsval)) :
  validateSettingsUtil userRole settings = Ok true
  <-> Forall (fun e => exists r,
                  rule_of ALLOWED_USER_SETTINGS e.1 = Some r
                  /\ (rule_premiumOnly r = true -> userRole = "paid-user"))
             settings.
Proof.
  rewrite <- check_entries_ok. unfold validateSettingsUtil.
  destruct (check_entries ALLOWED_USER_SETTINGS userRole settings) as [[]|e];
    split; done.
Qed.

(** X3. A refusal names the first offending key: after any number of
    accepted entries, a key the table does not know is answered with
    "Unknown setting: <key>", and a premium-only key sent by a role other
    than ["paid-user"] with "Unauthorized setting: <key>", whatever
    follows. *)
Theorem validateSettingsUtil_first_offender (userRole : string)
    (accepted rest : list (string * jsval)) (key : string) (value : jsval) :
  validateSettingsUtil userRole accepted = Ok true ->
  (rule_of ALLOWED_USER_SETTINGS key = None ->
   validateSettingsUtil userRole (accepted ++ (key, value) :: rest)
   = Throw (new_Error ("Unknown setting: " +:+ key)))
  /\ (forall d,
        own ALLOWED_USER_SETTINGS key = Some d -> premiumOnly d = true ->
        userRole <> "paid-user" ->
        validateSettingsUtil userRole (accepted ++ (key, value) :: rest)
        = Throw (new_Error ("Unauthorized setting: " +:+ key))).
Proof.
  unfold validateSettingsUtil.
  induction accepted as [|[k v] accepted IH]; cbn [app check_entries].
  - intros _. split.
    + by intros ->.
    + intros d Hown Hpremium Hrole%String.eqb_neq.
      unfold rule_of. rewrite Hown. cbn [rule_premiumOnly].
      by rewrite Hpremium, Hrole.
  - destruct (rule_of ALLOWED_USER_SETTINGS k) as [r|]; [|discriminate].
    destruct (rule_premiumOnly r && negb (String.eqb userRole "paid-user"));
      [discriminate|exact IH].
Qed.

End SettingsFacts.

(** ** Session store: create, fetch, delete *)

Lemma truthy_str_nonempty (s : string) : s <> "" -> truthy_str (Some s) = true.
Proof. intros H. cbn. by apply negb_true_iff, String.eqb_neq. Qed.

(** The store's operations when no fault is scheduled. *)
Lemma Redis_get_calm (key : string) (w : World) :
  faults w = [] -> Redis.get key w = (Ok (e_value <$> redis w !! key), w).
Proof. intros Hcalm. unfold Redis.get. by rewrite io_calm. Qed.

Lemma Redis_pTTL_calm (key : string) (w : World) :
  faults w = [] ->
  Redis.pTTL key w
  = (Ok (match redis w !! key with
         | None => (-2)%Z
         | Some e => default (-1)%Z (e_pttl e)
         end), w).
Proof. intros Hcalm. unfold Redis.pTTL. by rewrite io_calm. Qed.

Lemma Redis_expire_calm (key : string) (seconds : Z) (w : World) :
  faults w = [] ->
  Redis.expire key seconds w
  = match redis w !! key with
    | None => (Ok false, w)
    | Some e =>
        if (seconds <=? 0)%Z
        then (Ok true, set_redis (delete key (redis w)) w)
        else (Ok true,
              set_redis (<[key := mkEntry (e_value e) (Some (seconds * 1000)%Z)]>
                           (redis w)) w)
    end.
Proof. intros Hcalm. unfold Redis.expire. by rewrite io_calm. Qed.

Section SessionStoreMore.

Variable env : Env.

(** What a create call for a given session id does when the stores
    answer. *)
Lemma saveUserSessionRedis_calm (auth0Id access_token sid : string) (w : World)
    (e : Z) :
  faults w = [] -> sid <> "" -> (0 < INACTIVITY_TIMEOUT env)%Z ->
  get_prop (jwt_decode (provider w) access_token) "exp" = JNum e -> e <> 0%Z ->
  (Z.abs e <= 8640000000000)%Z ->
  saveUserSessionRedis env auth0Id access_token (Some sid) w
  = (Ok sid,
     set_redis
       (<[active_key sid :=
            mkEntry (Plain "1") (Some (INACTIVITY_TIMEOUT env * 1000)%Z)]>
          (<[session_key sid :=
               mkEntry (Json (session_document access_token auth0Id (JNum e)))
                       (Some (Z.max 1 (Z.min (TTL env)
                                             (Z.max (e - clock w / 1000) 1))
                              * 1000)%Z)]>
             (redis w))) w).
Proof.
  intros Hcalm Hsid Hpos Hexp Hnz Hrange.
  unfold saveUserSessionRedis. rewrite (truthy_str_nonempty sid Hsid).
  cbn [negb default from_option id]. rewrite (bind_step _ _ _ sid w) by reflexivity.
  rewrite (bind_step _ _ _ _ _ (decodeAccessToken_dated _ _ _ Hexp Hrange)), Hexp.
  assert (Hz : (e =? 0)%Z = false) by lia.
  cbn [truthy is_number negb orb num_of]. rewrite Hz. cbn [negb orb].
  rewrite (bind_step _ _ _ (clock w) w) by reflexivity.
  fold (active_key sid). apply try_catch_ok.
  assert (Hlife : (0 < Z.max 1 (Z.min (TTL env) (Z.max (e - clock w / 1000) 1)))%Z)
    by lia.
  rewrite (bind_step _ _ _ _ _ (Redis_set_calm _ _ _ w Hcalm Hlife)).
  rewrite (bind_step _ _ _ _ _ (Redis_set_calm _ _ _ (set_redis _ w) Hcalm Hpos)).
  reflexivity.
Qed.

(** What a fetch does when the stores answer and both keys are there. *)
Lemma getUserSessionRedis_live (sid : string) (w : World) (doc : jsval)
    (life : option Z) (marker : stored) (left : Z) :
  faults w = [] -> (0 < INACTIVITY_TIMEOUT env)%Z ->
  redis w !! session_key sid = Some (mkEntry (Json doc) life) ->
  redis w !! active_key sid = Some (mkEntry marker (Some left)) ->
  Redis.present (Some marker) = true ->
  (0 <= left)%Z ->
  exists w',
    getUserSessionRedis env sid w = (Ok (doc, true), w')
    /\ beside_redis w' = beside_redis w
    /\ faults w' = []
    /\ redis w' !! session_key sid = Some (mkEntry (Json doc) life)
    /\ (exists left', redis w' !! active_key sid = Some (mkEntry marker (Some left'))
                      /\ (0 <= left')%Z)
    /\ (forall key, key <> active_key sid -> redis w' !! key = redis w !! key).
Proof.
  intros Hcalm Hpos Hsession Hmarker Hpresent Hleft.
  unfold getUserSessionRedis. fold (active_key sid).
  rewrite (try_catch_ok _ _ w (doc, true)
             (if (left <? 180000)%Z
              then set_redis (<[active_key sid :=
                                  mkEntry marker
                                    (Some (INACTIVITY_TIMEOUT env * 1000)%Z)]>
                                (redis w)) w
              else w)).
  - eexists. split; [reflexivity|].
    destruct (left <? 180000)%Z; cbn [redis set_redis].
    + split; [reflexivity|]. split; [exact Hcalm|].
      rewrite lookup_insert_eq.
      rewrite lookup_insert_ne by (apply not_eq_sym, active_key_neq).
      split; [done|]. split; [eexists; split; [done|lia]|].
      intros key Hkey. by rewrite lookup_insert_ne.
    + split; [reflexivity|]. split; [exact Hcalm|]. split; [done|].
      split; [eexists; split; [done|lia]|done].
  - rewrite (bind_step _ _ _ _ _ (Redis_get_calm _ w Hcalm)), Hsession.
    cbn [fmap option_fmap option_map e_value Redis.present negb Redis.JSON_parse].
    rewrite (bind_step _ _ _ doc w) by reflexivity.
    rewrite (bind_step _ _ _ _ _ (Redis_get_calm _ w Hcalm)), Hmarker.
    cbn [fmap option_fmap option_map e_value]. rewrite Hpresent.
    rewrite (bind_step _ _ _ _ _ (Redis_pTTL_calm _ w Hcalm)), Hmarker.
    cbn [default from_option id e_pttl].
    assert (Hne : (left =? -2)%Z = false) by lia.
    assert (Hne' : (left =? -1)%Z = false) by lia.
    rewrite Hne, Hne'. cbn [orb].
    destruct (left <? 180000)%Z.
    + rewrite (bind_step _ _ _ tt
                 (set_redis (<[active_key sid :=
                                 mkEntry marker
                                   (Some (INACTIVITY_TIMEOUT env * 1000)%Z)]>
                               (redis w)) w)); [reflexivity|].
      rewrite (bind_step _ _ _ true
                 (set_redis (<[active_key sid :=
                                 mkEntry marker
                                   (Some (INACTIVITY_TIMEOUT env * 1000)%Z)]>
                               (redis w)) w)); [reflexivity|].
      rewrite (Redis_expire_calm _ _ w Hcalm), Hmarker.
      assert (Hp : (INACTIVITY_TIMEOUT env <=? 0)%Z = false) by lia.
      by rewrite Hp.
    + by rewrite (bind_step _ _ _ tt w).
Qed.

(** X5. Create then fetch.  A session written by [saveUserSessionRedis]
    under a given id, for an access token whose expiry claim is a whole
    number of seconds other than 0 and within the range of dates, is what
    [getUserSessionRedis] returns for that id: the document carries the
    access token, the user and the token's expiry, and the session is
    reported active. *)
Theorem session_create_then_fetch (auth0Id access_token sid : string) (w : World)
    (e : Z) :
  faults w = [] -> sid <> "" -> (0 < INACTIVITY_TIMEOUT env)%Z ->
  get_prop (jwt_decode (provider w) access_token) "exp" = JNum e -> e <> 0%Z ->
  (Z.abs e <= 8640000000000)%Z ->
  exists w1 w2,
    saveUserSessionRedis env auth0Id access_token (Some sid) w = (Ok sid, w1)
    /\ getUserSessionRedis env sid w1
       = (Ok (JObj [("accessToken", JStr access_token);
                    ("userId", JStr auth0Id);
                    ("accessExp", JNum e)], true), w2).
Proof.
  intros Hcalm Hsid Hpos Hexp Hnz Hrange.
  rewrite (saveUserSessionRedis_calm _ _ _ _ _ Hcalm Hsid Hpos Hexp Hnz Hrange).
  eexists _. 
  edestruct (getUserSessionRedis_live sid) as (w2 & Hfetch & _);
    [ | exact Hpos | | | | | exists w2; split; [reflexivity|exact Hfetch] ].
  - exact Hcalm.
  - cbn [redis set_redis].
    rewrite lookup_insert_ne by (apply not_eq_sym, active_key_neq).
    by rewrite lookup_insert_eq.
  - cbn [redis set_redis]. by rewrite lookup_insert_eq.
  - reflexivity.
  - lia.
Qed.

(** What a deletion does when the store answers. *)
Lemma deleteUserSessionRedis_calm (sid : string) (w : World) :
  faults w = [] ->
  deleteUserSessionRedis sid w
  = (Ok (bool_decide (is_Some (redis w !! session_key sid))
         || bool_decide (is_Some (redis w !! active_key sid))),
     set_redis (delete (active_key sid) (delete (session_key sid) (redis w))) w).
Proof.
  intros Hcalm. destruct w as [rd us up lg ck en dr fl st pv dt].
  cbn in Hcalm. subst fl.
  unfold deleteUserSessionRedis, try_catch, bind, Redis.unlink, io, ret.
  fold (active_key sid). cbn.
  assert (Hother : forall m : gmap string entry,
             delete (session_key sid) m !! active_key sid = m !! active_key sid).
  { intros m. apply lookup_delete_ne, active_key_neq. }
  destruct (rd !! session_key sid) as [e1|] eqn:H1; cbn;
    rewrite ?Hother;
    destruct (rd !! active_key sid) as [e2|] eqn:H2; cbn.
  all: rewrite ?bool_decide_eq_true_2 by eauto.
  all: rewrite ?bool_decide_eq_false_2 by (intros [? ?]; discriminate).
  all: try rewrite (delete_id (delete (session_key sid) rd) (active_key sid)
                               (eq_trans (Hother rd) H2)).
  all: try rewrite (delete_id rd (session_key sid) H1).
  all: try rewrite (delete_id rd (active_key sid) H2).
  all: reflexivity.
Qed.

(** A fetch for a session without a record throws and changes nothing. *)
Lemma getUserSessionRedis_missing (sid : string) (w : World) :
  faults w = [] -> redis w !! session_key sid = None ->
  getUserSessionRedis env sid w
  = (Throw (new_Error ("Unable to retrieve session from Redis for sessionId: "
                       +:+ sid)), w).
Proof.
  intros Hcalm Hnone. unfold getUserSessionRedis.
  rewrite (try_catch_caught _ _ w (new_Error "Session data not found") w);
    [reflexivity|].
  by rewrite (bind_step _ _ _ _ _ (Redis_get_calm _ w Hcalm)), Hnone.
Qed.

(** The gate on a session without a record. *)
Lemma getValidSessionOrRevoke_missing (sid : string) (w : World) :
  faults w = [] -> redis w !! session_key sid = None ->
  getValidSessionOrRevoke env sid w = (Ok (mkGate false NotFound None), w).
Proof.
  intros Hcalm Hnone. unfold getValidSessionOrRevoke.
  rewrite (try_catch_caught _ _ w
             (new_Error ("Unable to retrieve session from Redis for sessionId: "
                         +:+ sid)) w); [reflexivity|].
  apply bind_throw. by apply getUserSessionRedis_missing.
Qed.

(** X6. Deletion.  With the store answering, [deleteUserSessionRedis]
    reports whether the session record or its liveness marker existed,
    leaves neither behind, and touches no other key and nothing outside
    the keyspace.  Afterwards the session is gone: a second deletion
    reports that nothing was there and the validation gate answers
    [NotFound], both without changing anything. *)
Theorem deleteUserSessionRedis_removes (sid : string) (w : World) :
  faults w = [] ->
  exists existed w',
    deleteUserSessionRedis sid w = (Ok existed, w')
    /\ (existed = true
        <-> redis w !! session_key sid <> None \/ redis w !! active_key sid <> None)
    /\ redis w' !! session_key sid = None
    /\ redis w' !! active_key sid = None
    /\ (forall key,
          key <> session_key sid -> key <> active_key sid ->
          redis w' !! key = redis w !! key)
    /\ beside_redis w' = beside_redis w
    /\ deleteUserSessionRedis sid w' = (Ok false, w')
    /\ getValidSessionOrRevoke env sid w' = (Ok (mkGate false NotFound None), w').
Proof.
  intros Hcalm. rewrite (deleteUserSessionRedis_calm sid w Hcalm).
  set (w1 := set_redis _ w).
  assert (Hcalm1 : faults w1 = []) by exact Hcalm.
  assert (Hs : redis w1 !! session_key sid = None).
  { subst w1. cbn [redis set_redis].
    rewrite lookup_delete_ne by apply not_eq_sym, active_key_neq.
    apply lookup_delete_eq. }
  assert (Ha : redis w1 !! active_key sid = None).
  { subst w1. cbn [redis set_redis]. apply lookup_delete_eq. }
  eexists _, w1. split; [reflexivity|]. split.
  { rewrite orb_true_iff, !bool_decide_eq_true, <- !not_eq_None_Some. tauto. }
  split; [exact Hs|]. split; [exact Ha|]. split.
  { intros key H1 H2. subst w1. cbn [redis set_redis].
    by rewrite !lookup_delete_ne. }
  split; [reflexivity|]. split; [|by apply getValidSessionOrRevoke_missing].
  rewrite (deleteUserSessionRedis_calm sid w1 Hcalm1), Hs, Ha.
  rewrite !bool_decide_eq_false_2 by (intros [? ?]; discriminate).
  cbn [orb]. f_equal.
  rewrite (delete_id (redis w1) (session_key sid) Hs).
  rewrite (delete_id (redis w1) (active_key sid) Ha).
  by destruct w.
Qed.

#[local] Instance marker_step_frame (sid : string) : Frame (marker_step sid).
Proof.
  split; unfold marker_step.
  - done.
  - intros a b c [H1 K1] [H2 K2]. split; [congruence|].
    intros key Hkey. by rewrite K2, K1.
  - done.
Qed.

Lemma expire_marker_step (sid : string) (seconds : Z) :
  respects (marker_step sid) (Redis.expire (active_key sid) seconds).
Proof.
  unfold Redis.expire. apply respects_io; [apply _|].
  intros w r w'. destruct (redis w !! active_key sid) as [e|].
  - destruct (seconds <=? 0)%Z; intros [= <- <-]; (split; [reflexivity|]);
      intros key Hkey; cbn.
    + by rewrite lookup_delete_ne.
    + by rewrite lookup_insert_ne.
  - intros [= <- <-]. apply frame_refl.
Qed.

Lemma getUserSessionRedis_marker_step (sid : string) :
  respects (marker_step sid) (getUserSessionRedis env sid).
Proof.
  unfold getUserSessionRedis. fold (active_key sid).
  unfold Redis.get, Redis.pTTL, Redis.JSON_parse.
  repeat first [apply expire_marker_step | respects_step].
Qed.

(** X7. A fetch reads.  Whatever the store holds and whichever calls
    fail, [getUserSessionRedis] changes nothing but the liveness marker
    of the session it is asked for, and every failure reaches the caller
    as the one error "Unable to retrieve session from Redis for
    sessionId: <id>". *)
Theorem getUserSessionRedis_reads (sid : string) (w : World) :
  let run := getUserSessionRedis env sid w in
  beside_redis run.2 = beside_redis w
  /\ (forall key, key <> active_key sid -> redis run.2 !! key = redis w !! key)
  /\ (forall e,
        run.1 = Throw e ->
        e = new_Error ("Unable to retrieve session from Redis for sessionId: "
                       +:+ sid)).
Proof.
  cbv zeta.
  destruct (getUserSessionRedis env sid w) as [r w'] eqn:Hrun. cbn [fst snd].
  destruct (getUserSessionRedis_marker_step sid w r w' Hrun) as [Hrest Hkeys].
  split; [exact Hrest|]. split; [exact Hkeys|].
  intros e ->. revert Hrun. unfold getUserSessionRedis, try_catch, throw.
  match goal with |- context [let (_, _) := ?m w in _] => destruct (m w) as [[a|e0] w0] end.
  - discriminate.
  - by intros [= <- _].
Qed.

(** X8. The management token is cached.  Whenever
    [getManagementAPIToken] returns a token, that token is what
    [getManagementAPITokenRedis] finds in the cache afterwards. *)
Theorem getManagementAPIToken_caches (w : World) :
  let run := getManagementAPIToken env w in
  forall token,
    run.1 = Ok token ->
    getManagementAPITokenRedis env (calm run.2) = (Ok token, calm run.2).
Proof.
  cbv zeta. intros token.
  destruct (getManagementAPIToken env w) as [r w'] eqn:Hrun. cbn [fst snd].
  intros ->. revert Hrun. unfold getManagementAPIToken. rewrite try_rethrow.
  intros ([access_token expires_in] & w1 & _ & H)%bind_ok.
  apply bind_ok in H as (v & w2 & _ & H).
  apply bind_ok in H as ([] & w3 & Hsave & [= <- <-]).
  cbn [fst snd] in Hsave. unfold saveManagementAPITokenRedis in Hsave.
  apply try_catch_throw_ok in Hsave.
  unfold Redis.set in Hsave. apply io_ok in Hsave as (fs & Hsave).
  destruct (expires_in <=? 0)%Z; [discriminate|]. injection Hsave as <-.
  apply (getManagementAPITokenRedis_calm env _ _ (Some (expires_in * 1000)%Z));
    [reflexivity|].
  cbn. by rewrite lookup_insert_eq.
Qed.

End SessionStoreMore.

(** ** Refresh-token ledger: revocation, unknown users, capacity *)

Lemma getUserIdByAuth0_calm (auth0Id : string) (w : World) :
  faults w = [] ->
  getUserIdByAuth0 auth0Id w
  = match users w !! auth0Id with
    | Some id => (Ok id, w)
    | None => (Throw (mkError "User not found" (Some 404%Z)), w)
    end.
Proof.
  intros Hcalm. unfold getUserIdByAuth0, Prisma.user_findUnique, bind.
  rewrite io_calm by done. by destruct (users w !! auth0Id).
Qed.

Lemma revokeRefreshToken_calm (sessionId auth0Id userID : string) (w : World) :
  faults w = [] -> users w !! auth0Id = Some userID ->
  revokeRefreshTokenPrisma sessionId auth0Id w
  = (Ok tt, set_ledger (map (Prisma.revoke_if sessionId userID) (ledger w)) w).
Proof.
  intros Hcalm Huser. unfold revokeRefreshTokenPrisma. rewrite try_rethrow.
  unfold bind. rewrite (getUserIdByAuth0_calm _ _ Hcalm), Huser.
  unfold Prisma.refreshToken_revokeMany. by rewrite io_calm.
Qed.

Lemma revoke_if_twice (sessionId userID : string) (r : refresh_row) :
  Prisma.revoke_if sessionId userID (Prisma.revoke_if sessionId userID r)
  = Prisma.revoke_if sessionId userID r.
Proof.
  unfold Prisma.revoke_if.
  destruct (Prisma.active_for sessionId userID r) eqn:Hact; [|by rewrite Hact].
  unfold Prisma.active_for, Prisma.revoke. cbn. by rewrite andb_false_r.
Qed.

(** Revoking for one session does not change what another session finds. *)
Lemma find_other_session (sessionId other userID userID' : string) (now : Z)
    (l : list refresh_row) :
  other <> sessionId ->
  List.find (Prisma.valid_for other userID' now)
            (map (Prisma.revoke_if sessionId userID) l)
  = List.find (Prisma.valid_for other userID' now) l.
Proof.
  intros Hne. induction l as [|r l IH]; [reflexivity|].
  cbn [map List.find].
  assert (Hsame : Prisma.valid_for other userID' now r = true ->
                  Prisma.revoke_if sessionId userID r = r).
  { unfold Prisma.revoke_if, Prisma.valid_for, Prisma.active_for.
    intros [[[Hs%String.eqb_eq _]%andb_prop _]%andb_prop _]%andb_prop.
    destruct (String.eqb (row_sessionId r) sessionId) eqn:Hs'; [|reflexivity].
    apply String.eqb_eq in Hs'. congruence. }
  destruct (Prisma.valid_for other userID' now r) eqn:Hv.
  - rewrite (Hsame eq_refl), Hv. reflexivity.
  - assert (Hv' : Prisma.valid_for other userID' now
                    (Prisma.revoke_if sessionId userID r) = false).
    { unfold Prisma.revoke_if. destruct (Prisma.active_for sessionId userID r);
        [|exact Hv].
      unfold Prisma.valid_for, Prisma.active_for, Prisma.revoke. cbn.
      by rewrite andb_false_r. }
    by rewrite Hv'.
Qed.

Lemma to_hex_length (bs : list byte) :
  String.length (to_hex bs) = (2 * length bs)%nat.
Proof.
  induction bs as [|b bs IH]; [reflexivity|].
  cbn [to_hex byte_to_hex String.length length]. rewrite IH. lia.
Qed.

Lemma list_byte_of_string_length (s : string) :
  length (list_byte_of_string s) = String.length s.
Proof.
  unfold list_byte_of_string. rewrite length_map.
  induction s as [|c s IH]; [reflexivity|]. cbn. by rewrite IH.
Qed.

Section LedgerMore.

Variable gcm : aes_256_gcm.
Variable env : Env.

(** What the fetch returns when the stores answer. *)
Lemma fetchRefreshToken_result (sessionId auth0Id userID : string) (w : World) :
  faults w = [] -> users w !! auth0Id = Some userID ->
  fetchRefreshTokenPrisma gcm env sessionId auth0Id w
  = (match List.find (Prisma.valid_for sessionId userID (clock w)) (ledger w) with
     | Some row => decryptToken gcm (row_refreshToken row) (ENCRYPTION_KEY env)
     | None => Throw (mkError "No valid refresh token found" (Some 404%Z))
     end, w).
Proof.
  intros Hcalm Huser.
  destruct (List.find _ (ledger w)) as [row|] eqn:Hrow.
  - by apply (fetchRefreshToken_calm gcm env sessionId auth0Id userID).
  - by apply (fetchRefreshToken_miss gcm env sessionId auth0Id userID).
Qed.

(** X9. Revocation takes effect and is confined.  After
    [revokeRefreshTokenPrisma] for a session of a known user, the fetch
    for that session throws "No valid refresh token found" (404), every
    other session of the user is served what it was served before, no
    row has left the ledger, and a second revocation changes nothing. *)
Theorem revoke_then_fetch (sessionId auth0Id userID : string) (w : World) :
  faults w = [] -> users w !! auth0Id = Some userID ->
  exists w1,
    revokeRefreshTokenPrisma sessionId auth0Id w = (Ok tt, w1)
    /\ fetchRefreshTokenPrisma gcm env sessionId auth0Id w1
       = (Throw (mkError "No valid refresh token found" (Some 404%Z)), w1)
    /\ (forall other,
          other <> sessionId ->
          (fetchRefreshTokenPrisma gcm env other auth0Id w1).1
          = (fetchRefreshTokenPrisma gcm env other auth0Id w).1)
    /\ length (ledger w1) = length (ledger w)
    /\ revokeRefreshTokenPrisma sessionId auth0Id w1 = (Ok tt, w1).
Proof.
  intros Hcalm Huser.
  rewrite (revokeRefreshToken_calm _ _ _ _ Hcalm Huser).
  set (w1 := set_ledger _ w). exists w1.
  assert (Hcalm1 : faults w1 = []) by exact Hcalm.
  assert (Huser1 : users w1 !! auth0Id = Some userID) by exact Huser.
  split; [reflexivity|]. split.
  { rewrite (fetchRefreshToken_result _ _ _ _ Hcalm1 Huser1).
    subst w1. cbn [ledger clock set_ledger]. by rewrite find_revoked. }
  split.
  { intros other Hother.
    rewrite (fetchRefreshToken_result _ _ _ _ Hcalm1 Huser1).
    rewrite (fetchRefreshToken_result _ _ _ _ Hcalm Huser).
    subst w1. cbn [ledger clock set_ledger fst].
    by rewrite find_other_session. }
  split; [subst w1; cbn [ledger set_ledger]; apply length_map|].
  rewrite (revokeRefreshToken_calm _ _ _ _ Hcalm1 Huser1).
  subst w1. cbn [ledger set_ledger]. rewrite map_map.
  rewrite (map_ext _ _ (revoke_if_twice sessionId userID)).
  reflexivity.
Qed.

(** X10. Unknown users.  For an identity the users table does not hold,
    the three ledger operations throw "User not found" with status 404
    and change nothing. *)
Theorem ledger_rejects_unknown_user (sessionId auth0Id token : string)
    (old : option string) (w : World) :
  faults w = [] -> users w !! auth0Id = None ->
  let notFound := mkError "User not found" (Some 404%Z) in
  saveRefreshTokenPrisma gcm env sessionId token auth0Id old w = (Throw notFound, w)
  /\ fetchRefreshTokenPrisma gcm env sessionId auth0Id w = (Throw notFound, w)
  /\ revokeRefreshTokenPrisma sessionId auth0Id w = (Throw notFound, w).
Proof.
  intros Hcalm Huser notFound.
  assert (Hid : getUserIdByAuth0 auth0Id w = (Throw notFound, w))
    by (by rewrite (getUserIdByAuth0_calm _ _ Hcalm), Huser).
  unfold saveRefreshTokenPrisma, fetchRefreshTokenPrisma, revokeRefreshTokenPrisma.
  rewrite !try_rethrow. repeat split.
  - rewrite (bind_step _ _ _ (clock w) w) by reflexivity.
    rewrite try_rethrow. by apply bind_throw.
  - by apply bind_throw.
  - by apply bind_throw.
Qed.

Hypothesis laws : gcm_laws gcm.

Lemma encryptToken_iv_length (token : string) (key iv : list byte) (blob : string) :
  encryptToken_iv gcm token key iv = Ok blob ->
  Z.of_nat (String.length blob)
  = (2 * Z.of_nat (length iv) + 34 + 2 * Z.of_nat (String.length token))%Z.
Proof.
  intros (_ & _ & ->)%encryptToken_iv_shape.
  rewrite !length_append, !to_hex_length.
  rewrite (seal_length gcm laws), (tag_length gcm laws).
  rewrite list_byte_of_string_length. cbn [String.length]. lia.
Qed.

(** X11. Size of a stored credential.  The blob [encryptToken] returns
    consists of the nonce, the 16-byte tag and the ciphertext in
    hexadecimal, joined by two colons: for a token of [n] bytes and a
    nonce of [m] bytes it is [2m + 34 + 2n] characters long, and
    [m] more bytes of the random source are used. *)
Theorem encryptToken_blob_length (token : string) (key : list byte)
    (iv_length : nat) (w : World) (blob : string) (w' : World) :
  encryptToken gcm token key iv_length w = (Ok blob, w') ->
  Z.of_nat (String.length blob)
  = (2 * Z.of_nat iv_length + 34 + 2 * Z.of_nat (String.length token))%Z
  /\ drawn w' = (drawn w + iv_length)%nat.
Proof.
  unfold encryptToken. intros (iv & w1 & [= <- <-] & H)%bind_ok.
  unfold lift in H. injection H as H <-. split; [|reflexivity].
  rewrite (encryptToken_iv_length _ _ _ _ H). by rewrite length_map, length_seq.
Qed.

(** A token whose blob does not fit the column: the save throws once
    the old rows are dealt with. *)
Lemma saveRefreshToken_overflow (sessionId token auth0Id userID : string)
    (old : option string) (w : World) :
  faults w = [] -> users w !! auth0Id = Some userID ->
  length (ENCRYPTION_KEY env) = 32%nat ->
  (95 <= Z.of_nat (String.length token))%Z ->
  exists w',
    saveRefreshTokenPrisma gcm env sessionId token auth0Id old w
    = (Throw (new_Error "value too long for type character varying(255)"), w')
    /\ ledger w'
       = (if truthy_str old
          then map (Prisma.revoke_if sessionId userID) (ledger w)
          else ledger w).
Proof.
  intros Hcalm Huser Hkey Hlong.
  unfold saveRefreshTokenPrisma.
  rewrite (bind_step _ _ _ (clock w) w) by reflexivity.
  rewrite try_rethrow.
  rewrite (bind_step _ _ _ userID w)
    by (by rewrite (getUserIdByAuth0_calm _ _ Hcalm), Huser).
  set (l1 := if truthy_str old
             then map (Prisma.revoke_if sessionId userID) (ledger w)
             else ledger w).
  rewrite (bind_step _ _ _ tt (set_ledger l1 w)).
  2:{ subst l1. destruct (truthy_str old).
      - unfold Prisma.refreshToken_revokeMany. by rewrite io_calm.
      - by destruct w. }
  destruct (encryptToken gcm token (ENCRYPTION_KEY env) IV_LENGTH (set_ledger l1 w))
    as [[blob|e] w2] eqn:Henc.
  - rewrite (bind_step _ _ _ _ _ Henc).
    unfold encryptToken in Henc.
    apply bind_ok in Henc as (iv & w3 & [= <- <-] & Henc).
    unfold lift in Henc. injection Henc as Henc <-.
    apply encryptToken_iv_length in Henc as Hlen.
    cbn [length] in Hlen.
    unfold Prisma.refreshToken_create. rewrite io_calm by exact Hcalm.
    assert (Hover : (255 <? Z.of_nat (String.length blob))%Z = true) by lia.
    rewrite Hover. cbn [orb]. eexists. split; reflexivity.
  - exfalso. unfold encryptToken, bind, randomBytes, lift, encryptToken_iv in Henc.
    cbn in Henc. unfold valid_key in Henc. rewrite Hkey in Henc. discriminate.
Qed.

(** X12. Capacity of the ledger.  The [refresh_token] column holds 255
    characters, so a refresh token of 95 bytes or more cannot be stored:
    [saveRefreshTokenPrisma] throws, after the rows of the pair have
    been revoked when an old token was given; the ledger is then left
    without a valid row for the pair, and the fetch for the pair throws
    "No valid refresh token found". *)
Theorem saveRefreshToken_too_long (sessionId token auth0Id userID : string)
    (old : option string) (w : World) :
  faults w = [] -> users w !! auth0Id = Some userID ->
  length (ENCRYPTION_KEY env) = 32%nat ->
  (95 <= Z.of_nat (String.length token))%Z ->
  exists w',
    saveRefreshTokenPrisma gcm env sessionId token auth0Id old w
    = (Throw (new_Error "value too long for type character varying(255)"), w')
    /\ ledger w'
       = (if truthy_str old
          then map (Prisma.revoke_if sessionId userID) (ledger w)
          else ledger w)
    /\ (truthy_str old = true ->
        (forall now,
            List.find (Prisma.valid_for sessionId userID now) (ledger w') = None)
        /\ fetchRefreshTokenPrisma gcm env sessionId auth0Id (calm w')
           = (Throw (mkError "No valid refresh token found" (Some 404%Z)),
              calm w')).
Proof.
  intros Hcalm Huser Hkey Hlong.
  destruct (saveRefreshToken_overflow sessionId token auth0Id userID old w
              Hcalm Huser Hkey Hlong) as (w' & Hsave & Hledger).
  pose proof (saveRefreshToken_keeps_ground gcm env _ _ _ _ _ _ _ Hsave) as Hground.
  injection Hground as Husers _ _.
  exists w'. split; [exact Hsave|]. split; [exact Hledger|].
  intros Hold. rewrite Hold in Hledger.
  assert (Hnone : forall now,
             List.find (Prisma.valid_for sessionId userID now) (ledger w') = None).
  { intros now. rewrite Hledger. apply find_revoked. }
  split; [exact Hnone|].
  apply (fetchRefreshToken_miss gcm env sessionId auth0Id userID (calm w'));
    [reflexivity|by cbn; rewrite Husers|apply Hnone].
Qed.

(** X13. A first save for a pair.  When [saveRefreshTokenPrisma] is
    called without an old token, as at login, for a user and a session
    that have no valid row yet, it appends one row and leaves every other
    row as it was; that row is then the only valid row of the pair, so it
    is the one a fetch finds, and the fetch returns the token just
    saved. *)
Theorem saveRefreshToken_without_old (sessionId token auth0Id userID : string)
    (w w' : World) :
  token <> "" -> (0 < AUTH0_REFRESH_TOKEN_EXPIRY env)%Z ->
  users w !! auth0Id = Some userID ->
  List.filter (Prisma.valid_for sessionId userID (clock w)) (ledger w) = [] ->
  saveRefreshTokenPrisma gcm env sessionId token auth0Id None w = (Ok tt, w') ->
  length (ledger w') = S (length (ledger w))
  /\ (forall i r, ledger w !! i = Some r -> ledger w' !! i = Some r)
  /\ (exists newRow,
        List.filter (Prisma.valid_for sessionId userID (clock w')) (ledger w')
        = [newRow]
        /\ decryptToken gcm (row_refreshToken newRow) (ENCRYPTION_KEY env) = Ok token)
  /\ fetchRefreshTokenPrisma gcm env sessionId auth0Id (calm w')
     = (Ok token, calm w').
Proof.
  intros Htoken Hlife Huser Hnone Hsave.
  pose proof (saveRefreshToken_keeps_ground gcm env _ _ _ _ _ _ _ Hsave) as Hground.
  injection Hground as Husers Hclock _.
  apply (saveRefreshToken_ok gcm env) in Hsave
    as (userID' & iv & blob & Huser' & Henc & Hledger).
  rewrite Huser in Huser'. injection Huser' as <-.
  cbn [truthy_str] in Hledger.
  assert (Hvalid :
    Prisma.valid_for sessionId userID (clock w)
      (mkRow userID blob sessionId
             (clock w + AUTH0_REFRESH_TOKEN_EXPIRY env * 1000)%Z false) = true).
  { unfold Prisma.valid_for, Prisma.active_for. cbn.
    rewrite !String.eqb_refl. cbn. lia. }
  assert (Hblob : decryptToken gcm blob (ENCRYPTION_KEY env) = Ok token)
    by (by apply (decrypt_encrypt_iv gcm laws token _ iv)).
  assert (Hfind :
    List.find (Prisma.valid_for sessionId userID (clock w)) (ledger w) = None).
  { revert Hnone. generalize (ledger w) as l.
    induction l as [|x l IH]; [done|]. cbn [List.filter List.find].
    destruct (Prisma.valid_for sessionId userID (clock w) x); [discriminate|exact IH]. }
  split.
  { rewrite Hledger, length_app. cbn. lia. }
  split.
  { intros i r Hi. rewrite Hledger. by apply lookup_app_l_Some. }
  split.
  { eexists. rewrite Hclock, Hledger, List.filter_app, Hnone. cbn [List.filter app].
    rewrite Hvalid. split; [reflexivity|exact Hblob]. }
  rewrite (fetchRefreshToken_result sessionId auth0Id userID (calm w'));
    [|reflexivity|by cbn; rewrite Husers].
  cbn [clock ledger calm set_faults]. rewrite Hclock, Hledger. f_equal.
  rewrite (find_app_none _ _ _ Hfind). cbn [List.find].
  rewrite Hvalid. exact Hblob.
Qed.

End LedgerMore.

(** ** What a call may touch *)

Lemma row_step_refl (sid : string) (l : list refresh_row) :
  Forall2 (row_step sid) l l.
Proof. induction l; constructor; [by left|done]. Qed.

Lemma row_step_trans (sid : string) (a b c : refresh_row) :
  row_step sid a b -> row_step sid b c -> row_step sid a c.
Proof.
  intros [->|[-> Ha]] [->|[-> Hb]]; unfold row_step; eauto.
Qed.

Lemma row_step_session (sid : string) (a b : refresh_row) :
  row_step sid a b -> row_sessionId b = row_sessionId a.
Proof. by intros [->|[-> _]]. Qed.

Lemma ledger_step_refl (sid : string) (w w' : World) :
  ledger w' = ledger w -> ledger_step sid w w'.
Proof.
  intros H. exists (ledger w), []. rewrite H, app_nil_r.
  split; [done|]. split; [apply row_step_refl|constructor].
Qed.

Lemma ledger_step_trans (sid : string) (a b c : World) :
  ledger_step sid a b -> ledger_step sid b c -> ledger_step sid a c.
Proof.
  intros (k1 & m1 & E1 & F1 & G1) (k2 & m2 & E2 & F2 & G2).
  rewrite E1 in F2. apply Forall2_app_inv_l in F2 as (k2a & k2b & Fa & Fb & ->).
  exists k2a, (k2b ++ m2)%list. split; [by rewrite E2, <- app_assoc|]. split.
  - clear -F1 Fa. revert k2a Fa.
    induction F1 as [|x y l l' Hxy F1 IH]; intros k Fa.
    + by apply Forall2_nil_inv_l in Fa as ->.
    + apply Forall2_cons_inv_l in Fa as (z & k' & Hyz & Fa & ->).
      constructor; [by eapply row_step_trans|by apply IH].
  - apply Forall_app. split; [|exact G2].
    clear -G1 Fb. induction Fb as [|x y l l' Hxy Fb IH]; [constructor|].
    apply Forall_cons in G1 as [Hx G1].
    constructor; [|by apply IH].
    by rewrite (row_step_session _ _ _ Hxy).
Qed.

Lemma sends_refl (w w' : World) : sent w' = sent w -> sends w w'.
Proof. intros H. exists []. by rewrite app_nil_r. Qed.

Lemma sends_trans (a b c : World) : sends a b -> sends b c -> sends a c.
Proof.
  intros (m1 & H1) (m2 & H2). exists (m1 ++ m2)%list.
  by rewrite H2, H1, <- app_assoc.
Qed.

#[local] Instance session_step_frame (sid : string) : Frame (session_step sid).
Proof.
  split; unfold session_step.
  - intros w. split; [done|]. split; [done|]. split; [done|].
    split; [by apply ledger_step_refl|by apply sends_refl].
  - intros a b c (G1 & P1 & K1 & L1 & S1) (G2 & P2 & K2 & L2 & S2).
    split; [congruence|]. split; [congruence|]. split.
    { intros key H1 H2. by rewrite K2, K1. }
    split; [by eapply ledger_step_trans|by eapply sends_trans].
  - intros fs w. split; [done|]. split; [done|]. split; [done|].
    split; [by apply ledger_step_refl|by apply sends_refl].
Qed.

#[local] Instance plan_step_frame (cacheKey auth0Id : string) :
  Frame (plan_step cacheKey auth0Id).
Proof.
  split; unfold plan_step.
  - intros w. split; [done|]. split; [done|]. split; [done|]. by apply sends_refl.
  - intros a b c (T1 & K1 & P1 & S1) (T2 & K2 & P2 & S2).
    split; [congruence|]. split; [|split; [|by eapply sends_trans]].
    + intros key Hkey. by rewrite K2, K1.
    + intros user Huser. by rewrite P2, P1.
  - intros fs w. split; [done|]. split; [done|]. split; [done|]. by apply sends_refl.
Qed.

(** A step that changes the keyspace only. *)
Lemma session_step_redis (sid : string) (w : World) (r : gmap string entry) :
  (forall key, key <> session_key sid -> key <> active_key sid ->
               r !! key = redis w !! key) ->
  session_step sid w (set_redis r w).
Proof.
  intros H. split; [done|]. split; [done|]. split; [exact H|].
  split; [by apply ledger_step_refl|by apply sends_refl].
Qed.

Section Steps.

Variable sid : string.

Lemma set_session_step (value : stored) (EX : Z) :
  respects (session_step sid) (Redis.set (session_key sid) value EX).
Proof.
  unfold Redis.set. apply respects_io; [apply _|].
  intros w r w'. destruct (EX <=? 0)%Z; intros [= <- <-]; [apply frame_refl|].
  apply session_step_redis. intros key H1 H2. by apply lookup_insert_ne.
Qed.

Lemma set_active_step (value : stored) (EX : Z) :
  respects (session_step sid) (Redis.set (session_key sid +:+ ":active") value EX).
Proof.
  unfold Redis.set. apply respects_io; [apply _|].
  intros w r w'. destruct (EX <=? 0)%Z; intros [= <- <-]; [apply frame_refl|].
  apply session_step_redis. intros key H1 H2. by apply lookup_insert_ne.
Qed.

Lemma expire_active_step (seconds : Z) :
  respects (session_step sid) (Redis.expire (session_key sid +:+ ":active") seconds).
Proof.
  unfold Redis.expire. apply respects_io; [apply _|].
  intros w r w'. destruct (redis w !! _) as [e|]; [|intros [= <- <-]; apply frame_refl].
  destruct (seconds <=? 0)%Z; intros [= <- <-]; apply session_step_redis;
    intros key H1 H2; [by apply lookup_delete_ne|by apply lookup_insert_ne].
Qed.

Lemma unlink_session_step :
  respects (session_step sid) (Redis.unlink (session_key sid)).
Proof.
  unfold Redis.unlink. apply respects_io; [apply _|].
  intros w r w'. destruct (redis w !! _) as [e|]; intros [= <- <-];
    [|apply frame_refl].
  apply session_step_redis. intros key H1 H2. by apply lookup_delete_ne.
Qed.

Lemma unlink_active_step :
  respects (session_step sid) (Redis.unlink (session_key sid +:+ ":active")).
Proof.
  unfold Redis.unlink. apply respects_io; [apply _|].
  intros w r w'. destruct (redis w !! _) as [e|]; intros [= <- <-];
    [|apply frame_refl].
  apply session_step_redis. intros key H1 H2. by apply lookup_delete_ne.
Qed.

Lemma revokeMany_step (userID : string) :
  respects (session_step sid) (Prisma.refreshToken_revokeMany sid userID).
Proof.
  unfold Prisma.refreshToken_revokeMany. apply respects_io; [apply _|].
  intros w r w' [= <- <-]. split; [done|]. split; [done|]. split; [done|].
  split; [|by apply sends_refl].
  exists (map (Prisma.revoke_if sid userID) (ledger w)), [].
  split; [by rewrite app_nil_r|]. split; [|constructor].
  induction (ledger w) as [|x l IH]; constructor; [|exact IH].
  unfold row_step, Prisma.revoke_if, Prisma.active_for.
  destruct (String.eqb (row_sessionId x) sid) eqn:Hs; [|by left].
  apply String.eqb_eq in Hs. destruct (_ && _); [by right|by left].
Qed.

Lemma create_step (userID blob : string) (expiresAt : Z) :
  respects (session_step sid) (Prisma.refreshToken_create userID blob sid expiresAt).
Proof.
  unfold Prisma.refreshToken_create. apply respects_io; [apply _|].
  intros w r w'. destruct (_ || _); [intros [= <- <-]; apply frame_refl|].
  destruct (existsb _ _); intros [= <- <-]; [apply frame_refl|].
  split; [done|]. split; [done|]. split; [done|]. split; [|by apply sends_refl].
  eexists (ledger w), [_]. split; [done|]. split; [apply row_step_refl|].
  by repeat constructor.
Qed.

Lemma send_step (req : request) : respects (session_step sid) (Axios.send req).
Proof.
  intros w r w' [= <- <-]. split; [done|]. split; [done|]. split; [done|].
  split; [by apply ledger_step_refl|by eexists].
Qed.

Lemma randomBytes_step (n : nat) : respects (session_step sid) (randomBytes n).
Proof.
  intros w r w' [= <- <-]. split; [done|]. split; [done|]. split; [done|].
  split; [by apply ledger_step_refl|by apply sends_refl].
Qed.

End Steps.

Lemma respects_bind_ret {A B} (R : World -> World -> Prop) (a : A) (k : A -> M B) :
  respects R (k a) -> respects R (bind (ret a) k).
Proof. intros H w r w' E. by apply (H w r w'). Qed.

(** Proves [respects (session_step sid) m] once [m] is unfolded down to
    the primitive steps above. *)
Ltac session_steps :=
  repeat first
    [ apply set_session_step | apply set_active_step | apply expire_active_step
    | apply unlink_session_step | apply unlink_active_step
    | apply revokeMany_step | apply create_step | apply send_step
    | apply randomBytes_step
    | respects_step ].

Section Confined.

Variable gcm : aes_256_gcm.
Variable env : Env.

Lemma getUserSessionRedis_step (sid : string) :
  respects (session_step sid) (getUserSessionRedis env sid).
Proof.
  unfold getUserSessionRedis, Redis.get, Redis.pTTL, Redis.JSON_parse.
  session_steps.
Qed.

Lemma deleteUserSessionRedis_step (sid : string) :
  respects (session_step sid) (deleteUserSessionRedis sid).
Proof. unfold deleteUserSessionRedis. session_steps. Qed.

Lemma revokeRefreshToken_step (sid auth0Id : string) :
  respects (session_step sid) (revokeRefreshTokenPrisma sid auth0Id).
Proof.
  unfold revokeRefreshTokenPrisma, getUserIdByAuth0, Prisma.user_findUnique.
  session_steps.
Qed.

Lemma getValidSessionOrRevoke_step (sid : string) :
  respects (session_step sid) (getValidSessionOrRevoke env sid).
Proof.
  unfold getValidSessionOrRevoke.
  apply respects_try_catch; [apply _| |intros ?; apply respects_ret; apply _].
  apply respects_bind; [apply _|apply getUserSessionRedis_step|intros [doc active]].
  cbn [fst snd]. destruct (negb (truthy doc)); [apply respects_ret; apply _|].
  destruct (negb active); [|apply respects_ret; apply _].
  apply respects_bind; [apply _| |intros ?].
  { apply respects_try_catch; [apply _| |intros ?; apply respects_ret; apply _].
    apply respects_bind; [apply _| |intros ?; apply revokeRefreshToken_step].
    unfold Prisma.string_arg. session_steps. }
  apply respects_bind; [apply _| |intros ?; apply respects_ret; apply _].
  apply respects_try_catch; [apply _| |intros ?; apply respects_ret; apply _].
  apply respects_bind; [apply _|apply deleteUserSessionRedis_step|].
  intros ?. apply respects_ret; apply _.
Qed.

Lemma logoutService_step (sid : string) :
  respects (session_step sid) (logoutService env sid).
Proof.
  unfold logoutService.
  apply respects_try_catch; [apply _| |intros ?; apply respects_throw; apply _].
  apply respects_bind; [apply _|apply getUserSessionRedis_step|intros [doc active]].
  cbn [fst snd].
  apply respects_bind; [apply _| |intros ?].
  { destruct (_ && _); [|apply respects_ret; apply _].
    apply respects_bind; [apply _| |intros ?; apply revokeRefreshToken_step].
    unfold Prisma.string_arg. session_steps. }
  apply respects_bind; [apply _| |intros ?].
  { apply respects_try_catch; [apply _| |intros ?; apply respects_ret; apply _].
    apply respects_bind; [apply _|apply deleteUserSessionRedis_step|].
    intros ?. apply respects_ret; apply _. }
  unfold Axios.get_logout, Axios.rejected. session_steps.
Qed.

Lemma saveUserSessionRedis_step (sid auth0Id access_token : string) :
  sid <> "" ->
  respects (session_step sid)
           (saveUserSessionRedis env auth0Id access_token (Some sid)).
Proof.
  intros Hsid. unfold saveUserSessionRedis.
  rewrite (truthy_str_nonempty sid Hsid). cbn [negb default from_option id].
  apply respects_bind_ret.
  unfold decodeAccessToken, Date_now. session_steps.
Qed.

Lemma saveRefreshToken_step (sid token auth0Id : string) (old : option string) :
  respects (session_step sid) (saveRefreshTokenPrisma gcm env sid token auth0Id old).
Proof.
  unfold saveRefreshTokenPrisma, getUserIdByAuth0, Prisma.user_findUnique,
    encryptToken, Date_now.
  session_steps.
Qed.

Lemma refreshTokenService_step (sid auth0Id : string) :
  sid <> "" ->
  respects (session_step sid) (refreshTokenService gcm env auth0Id sid).
Proof.
  intros Hsid. unfold refreshTokenService.
  apply respects_try_catch; [apply _| |intros ?; apply respects_throw; apply _].
  apply respects_bind; [apply _| |intros old].
  { unfold fetchRefreshTokenPrisma, getUserIdByAuth0, Prisma.user_findUnique,
      Prisma.refreshToken_findFirst, Date_now.
    session_steps. }
  apply respects_bind; [apply _| |intros body].
  { unfold Axios.post_refresh, Axios.rejected. session_steps. }
  destruct (_ || _); [apply respects_throw; apply _|].
  apply respects_bind; [apply _| |intros ?].
  { unfold verifyAccessToken. session_steps. }
  apply respects_bind; [apply _|by apply saveUserSessionRedis_step|intros ?].
  apply respects_bind; [apply _|apply saveRefreshToken_step|intros ?].
  apply respects_ret; apply _.
Qed.

Lemma maybeRefresh_step (sid : string) (s : sessionData) :
  sid <> "" ->
  respects (session_step sid) (maybeRefreshAccessToken gcm env sid s).
Proof.
  intros Hsid. unfold maybeRefreshAccessToken.
  apply respects_try_catch; [apply _| |intros ?; apply respects_ret; apply _].
  apply respects_bind; [apply _| |intros now].
  { unfold Date_now. session_steps. }
  destruct (_ <=? _)%Z; [|apply respects_ret; apply _].
  apply respects_bind; [apply _|by apply refreshTokenService_step|intros ?].
  apply respects_ret; apply _.
Qed.

(** X14. Calls for one session are confined to it.  Whatever the stores
    hold and whichever calls fail, the validation gate, the logout and the
    refresh for a session change no key of the store other than that
    session's record and marker; they delete no ledger row and change
    none except to revoke rows of that session; the rows they add are
    rows of that session; and they leave the users, their plans, the
    clock and the provider as they were. *)
Theorem session_calls_are_confined (sid : string) (s : sessionData) (w : World) :
  sid <> "" ->
  session_step sid w (getValidSessionOrRevoke env sid w).2
  /\ session_step sid w (logoutService env sid w).2
  /\ session_step sid w (maybeRefreshAccessToken gcm env sid s w).2.
Proof.
  intros Hsid. split; [|split].
  - destruct (getValidSessionOrRevoke env sid w) as [r w'] eqn:E.
    exact (getValidSessionOrRevoke_step sid w r w' E).
  - destruct (logoutService env sid w) as [r w'] eqn:E.
    exact (logoutService_step sid w r w' E).
  - destruct (maybeRefreshAccessToken gcm env sid s w) as [r w'] eqn:E.
    exact (maybeRefresh_step sid s Hsid w r w' E).
Qed.

Lemma plan_send_step (cacheKey auth0Id : string) (req : request) :
  respects (plan_step cacheKey auth0Id) (Axios.send req).
Proof.
  intros w r w' [= <- <-]. split; [done|]. split; [done|]. split; [done|].
  by eexists.
Qed.

Lemma plan_cache_step (cacheKey auth0Id : string) (value : stored) (EX : Z) :
  respects (plan_step cacheKey auth0Id) (Redis.set cacheKey value EX).
Proof.
  unfold Redis.set. apply respects_io; [apply _|].
  intros w r w'. destruct (EX <=? 0)%Z; intros [= <- <-]; [apply frame_refl|].
  split; [done|]. split; [|split; [done|by apply sends_refl]].
  intros key Hkey. by apply lookup_insert_ne.
Qed.

Lemma plan_update_step (cacheKey auth0Id planId updatedAt : string) :
  respects (plan_step cacheKey auth0Id)
           (Prisma.user_update_plan auth0Id planId updatedAt).
Proof.
  unfold Prisma.user_update_plan. apply respects_io; [apply _|].
  intros w r w'.
  destruct (negb (is_datetime w updatedAt)); [intros [= <- <-]; apply frame_refl|].
  destruct (users w !! auth0Id); [|intros [= <- <-]; apply frame_refl].
  destruct (negb (Prisma.varchar 64 planId)); intros [= <- <-]; [apply frame_refl|].
  split; [done|]. split; [done|]. split; [|by apply sends_refl].
  intros user Huser. by apply lookup_insert_ne.
Qed.

Ltac plan_steps :=
  repeat first
    [ apply plan_send_step | apply plan_cache_step | apply plan_update_step
    | respects_step ].

Lemma updateUserPlanService_step (call : UpdateUserPlanCall) :
  respects (plan_step (MANAGEMENT_API_KEY env) (auth0_id call))
           (updateUserPlanService env call).
Proof.
  unfold updateUserPlanService, verifyAccessToken, updateUserPlanPrisma,
    getManagementAPITokenRedis, getManagementAPIToken, saveManagementAPITokenRedis,
    fetchUserRoleService, deleteUserRole, updateUserRole, verifyAccessToken,
    Axios.post_client_credentials, Axios.get_roles, Axios.post_user_roles,
    Axios.rejected, Redis.get, Redis.JSON_parse.
  plan_steps.
Qed.

(** X15. A plan change is confined.  Whatever the stores hold and
    whichever calls fail, [updateUserPlanService] leaves the users table
    and the refresh-token ledger as they were; of the keyspace only the
    cached management token can change, and of the plans only the plan
    of the user named in the call. *)
Theorem updateUserPlanService_confined (call : UpdateUserPlanCall) (w : World) :
  plan_step (MANAGEMENT_API_KEY env) (auth0_id call) w
            (updateUserPlanService env call w).2.
Proof.
  destruct (updateUserPlanService env call w) as [r w'] eqn:E.
  exact (updateUserPlanService_step call w r w' E).
Qed.

End Confined.

(** ** Validation gate *)

Section Gate.

Variable env : Env.

(** A fetch for a session whose marker is gone. *)
Lemma getUserSessionRedis_inactive (sid : string) (w : World) (doc : jsval)
    (life : option Z) :
  faults w = [] ->
  redis w !! session_key sid = Some (mkEntry (Json doc) life) ->
  redis w !! active_key sid = None ->
  getUserSessionRedis env sid w = (Ok (doc, false), w).
Proof.
  intros Hcalm Hsession Hmarker. unfold getUserSessionRedis.
  fold (active_key sid). apply try_catch_ok.
  rewrite (bind_step _ _ _ _ _ (Redis_get_calm _ w Hcalm)), Hsession.
  cbn [fmap option_fmap option_map e_value Redis.present negb Redis.JSON_parse].
  rewrite (bind_step _ _ _ doc w) by reflexivity.
  by rewrite (bind_step _ _ _ _ _ (Redis_get_calm _ w Hcalm)), Hmarker.
Qed.

(** What a fetch that reports an active session has found. *)
Lemma getUserSessionRedis_active (sid : string) (w : World) (doc : jsval)
    (w' : World) :
  getUserSessionRedis env sid w = (Ok (doc, true), w') ->
  exists marker,
    redis w !! active_key sid = Some marker
    /\ Redis.present (Some (e_value marker)) = true.
Proof.
  unfold getUserSessionRedis. fold (active_key sid). intros H%try_catch_throw_ok.
  apply bind_ok in H as (found & w1 & Hget & H).
  unfold Redis.get in Hget. apply io_ok in Hget as (fs & [= <- <-]).
  destruct (negb (Redis.present _)); [discriminate|].
  apply bind_ok in H as (doc' & w2 & Hparse & H).
  assert (Hr : redis w2 = redis w).
  { unfold Redis.JSON_parse in Hparse.
    destruct (e_value <$> _) as [[text|json]|]; try discriminate.
    by injection Hparse as _ <-. }
  apply bind_ok in H as (marker & w3 & Hget & H).
  unfold Redis.get in Hget. apply io_ok in Hget as (fs' & [= <- <-]).
  cbn [redis set_faults] in H. rewrite Hr in H.
  destruct (redis w !! active_key sid) as [m|] eqn:Hm; [|discriminate].
  cbn [fmap option_fmap option_map] in H.
  destruct (Redis.present (Some (e_value m))) eqn:Hp; [|discriminate].
  by exists m.
Qed.

(** The revocation step of the gate, with the stores answering. *)
Lemma gate_revocation_calm (sid : string) (doc : jsval) (w : World) :
  faults w = [] ->
  exists w1,
    try_catch
      (let* userId := Prisma.string_arg (get_prop doc "userId") in
       revokeRefreshTokenPrisma sid userId)
      (fun e => ret tt) w = (Ok tt, w1)
    /\ faults w1 = [] /\ redis w1 = redis w
    /\ length (ledger w1) = length (ledger w)
    /\ (forall auth0Id userID now,
          get_prop doc "userId" = JStr auth0Id ->
          users w !! auth0Id = Some userID ->
          List.find (Prisma.valid_for sid userID now) (ledger w1) = None).
Proof.
  intros Hcalm.
  destruct (get_prop doc "userId") as [| |b|n|auth0Id|items|fields] eqn:Hid.
  5:{ destruct (users w !! auth0Id) as [userID|] eqn:Huser.
      - eexists. split.
        { apply try_catch_ok. cbn [Prisma.string_arg].
          rewrite (bind_step _ _ _ auth0Id w) by reflexivity.
          apply (revokeRefreshToken_calm sid auth0Id userID w Hcalm Huser). }
        cbn [faults redis ledger set_ledger].
        split; [exact Hcalm|]. split; [reflexivity|].
        split; [apply length_map|].
        intros a u now [= <-] Hu. rewrite Hu in Huser. injection Huser as ->.
        apply find_revoked.
      - exists w. split.
        { rewrite (try_catch_caught _ _ w (mkError "User not found" (Some 404%Z)) w);
            [reflexivity|].
          cbn [Prisma.string_arg].
          rewrite (bind_step _ _ _ auth0Id w) by reflexivity.
          unfold revokeRefreshTokenPrisma. rewrite try_rethrow.
          apply bind_throw.
          by rewrite (getUserIdByAuth0_calm _ _ Hcalm), Huser. }
        split; [exact Hcalm|]. split; [reflexivity|]. split; [reflexivity|].
        intros a u now [= <-] Hu. congruence. }
  all: exists w; split; [reflexivity|].
  all: split; [exact Hcalm|]; split; [reflexivity|]; split; [reflexivity|].
  all: intros a u now Ha; discriminate Ha.
Qed.

(** The gate on a session whose marker is gone. *)
Lemma gate_expires_inactive_session_aux (sid : string) (w : World) (doc : jsval)
    (life : option Z) :
  faults w = [] ->
  redis w !! session_key sid = Some (mkEntry (Json doc) life) ->
  truthy doc = true ->
  redis w !! active_key sid = None ->
  exists w',
    getValidSessionOrRevoke env sid w = (Ok (mkGate false Expired None), w')
    /\ exists w1,
         redis w' = delete (active_key sid) (delete (session_key sid) (redis w))
         /\ ledger w' = ledger w1
         /\ length (ledger w1) = length (ledger w)
         /\ (forall auth0Id userID now,
               get_prop doc "userId" = JStr auth0Id ->
               users w !! auth0Id = Some userID ->
               List.find (Prisma.valid_for sid userID now) (ledger w1) = None).
Proof.
  intros Hcalm Hsession Htruthy Hmarker.
  destruct (gate_revocation_calm sid doc w Hcalm)
    as (w1 & Hrevoke & Hcalm1 & Hredis1 & Hlen & Hnone).
  pose proof (deleteUserSessionRedis_calm sid w1 Hcalm1) as Hdelete.
  eexists. split.
  { unfold getValidSessionOrRevoke. apply try_catch_ok.
    rewrite (bind_step _ _ _ _ _
               (getUserSessionRedis_inactive sid w doc life Hcalm Hsession Hmarker)).
    cbn [fst snd]. rewrite Htruthy. cbn [negb].
    rewrite (bind_step _ _ _ _ _ Hrevoke).
    rewrite (bind_step _ _ _ tt
               (set_redis (delete (active_key sid)
                                  (delete (session_key sid) (redis w1))) w1));
      [reflexivity|].
    apply try_catch_ok. by rewrite (bind_step _ _ _ _ _ Hdelete). }
  exists w1. cbn [redis ledger set_redis]. rewrite Hredis1. by repeat split.
Qed.

(** X16. An inactive session is expired.  With the stores answering, a
    session whose record is in the store and whose liveness marker is
    gone is answered [Expired]; afterwards the record is deleted, the
    ledger holds no valid refresh token for the session and its user,
    and no row has left the ledger. *)
Theorem gate_expires_inactive_session (sid : string) (w : World) (doc : jsval)
    (life : option Z) :
  faults w = [] ->
  redis w !! session_key sid = Some (mkEntry (Json doc) life) ->
  truthy doc = true ->
  redis w !! active_key sid = None ->
  exists w',
    getValidSessionOrRevoke env sid w = (Ok (mkGate false Expired None), w')
    /\ redis w' !! session_key sid = None
    /\ redis w' !! active_key sid = None
    /\ length (ledger w') = length (ledger w)
    /\ (forall auth0Id userID now,
          get_prop doc "userId" = JStr auth0Id ->
          users w !! auth0Id = Some userID ->
          List.find (Prisma.valid_for sid userID now) (ledger w') = None).
Proof.
  intros Hcalm Hsession Htruthy Hmarker.
  destruct (gate_expires_inactive_session_aux sid w doc life
              Hcalm Hsession Htruthy Hmarker)
    as (w' & Hrun & w1 & Hredis & Hledger & Hlen & Hnone).
  exists w'. split; [exact Hrun|]. rewrite Hredis, Hledger.
  split.
  { rewrite lookup_delete_ne by apply not_eq_sym, active_key_neq.
    apply lookup_delete_eq. }
  split; [apply lookup_delete_eq|]. split; [exact Hlen|exact Hnone].
Qed.

(** X17. A live session is admitted, untouched.  With the stores
    answering, a session whose record and liveness marker are both in
    the store is answered [Valid] with the stored document (or
    [NotFound] when the stored document is a falsy value); the record,
    the ledger and everything outside the keyspace are as they were and
    the marker is still there. *)
Theorem gate_admits_live_session (sid : string) (w : World) (doc : jsval)
    (life : option Z) (marker : stored) (left : Z) :
  faults w = [] -> (0 < INACTIVITY_TIMEOUT env)%Z ->
  redis w !! session_key sid = Some (mkEntry (Json doc) life) ->
  redis w !! active_key sid = Some (mkEntry marker (Some left)) ->
  Redis.present (Some marker) = true ->
  (0 <= left)%Z ->
  exists w',
    getValidSessionOrRevoke env sid w
    = (Ok (if truthy doc then mkGate true Valid (Some doc)
           else mkGate false NotFound None), w')
    /\ beside_redis w' = beside_redis w
    /\ redis w' !! session_key sid = Some (mkEntry (Json doc) life)
    /\ (exists left',
          redis w' !! active_key sid = Some (mkEntry marker (Some left'))
          /\ (0 <= left')%Z).
Proof.
  intros Hcalm Hpos Hsession Hmarker Hpresent Hleft.
  destruct (getUserSessionRedis_live env sid w doc life marker left
              Hcalm Hpos Hsession Hmarker Hpresent Hleft)
    as (w' & Hfetch & Hrest & _ & Hs & Hm & _).
  exists w'. split; [|by repeat split].
  unfold getValidSessionOrRevoke. apply try_catch_ok.
  rewrite (bind_step _ _ _ _ _ Hfetch). cbn [fst snd].
  by destruct (truthy doc).
Qed.

(** X18. No admission without a live session.  Whatever the stores hold
    and whichever calls fail, the gate answers [success] only for a
    session whose record and non-empty liveness marker were both in the
    store, and then with the stored document; every other answer carries
    no session data. *)
Theorem gate_admits_only_live_sessions (sid : string) (w : World) :
  let answer := (getValidSessionOrRevoke env sid w).1 in
  forall g,
    answer = Ok g ->
    if success g then
      code g = Valid
      /\ exists doc life marker,
           gate_sessionData g = Some doc
           /\ redis w !! session_key sid = Some (mkEntry (Json doc) life)
           /\ redis w !! active_key sid = Some marker
           /\ Redis.present (Some (e_value marker)) = true
    else gate_sessionData g = None.
Proof.
  cbv zeta. intros g.
  destruct (getValidSessionOrRevoke env sid w) as [r w'] eqn:Hrun. cbn [fst].
  intros ->. revert Hrun. unfold getValidSessionOrRevoke, try_catch.
  unfold bind at 1.
  destruct (getUserSessionRedis env sid w) as [[[doc active]|e] w1] eqn:Hfetch;
    [|by intros [= <- _]].
  cbn [fst snd]. destruct (negb (truthy doc)); [by intros [= <- _]|].
  destruct active; cbn [negb].
  - intros [= <- _]. cbn [success code gate_sessionData]. split; [done|].
    destruct (getUserSessionRedis_ok env _ _ _ _ _ Hfetch) as (life & Hs).
    destruct (getUserSessionRedis_active _ _ _ _ Hfetch) as (marker & Hm & Hp).
    by exists doc, life, marker.
  - match goal with
    | |- context [bind ?m ?k w1] => destruct (bind m k w1) as [[g'|e] w2] eqn:Hrest
    end; [|by intros [= <- _]].
    intros [= <- _].
    apply bind_ok in Hrest as (u1 & w3 & _ & Hrest).
    by apply bind_ok in Hrest as (u2 & w4 & _ & [= <- _]).
Qed.

End Gate.

(** ** Refresh orchestrator: what a rotation leaves behind *)

#[local] Instance same_redis : Frame (same redis).
Proof. by split; unfold same; [..|reflexivity]; congruence. Qed.

Section RotationMore.

Variable gcm : aes_256_gcm.
Variable env : Env.

Lemma saveRefreshToken_keeps_redis (sid token auth0Id : string) (old : option string) :
  respects (same redis) (saveRefreshTokenPrisma gcm env sid token auth0Id old).
Proof.
  unfold saveRefreshTokenPrisma, getUserIdByAuth0, Prisma.user_findUnique,
    Prisma.refreshToken_revokeMany, Prisma.refreshToken_create, encryptToken,
    randomBytes, Date_now.
  respects_all.
Qed.

(** What a create call that returned has written. *)
Lemma saveUserSessionRedis_ok (auth0Id access_token sid : string) (w : World)
    (sid' : string) (w' : World) :
  sid <> "" ->
  saveUserSessionRedis env auth0Id access_token (Some sid) w = (Ok sid', w') ->
  exists e ttl,
    get_prop (jwt_decode (provider w) access_token) "exp" = JNum e
    /\ (0 < INACTIVITY_TIMEOUT env)%Z
    /\ redis w'
       = <[active_key sid :=
             mkEntry (Plain "1") (Some (INACTIVITY_TIMEOUT env * 1000)%Z)]>
           (<[session_key sid :=
                mkEntry (Json (session_document access_token auth0Id (JNum e)))
                        (Some ttl)]> (redis w)).
Proof.
  intros Hsid. unfold saveUserSessionRedis.
  rewrite (truthy_str_nonempty sid Hsid). cbn [negb default from_option id].
  rewrite (bind_step _ _ _ sid w) by reflexivity.
  intros (decoded & w1 & Hdecode & H)%bind_ok.
  apply decodeAccessToken_ok in Hdecode as (-> & -> & _ & _).
  destruct (get_prop (jwt_decode (provider w) access_token) "exp")
    as [| |b|e|t|items|fields] eqn:Hexp;
    try (cbn in H; rewrite ?orb_true_r in H; discriminate H).
  destruct (negb (truthy (JNum e)) || negb (is_number (JNum e))); [discriminate|].
  apply bind_ok in H as (now & w2 & [= <- <-] & H).
  apply try_catch_throw_ok in H. fold (active_key sid) in H.
  apply bind_ok in H as ([] & w3 & Hset1 & H).
  apply bind_ok in H as ([] & w4 & Hset2 & [= _ <-]).
  unfold Redis.set in Hset1, Hset2.
  apply io_ok in Hset1 as (fs1 & Hset1). destruct (_ <=? 0)%Z; [discriminate|].
  injection Hset1 as <-.
  apply io_ok in Hset2 as (fs2 & Hset2).
  destruct (INACTIVITY_TIMEOUT env <=? 0)%Z eqn:Hpos; [discriminate|].
  injection Hset2 as <-.
  eexists e, _. split; [reflexivity|]. split; [lia|]. reflexivity.
Qed.

(** X19. A rotation renews the session.  Whenever
    [maybeRefreshAccessToken] answers [refreshed = true] with a token,
    the session record in the store carries that token, the user and the
    token's expiry, the liveness marker is set, and the validation gate
    then admits the session with that document. *)
Theorem rotation_renews_session (sid : string) (s : sessionData) (w : World)
    (token : string) (w' : World) :
  sid <> "" ->
  maybeRefreshAccessToken gcm env sid s w = (Ok (mkRefresh true token), w') ->
  exists e life w'',
    get_prop (jwt_decode (provider w) token) "exp" = JNum e
    /\ redis w' !! session_key sid
       = Some (mkEntry (Json (session_document token (userId s) (JNum e))) life)
    /\ redis w' !! active_key sid
       = Some (mkEntry (Plain "1") (Some (INACTIVITY_TIMEOUT env * 1000)%Z))
    /\ getValidSessionOrRevoke env sid (calm w')
       = (Ok (mkGate true Valid
                     (Some (session_document token (userId s) (JNum e)))), w'').
Proof.
  intros Hsid Hrun.
  assert (Hservice :
    refreshTokenService gcm env (userId s) sid w = (Ok token, w')).
  { destruct (accessExp s * 1000 - clock w <=? REFRESH_TOKEN_WINDOW env)%Z eqn:Hdue.
    - rewrite maybeRefresh_due in Hrun by done.
      destruct (refreshTokenService gcm env (userId s) sid w) as [[t|e] w0];
        [|discriminate].
      by injection Hrun as -> ->.
    - rewrite maybeRefresh_not_due in Hrun by done. discriminate. }
  clear Hrun. unfold refreshTokenService in Hservice.
  rewrite try_rethrow in Hservice.
  apply bind_ok in Hservice as (old & w1 & Hfetch & H).
  apply bind_ok in H as (body & w2 & Hpost & H).
  pose proof (fetchRefreshToken_keeps gcm env _ _ _ _ _ Hfetch) as K1.
  pose proof (post_refresh_keeps _ _ _ _ Hpost) as K2.
  destruct (negb (truthy_str (access_token body))
            || negb (truthy_str (refresh_token body))); [discriminate|].
  apply bind_ok in H as (v & w3 & Hverify & H).
  apply bind_ok in H as (sid' & w4 & Hsession & H).
  apply bind_ok in H as ([] & w5 & Hsave & [= <- <-]).
  pose proof (verifyAccessToken_keeps _ _ _ _ Hverify) as K3.
  pose proof (saveRefreshToken_keeps_redis _ _ _ _ _ _ _ Hsave) as K5.
  apply (saveUserSessionRedis_ok _ _ _ _ _ _ Hsid) in Hsession
    as (e & ttl & Hexp & Hpos & Hredis).
  assert (Hp : provider w3 = provider w).
  { assert (T : tables w3 = tables w) by (unfold same in *; congruence).
    by injection T. }
  rewrite Hp in Hexp. unfold same in K5. rewrite Hredis in K5.
  assert (Hs : redis w5 !! session_key sid
               = Some (mkEntry (Json (session_document
                                        (default "" (access_token body))
                                        (userId s) (JNum e))) (Some ttl))).
  { rewrite K5, lookup_insert_ne by (apply not_eq_sym, active_key_neq).
    by rewrite lookup_insert_eq. }
  assert (Ha : redis w5 !! active_key sid
               = Some (mkEntry (Plain "1")
                               (Some (INACTIVITY_TIMEOUT env * 1000)%Z))).
  { by rewrite K5, lookup_insert_eq. }
  destruct (getUserSessionRedis_live env sid (calm w5) _ _ _ _
              eq_refl Hpos Hs Ha eq_refl ltac:(lia))
    as (w6 & Hlive & _).
  exists e, (Some ttl), w6. split; [exact Hexp|]. split; [exact Hs|].
  split; [exact Ha|].
  unfold getValidSessionOrRevoke. apply try_catch_ok.
  by rewrite (bind_step _ _ _ _ _ Hlive).
Qed.

(** X20. No pair, no write.  When rotation is due and the stored refresh
    token is presented, but the provider rejects the request, answers
    without an access or a refresh token, or issues an access token that
    does not verify, then [maybeRefreshAccessToken] hands back the
    caller's own token with [refreshed = false] and has written nothing:
    the keyspace, the plans and the ledger are as they were, and the one
    request sent is the refresh request. *)
Theorem refresh_without_pair_writes_nothing (sid : string) (s : sessionData)
    (w : World) (userID : string) (row : refresh_row) (old : string) :
  faults w = [] ->
  (accessExp s * 1000 - clock w <= REFRESH_TOKEN_WINDOW env)%Z ->
  users w !! userId s = Some userID ->
  List.find (Prisma.valid_for sid userID (clock w)) (ledger w) = Some row ->
  decryptToken gcm (row_refreshToken row) (ENCRYPTION_KEY env) = Ok old ->
  (oauth_refresh (provider w) old = None
   \/ (exists body,
         oauth_refresh (provider w) old = Some body
         /\ (truthy_str (access_token body) = false
             \/ truthy_str (refresh_token body) = false))
   \/ (exists issued fresh,
         oauth_refresh (provider w) old = Some (mkTokens (Some issued) (Some fresh))
         /\ jwt_verify (provider w) issued = false)) ->
  exists w',
    maybeRefreshAccessToken gcm env sid s w
    = (Ok (mkRefresh false (accessToken s)), w')
    /\ stores w' = stores w
    /\ sent w' = (sent w ++ [ReqRefresh old])%list.
Proof.
  intros Hcalm Hdue Huser Hrow Hdec Hprovider.
  rewrite maybeRefresh_due by lia.
  pose proof (fetchRefreshToken_calm gcm env sid (userId s) userID w row
                Hcalm Huser Hrow) as Hfetch.
  rewrite Hdec in Hfetch.
  set (w1 := set_sent (sent w ++ [ReqRefresh old]) w).
  assert (Hpost : Axios.post_refresh old w
                  = (match oauth_refresh (provider w) old with
                     | Some body => Ok body
                     | None => Throw (new_Error "Request failed")
                     end, w1)).
  { unfold Axios.post_refresh. rewrite io_calm by done.
    unfold bind, Axios.send, Axios.rejected, throw. cbn.
    by destruct (oauth_refresh (provider w) old). }
  assert (Hthrows : exists e,
             refreshTokenService gcm env (userId s) sid w = (Throw e, w1)).
  { unfold refreshTokenService. rewrite try_rethrow.
    rewrite (bind_step _ _ _ _ _ Hfetch).
    destruct Hprovider as [Hnone|[(body & Hbody & Hmissing)|(issued & fresh & Hbody & Hbad)]].
    - rewrite Hnone in Hpost. eexists. by apply bind_throw.
    - rewrite Hbody in Hpost. rewrite (bind_step _ _ _ _ _ Hpost).
      destruct Hmissing as [-> | ->]; rewrite ?orb_true_r; by eexists.
    - rewrite Hbody in Hpost. rewrite (bind_step _ _ _ _ _ Hpost).
      cbn [access_token refresh_token default from_option id].
      destruct (negb (truthy_str (Some issued)) || negb (truthy_str (Some fresh)));
        [by eexists|].
      eexists. apply bind_throw. unfold verifyAccessToken.
      rewrite io_calm by exact Hcalm. subst w1. cbn. by rewrite Hbad. }
  destruct Hthrows as (e & ->). exists w1. by repeat split.
Qed.

Hypothesis laws : gcm_laws gcm.

(** X21. A rotation is not atomic.  When the provider issues a pair
    whose access token carries a whole expiry other than 0 and within the
    range of dates, and whose refresh token is too long for the ledger
    (95 bytes or more), the session record has already been rewritten with the new access
    token and the old ledger rows have already been revoked by the time
    the save fails: [maybeRefreshAccessToken] hands back the caller's old
    token with [refreshed = false], the store holds the new one, and the
    ledger is left without a valid refresh token for the session. *)
Theorem rotation_is_not_atomic (sid : string) (s : sessionData) (w : World)
    (userID : string) (row : refresh_row) (old issued fresh : string) (e : Z) :
  faults w = [] -> sid <> "" -> (0 < INACTIVITY_TIMEOUT env)%Z ->
  length (ENCRYPTION_KEY env) = 32%nat ->
  (accessExp s * 1000 - clock w <= REFRESH_TOKEN_WINDOW env)%Z ->
  users w !! userId s = Some userID ->
  List.find (Prisma.valid_for sid userID (clock w)) (ledger w) = Some row ->
  decryptToken gcm (row_refreshToken row) (ENCRYPTION_KEY env) = Ok old ->
  old <> "" ->
  oauth_refresh (provider w) old = Some (mkTokens (Some issued) (Some fresh)) ->
  issued <> "" -> (95 <= Z.of_nat (String.length fresh))%Z ->
  jwt_verify (provider w) issued = true ->
  get_prop (jwt_decode (provider w) issued) "exp" = JNum e -> e <> 0%Z ->
  (Z.abs e <= 8640000000000)%Z ->
  exists w',
    maybeRefreshAccessToken gcm env sid s w
    = (Ok (mkRefresh false (accessToken s)), w')
    /\ (exists life,
          redis w' !! session_key sid
          = Some (mkEntry (Json (session_document issued (userId s) (JNum e))) life))
    /\ (forall now,
          List.find (Prisma.valid_for sid userID now) (ledger w') = None).
Proof.
  intros Hcalm Hsid Hpos Hkey Hdue Huser Hrow Hdec Hold Hissued Hat Hlong
    Hverify Hexp Hnz Hrange.
  rewrite maybeRefresh_due by lia.
  pose proof (fetchRefreshToken_calm gcm env sid (userId s) userID w row
                Hcalm Huser Hrow) as Hfetch.
  rewrite Hdec in Hfetch.
  set (w1 := set_sent (sent w ++ [ReqRefresh old]) w).
  assert (Hpost : Axios.post_refresh old w
                  = (Ok (mkTokens (Some issued) (Some fresh)), w1)).
  { unfold Axios.post_refresh. rewrite io_calm by done.
    unfold bind, Axios.send, Axios.rejected, throw. cbn. by rewrite Hissued. }
  assert (Hfresh : fresh <> "").
  { intros ->. cbn in Hlong. lia. }
  pose proof (verifyAccessToken_calm issued w1 Hcalm Hverify) as Hv.
  pose proof (saveUserSessionRedis_calm env (userId s) issued sid w1 e
                Hcalm Hsid Hpos Hexp Hnz Hrange) as Hsession.
  match type of Hsession with _ = (_, ?x) => set (w2 := x) in Hsession end.
  destruct (saveRefreshToken_overflow gcm env laws sid fresh (userId s) userID
              (Some old) w2 Hcalm Huser Hkey Hlong)
    as (w3 & Hsave & Hledger).
  pose proof (saveRefreshToken_keeps_redis _ _ _ _ _ _ _ Hsave) as Hredis.
  assert (Hservice : refreshTokenService gcm env (userId s) sid w
                     = (Throw (new_Error "value too long for type character varying(255)"),
                        w3)).
  { unfold refreshTokenService. rewrite try_rethrow.
    rewrite (bind_step _ _ _ _ _ Hfetch), (bind_step _ _ _ _ _ Hpost).
    cbn [access_token refresh_token default from_option id].
    rewrite (truthy_str_nonempty _ Hat), (truthy_str_nonempty _ Hfresh).
    cbn [negb orb].
    rewrite (bind_step _ _ _ _ _ Hv), (bind_step _ _ _ _ _ Hsession).
    by apply bind_throw. }
  rewrite Hservice. exists w3. split; [reflexivity|]. split.
  - eexists. unfold same in Hredis. rewrite Hredis. subst w2.
    cbn [redis set_redis].
    rewrite lookup_insert_ne by (apply not_eq_sym, active_key_neq).
    by rewrite lookup_insert_eq.
  - intros now. rewrite Hledger, (truthy_str_nonempty _ Hold).
    apply find_revoked.
Qed.

End RotationMore.

(** ** Plan and role: the steps of a plan change *)

#[local] Instance same_user_plan : Frame (same user_plan).
Proof. by split; unfold same; [..|reflexivity]; congruence. Qed.

Section PlanRoleMore.

Variable env : Env.

(** An authenticated, well-formed call runs the [try] block. *)
Lemma updateUserPlanService_authenticated (call : UpdateUserPlanCall) (w : World)
    (authHeader : string) :
  faults w = [] ->
  authorization call = Some authHeader ->
  String.prefix "Bearer " authHeader = true ->
  jwt_verify (provider w) (bearer_token authHeader) = true ->
  auth0_id call <> "" ->
  updateUserPlanService env call w
  = try_catch (updateUserPlanService_body env call)
              (fun err => ret (mkResponse false "Internal server error" 500)) w.
Proof.
  intros Hcalm Hauth Hbearer Hverify Hid.
  unfold updateUserPlanService. rewrite Hauth. cbn [default from_option id].
  assert (Hheader : truthy_str (Some authHeader) = true).
  { destruct authHeader; [discriminate|reflexivity]. }
  rewrite Hheader, Hbearer. cbn [negb orb].
  rewrite (bind_step _ _ _ true w)
    by (apply try_catch_ok;
        by rewrite (bind_step _ _ _ _ _ (verifyAccessToken_calm _ _ Hcalm Hverify))).
  cbn [negb]. apply String.eqb_neq in Hid. by rewrite Hid.
Qed.

(** The role query, with the provider reachable and a token that is a
    string. *)
Lemma fetchUserRoleService_calm (token auth0Id : string) (w : World)
    (first : jsval) (rest : list jsval) :
  faults w = [] ->
  roles_of (provider w) auth0Id = Some (200%Z, JArr (first :: rest)) ->
  truthy first = true ->
  fetchUserRoleService (JStr token) auth0Id w
  = (Ok (get_prop first "id"), set_sent (sent w ++ [ReqGetRoles auth0Id]) w).
Proof.
  intros Hcalm Hroles Hfirst. unfold fetchUserRoleService, Axios.get_roles.
  rewrite try_rethrow. rewrite (bind_step _ _ _ token w) by reflexivity.
  unfold bind at 1. rewrite io_calm by done.
  unfold bind, Axios.send. cbn. rewrite Hroles. cbn. by rewrite Hfirst.
Qed.

(** The two role calls are one and the same request. *)
Lemma deleteUserRole_is_updateUserRole (token : jsval) (auth0Id : string)
    (role : jsval) :
  deleteUserRole token auth0Id role = updateUserRole token auth0Id role.
Proof. reflexivity. Qed.

Lemma updateUserRole_calm (token auth0Id : string) (role : jsval) (w : World) :
  faults w = [] ->
  post_roles (provider w) auth0Id (Axios.array_item role) = Some 204%Z ->
  updateUserRole (JStr token) auth0Id role w
  = (Ok tt, set_sent (sent w ++ [ReqPostRoles auth0Id (Axios.array_item role)]) w).
Proof.
  intros Hcalm Hpost. unfold updateUserRole, Axios.post_user_roles.
  rewrite try_rethrow. rewrite (bind_step _ _ _ token w) by reflexivity.
  unfold bind at 1. rewrite io_calm by done.
  unfold bind, Axios.send. cbn. by rewrite Hpost.
Qed.

(** X22. Role synchronisation.  For an authenticated plan change of a
    known user, with a plan and a timestamp the database takes and the
    management token in the cache, whose first role at the provider is
    [current] and whose new plan maps to the role [wanted]: the plan is
    written and the call answered with code 200; when the two roles are
    the same, the role query is the only request made; when they differ,
    the handler posts to the roles of the user twice, first the current
    role and then the wanted one.  [deleteUserRole] issues the very
    request of [updateUserRole], the one that assigns roles: no request
    asks the provider to take the current role away. *)
Theorem plan_change_synchronises_role (call : UpdateUserPlanCall) (w : World)
    (authHeader userID token current wanted : string) (first : jsval)
    (rest : list jsval) (life : option Z) :
  faults w = [] ->
  authorization call = Some authHeader ->
  String.prefix "Bearer " authHeader = true ->
  jwt_verify (provider w) (bearer_token authHeader) = true ->
  auth0_id call <> "" ->
  is_datetime w (updated_at call) = true ->
  users w !! auth0_id call = Some userID ->
  Prisma.varchar 64 (call_plan_id call) = true ->
  redis w !! MANAGEMENT_API_KEY env = Some (mkEntry (Json (JStr token)) life) ->
  roles_of (provider w) (auth0_id call) = Some (200%Z, JArr (first :: rest)) ->
  truthy first = true ->
  get_prop first "id" = JStr current ->
  lookup_role env (call_plan_id call) = JStr wanted ->
  (wanted <> current ->
   post_roles (provider w) (auth0_id call) (JStr current) = Some 204%Z
   /\ post_roles (provider w) (auth0_id call) (JStr wanted) = Some 204%Z) ->
  (exists w',
      updateUserPlanService env call w = (Ok (mkResponse true "" 200), w')
      /\ user_plan w' !! auth0_id call = Some (call_plan_id call)
      /\ sent w'
         = (sent w
            ++ ReqGetRoles (auth0_id call)
               :: (if String.eqb wanted current then []
                   else [ReqPostRoles (auth0_id call) (JStr current);
                         ReqPostRoles (auth0_id call) (JStr wanted)]))%list)
  /\ (forall accessToken role,
        deleteUserRole accessToken (auth0_id call) role
        = updateUserRole accessToken (auth0_id call) role).
Proof.
  intros Hcalm Hauth Hbearer Hverify Hid Hdate Huser Hfits Hcached Hroles Hfirst
    Hcurrent Hwanted Hprovider.
  split; [|reflexivity].
  rewrite (updateUserPlanService_authenticated call w authHeader)
    by assumption.
  unfold updateUserPlanService_body. rewrite Hwanted.
  set (w1 := set_user_plan (<[auth0_id call := call_plan_id call]> (user_plan w)) w).
  set (w2 := set_sent (sent w ++ [ReqGetRoles (auth0_id call)]) w1).
  assert (Hrole : fetchUserRoleService (JStr token) (auth0_id call) w1
                  = (Ok (JStr current), w2)).
  { rewrite <- Hcurrent.
    exact (fetchUserRoleService_calm token _ w1 first rest Hcalm Hroles Hfirst). }
  destruct (String.eqb wanted current) eqn:Hsame.
  - exists w2. split.
    + apply try_catch_ok.
      rewrite (bind_step _ _ _ _ _
                 (updateUserPlanPrisma_calm _ _ _ _ _ Hcalm Hdate Huser Hfits)).
      fold w1.
      rewrite (bind_step _ _ _ (JStr token) w1)
        by (apply try_catch_ok;
            by apply (getManagementAPITokenRedis_calm env w1 (JStr token) life)).
      rewrite (bind_step _ _ _ _ _ Hrole). cbn [strict_eq]. by rewrite Hsame.
    + split; [by cbn; rewrite lookup_insert_eq|reflexivity].
  - apply String.eqb_neq in Hsame as Hdiff.
    destruct (Hprovider Hdiff) as [Hremove Hassign].
    eexists. split.
    + apply try_catch_ok.
      rewrite (bind_step _ _ _ _ _
                 (updateUserPlanPrisma_calm _ _ _ _ _ Hcalm Hdate Huser Hfits)).
      fold w1.
      rewrite (bind_step _ _ _ (JStr token) w1)
        by (apply try_catch_ok;
            by apply (getManagementAPITokenRedis_calm env w1 (JStr token) life)).
      rewrite (bind_step _ _ _ _ _ Hrole). cbn [strict_eq]. rewrite Hsame.
      rewrite deleteUserRole_is_updateUserRole.
      rewrite (bind_step _ _ _ _ _
                 (updateUserRole_calm token _ (JStr current) w2 Hcalm Hremove)).
      rewrite (bind_step _ _ _ _ _
                 (updateUserRole_calm token _ (JStr wanted) (set_sent _ w2)
                    Hcalm Hassign)).
      reflexivity.
    + cbn [user_plan sent set_sent set_user_plan w1 w2 Axios.array_item].
      split; [by rewrite lookup_insert_eq|]. by rewrite <- !app_assoc.
Qed.

(** X23. Unauthenticated calls have no effect.  A plan change whose
    authorization metadata is missing, is not a bearer header, or
    carries a token that does not verify is answered "Unauthenticated"
    with code 401, whichever calls fail; the keyspace, the plans and the
    ledger are as they were and nothing is sent to the provider. *)
Theorem plan_change_unauthenticated (call : UpdateUserPlanCall) (w : World) :
  (truthy_str (authorization call) = false
   \/ String.prefix "Bearer " (default "" (authorization call)) = false
   \/ jwt_verify (provider w) (bearer_token (default "" (authorization call)))
      = false) ->
  exists w',
    updateUserPlanService env call w
    = (Ok (mkResponse false "Unauthenticated" 401), w')
    /\ stores w' = stores w /\ sent w' = sent w.
Proof.
  intros Hbad. unfold updateUserPlanService.
  destruct (negb (truthy_str (authorization call))
            || negb (String.prefix "Bearer " (default "" (authorization call))))
    eqn:Hheader; [by exists w|].
  destruct Hbad as [Hbad|[Hbad|Hbad]];
    try (rewrite Hbad in Hheader; cbn in Hheader; rewrite ?orb_true_r in Hheader;
         discriminate Hheader).
  unfold verifyAccessToken, try_catch, bind, io, ret.
  destruct (faults w) as [|[] fs]; cbn; rewrite ?Hbad; cbn; by eexists.
Qed.







End PlanRoleMore.

(** ** Callers: gRPC authentication, handlers, middleware, controllers *)

Section CallersFacts.

Variable env : Env.

(** Induction on a value, with the items of an array. *)
Lemma jsval_ind' (P : jsval -> Prop) :
  P JUndefined -> P JNull -> (forall b, P (JBool b)) -> (forall n, P (JNum n)) ->
  (forall s, P (JStr s)) ->
  (forall items, Forall P items -> P (JArr items)) ->
  (forall fields, P (JObj fields)) ->
  forall v, P v.
Proof.
  intros Hu Hn Hb Hz Hs Ha Ho. fix IH 1.
  intros [| |b|n|s|items|fields]; [done..| |done].
  apply Ha. induction items as [|item items IHitems]; constructor;
    [apply IH|exact IHitems].
Qed.

(** The one error of a conversion to a string. *)
Lemma to_string_throws (v : jsval) (err : js_error) :
  to_string v = Throw err ->
  message err = "Cannot convert object to primitive value".
Proof.
  revert err.
  induction v as [| |b|n|s|items IH|fields] using jsval_ind'; intros err;
    try discriminate.
  - by destruct b.
  - cbn [to_string]. induction IH as [|item rest Hitem _ IHrest];
      [discriminate|].
    cbn [join_items]. fold (join_items to_string rest).
    destruct (match item with JUndefined | JNull => Ok "" | _ => to_string item end)
      as [first|e] eqn:Hfirst.
    + destruct rest as [|next rest]; [discriminate|].
      destruct (join_items to_string (next :: rest)) as [others|e] eqn:Hrest;
        [discriminate|].
      intros [= <-]. by apply IHrest.
    + intros [= <-]. apply Hitem. by destruct item.
  - cbn [to_string]. destruct (has_own "toString" fields); [|discriminate].
    by intros [= <-].
Qed.

(** What [verifyAccessToken] can do. *)
Lemma verifyAccessToken_inv (token : string) (w : World) (r : result bool)
    (w' : World) :
  verifyAccessToken token w = (r, w') ->
  (exists fs, w' = set_faults fs w)
  /\ (forall b, r = Ok b -> b = true /\ jwt_verify (provider w) token = true).
Proof.
  unfold verifyAccessToken. intros [(fs & -> & ->)|(fs & H)]%io_inv.
  - split; [by eexists|discriminate].
  - cbn in H. destruct (jwt_verify (provider w) token) eqn:Hv;
      injection H as <- <-; (split; [by eexists|]).
    + by intros b [= <-].
    + discriminate.
Qed.

(** X26. gRPC authentication.  [verifyGrpcAuthToken] returns [true]
    only when the first authorization entry of the metadata is a bearer
    header whose token verifies; otherwise it throws one of its three
    "Unauthorized" errors; and it changes nothing in the stores and
    sends nothing. *)
Theorem verifyGrpcAuthToken_outcomes (metadata : list string) (w : World) :
  let run := verifyGrpcAuthToken metadata w in
  (exists fs, run.2 = set_faults fs w)
  /\ ((run.1 = Ok true
       /\ exists authHeader,
            metadata !! 0%nat = Some authHeader
            /\ String.prefix "Bearer " authHeader = true
            /\ jwt_verify (provider w) (bearer_token authHeader) = true)
      \/ run.1 = Throw (new_Error "Unauthorized: Authorization header missing")
      \/ run.1 = Throw (new_Error "Unauthorized: Invalid Authorization header format")
      \/ run.1 = Throw (new_Error "Unauthorized: token validation failed")).
Proof.
  cbv zeta. unfold verifyGrpcAuthToken.
  destruct (truthy_str (metadata !! 0%nat)) eqn:Hpresent; cbn [negb];
    [|split; [exists (faults w); by rewrite set_faults_same|by right; left]].
  apply truthy_str_some in Hpresent as (authHeader & Hhead & Hne).
  rewrite Hhead. cbn [default from_option id].
  rewrite (truthy_str_nonempty _ Hne). cbn [negb orb].
  destruct (String.prefix "Bearer " authHeader) eqn:Hbearer; cbn [negb];
    [|split; [exists (faults w); by rewrite set_faults_same|by right; right; left]].
  unfold try_catch.
  destruct (verifyAccessToken (bearer_token authHeader) w) as [r w'] eqn:Hverify.
  destruct (verifyAccessToken_inv _ _ _ _ Hverify) as [Hworld Hok].
  destruct r as [b|e].
  - rewrite (bind_step _ _ _ _ _ Hverify). cbn [fst snd ret].
    split; [exact Hworld|]. left. split; [reflexivity|].
    exists authHeader. destruct (Hok b eq_refl) as [_ Hv]. by repeat split.
  - rewrite (bind_throw _ _ _ _ _ Hverify). cbn [fst snd throw].
    split; [exact Hworld|]. by right; right; right.
Qed.

(** The three answers of the gate. *)
Lemma getValidSessionOrRevoke_answers (sid : string) (w : World) :
  exists g w',
    getValidSessionOrRevoke env sid w = (Ok g, w')
    /\ (g = mkGate false NotFound None
        \/ g = mkGate false Expired None
        \/ exists doc life marker,
             g = mkGate true Valid (Some doc)
             /\ redis w !! session_key sid = Some (mkEntry (Json doc) life)
             /\ redis w !! active_key sid = Some marker
             /\ Redis.present (Some (e_value marker)) = true).
Proof.
  unfold getValidSessionOrRevoke, try_catch. unfold bind at 1.
  destruct (getUserSessionRedis env sid w) as [[[doc active]|e] w1] eqn:Hfetch;
    [|eexists _, _; split; [reflexivity|by left]].
  cbn [fst snd].
  destruct (negb (truthy doc)); [eexists _, _; split; [reflexivity|by left]|].
  destruct active; cbn [negb].
  - eexists _, _. split; [reflexivity|]. right; right.
    destruct (getUserSessionRedis_ok env _ _ _ _ _ Hfetch) as (life & Hs).
    destruct (getUserSessionRedis_active env _ _ _ _ Hfetch) as (marker & Hm & Hp).
    by exists doc, life, marker.
  - match goal with
    | |- context [bind ?m ?k w1] => destruct (bind m k w1) as [[g'|e] w2] eqn:Hrest
    end; [|eexists _, _; split; [reflexivity|by left]].
    eexists _, _. split; [reflexivity|]. right; left.
    apply bind_ok in Hrest as (u1 & w3 & _ & Hrest).
    by apply bind_ok in Hrest as (u2 & w4 & _ & [= <- _]).
Qed.

(** X27. The session middleware.  Whatever the stores hold and
    whichever calls fail, [sessionHandler] answers 401 (no cookie;
    session not found; session expired, the last two with the cookie
    cleared), or it has found a session whose record and liveness marker
    are in the store.  It then passes the request on, with the stored
    document attached and the access token of the document, converted to
    a string, in the authorization header; and when that access token
    cannot be converted (an object with a [toString] field of its own),
    it answers 500 with the message of the conversion error.  This is its
    only answer of code 500. *)
Theorem sessionHandler_outcomes (req : SessionRequest) (w : World) :
  let answer := (sessionHandler env req w).1 in
  answer
  = Ok (Replied [ResStatus 401;
                 ResJson (JObj [("success", JBool false);
                                ("message", JStr "Unauthorized: No session")])])
  \/ answer
     = Ok (Replied [ResClearCookie "sessionId"; ResStatus 401;
                    ResJson (JObj [("error", JStr "Session not found or expired")])])
  \/ answer
     = Ok (Replied [ResClearCookie "sessionId"; ResStatus 401;
                    ResJson (JObj [("error",
                                    JStr "Session expired due to inactivity")])])
  \/ exists sid doc life marker,
       cookie_sessionId req = Some sid
       /\ redis w !! session_key sid = Some (mkEntry (Json doc) life)
       /\ redis w !! active_key sid = Some marker
       /\ Redis.present (Some (e_value marker)) = true
       /\ match to_string (get_prop doc "accessToken") with
          | Ok token =>
              answer
              = Ok (Next (mkRequest (Some sid) (Some sid) (Some doc)
                                    (Some ("Bearer " +:+ token))))
          | Throw err =>
              message err = "Cannot convert object to primitive value"
              /\ answer
                 = Ok (Replied [ResStatus 500;
                                ResJson (JObj [("success", JBool false);
                                               ("message", JStr (message err))])])
          end.
Proof.
  cbv zeta. unfold sessionHandler.
  destruct (truthy_str (cookie_sessionId req)) eqn:Hcookie; cbn [negb];
    [|by left].
  apply truthy_str_some in Hcookie as (sid & Hsid & _).
  rewrite Hsid. cbn [default from_option id].
  destruct (getValidSessionOrRevoke_answers sid w)
    as (g & w' & Hgate & [->|[->|(doc & life & marker & -> & Hs & Hm & Hp)]]).
  - right; left. unfold try_catch. by rewrite (bind_step _ _ _ _ _ Hgate).
  - right; right; left. unfold try_catch. by rewrite (bind_step _ _ _ _ _ Hgate).
  - right; right; right. exists sid, doc, life, marker.
    repeat (split; [done|]).
    unfold try_catch. rewrite (bind_step _ _ _ _ _ Hgate).
    cbn [success code gate_sessionData negb andb].
    destruct (to_string (get_prop doc "accessToken")) as [token|err] eqn:Hconv.
    + by rewrite (bind_step _ _ _ token w').
    + rewrite (bind_throw _ _ _ err w') by reflexivity.
      pose proof (to_string_throws _ _ Hconv) as Hmsg.
      split; [exact Hmsg|]. cbn [ret fst]. by rewrite Hmsg.
Qed.

(** X28. A live session reaches the handlers with its token.  With the
    stores answering, a request whose cookie names a session that has its
    record and its liveness marker in the store is passed on with the
    header [Bearer <access token of the record>], the stored document and
    the session id; the ledger and the record are as they were. *)
Theorem sessionHandler_attaches_token (req : SessionRequest) (w : World)
    (sid token : string) (doc : jsval) (life : option Z) (marker : stored)
    (left : Z) :
  faults w = [] -> (0 < INACTIVITY_TIMEOUT env)%Z ->
  cookie_sessionId req = Some sid -> sid <> "" ->
  redis w !! session_key sid = Some (mkEntry (Json doc) life) ->
  get_prop doc "accessToken" = JStr token ->
  redis w !! active_key sid = Some (mkEntry marker (Some left)) ->
  Redis.present (Some marker) = true ->
  (0 <= left)%Z ->
  exists w',
    sessionHandler env req w
    = (Ok (Next (mkRequest (Some sid) (Some sid) (Some doc)
                           (Some ("Bearer " +:+ token)))), w')
    /\ beside_redis w' = beside_redis w
    /\ redis w' !! session_key sid = Some (mkEntry (Json doc) life).
Proof.
  intros Hcalm Hpos Hcookie Hsid Hs Htoken Hm Hp Hleft.
  assert (Htruthy : truthy doc = true).
  { destruct doc; try discriminate Htoken. reflexivity. }
  destruct (getUserSessionRedis_live env sid w doc life marker left
              Hcalm Hpos Hs Hm Hp Hleft) as (w' & Hfetch & Hrest & _ & Hs' & _).
  assert (Hgate : getValidSessionOrRevoke env sid w
                  = (Ok (mkGate true Valid (Some doc)), w')).
  { unfold getValidSessionOrRevoke. apply try_catch_ok.
    rewrite (bind_step _ _ _ _ _ Hfetch). cbn [fst snd]. by rewrite Htruthy. }
  exists w'. split; [|by split].
  unfold sessionHandler. rewrite Hcookie, (truthy_str_nonempty sid Hsid).
  cbn [negb default from_option id]. unfold try_catch.
  rewrite (bind_step _ _ _ _ _ Hgate). cbn. by rewrite Htoken.
Qed.

(** X29. The details handler does not apply the inactivity rule.  For
    an authenticated call naming a session whose record is in the store
    and whose liveness marker is gone, and whose access token decodes to
    claims without an expiry or with a whole expiry within the range of
    dates, [getUserDetailsService] answers with the user of the record
    and the role and permissions its access token carries, and leaves
    the session in place; the validation gate answers [Expired] for the
    same session. *)
Theorem getUserDetails_ignores_inactivity (metadata : list string)
    (authHeader sid token : string) (w : World) (doc : jsval) (life : option Z) :
  faults w = [] ->
  metadata !! 0%nat = Some authHeader ->
  String.prefix "Bearer " authHeader = true ->
  jwt_verify (provider w) (bearer_token authHeader) = true ->
  redis w !! session_key sid = Some (mkEntry (Json doc) life) ->
  redis w !! active_key sid = None ->
  get_prop doc "accessToken" = JStr token ->
  let claims := jwt_decode (provider w) token in
  truthy claims = true -> is_object claims = true ->
  (get_prop claims "exp" = JUndefined
   \/ exists e, get_prop claims "exp" = JNum e /\ (Z.abs e <= 8640000000000)%Z) ->
  getUserDetailsService env metadata sid w
  = (Ok (Details
           (mkDetails true (get_prop doc "userId")
                      (get_prop claims "https://pennywise.app/role")
                      (if truthy (get_prop claims "permissions")
                       then get_prop claims "permissions" else JArr [])
                      None 200)), w)
  /\ (getValidSessionOrRevoke env sid w).1 = Ok (mkGate false Expired None).
Proof.
  intros Hcalm Hhead Hbearer Hverify Hs Hm Htoken claims Htruthy Hobject Hexp.
  assert (Hdoc : truthy doc = true).
  { destruct doc; try discriminate Htoken. reflexivity. }
  pose proof (getUserSessionRedis_inactive env sid w doc life Hcalm Hs Hm) as Hfetch.
  split.
  - unfold getUserDetailsService.
    rewrite (bind_step _ _ _ true w).
    2:{ apply try_catch_ok. rewrite (bind_step _ _ _ true w); [reflexivity|].
        unfold verifyGrpcAuthToken. rewrite Hhead.
        assert (Hheader : truthy_str (Some authHeader) = true).
        { destruct authHeader; [discriminate|reflexivity]. }
        rewrite Hheader. cbn [negb default from_option id].
        rewrite Hheader, Hbearer. cbn [negb orb]. apply try_catch_ok.
        by rewrite (bind_step _ _ _ _ _ (verifyAccessToken_calm _ _ Hcalm Hverify)). }
    cbn [negb]. apply try_catch_ok.
    rewrite (bind_step _ _ _ _ _ Hfetch). cbn [fst]. rewrite Hdoc. cbn [negb andb].
    rewrite Htoken. cbn [decodeAccessToken_of].
    rewrite (bind_step _ _ _ claims w); [reflexivity|].
    rewrite decodeAccessToken_spec. fold claims. cbv zeta.
    rewrite Htruthy, Hobject. cbn [negb orb].
    destruct Hexp as [->|(e & -> & Hrange)]; [reflexivity|].
    rewrite (Date_toISOString_in_range e Hrange).
    by destruct (truthy (JNum e)).
  - destruct (gate_expires_inactive_session_aux env sid w doc life Hcalm Hs Hdoc Hm)
      as (w' & -> & _). reflexivity.
Qed.

Variable logoutUrl : string.

(** X30. Logging out.  Without a session cookie [logoutController]
    answers 204 and touches nothing.  With one, it always clears the
    cookie and redirects to the logout URL, whatever [logoutService]
    does, and the calls it makes are confined to that session. *)
Theorem logoutController_outcomes (w : World) :
  logoutController env logoutUrl None w = (Ok [ResStatus 204; ResEnd], w)
  /\ logoutController env logoutUrl (Some "") w = (Ok [ResStatus 204; ResEnd], w)
  /\ forall sid,
       sid <> "" ->
       let run := logoutController env logoutUrl (Some sid) w in
       run.1 = Ok [ResClearCookie "sessionId"; ResRedirect logoutUrl]
       /\ session_step sid w run.2.
Proof.
  split; [reflexivity|]. split; [reflexivity|].
  intros sid Hsid. cbv zeta. unfold logoutController.
  rewrite (truthy_str_nonempty sid Hsid). cbn [negb default from_option id].
  unfold bind, try_catch, ret.
  destruct (logoutService env sid w) as [[[]|e] w'] eqn:Hlogout; cbn [fst snd];
    (split; [reflexivity|exact (logoutService_step env sid w _ w' Hlogout)]).
Qed.

End CallersFacts.

(** ** The further properties on the concrete instances *)


Lemma validateSettingsUtil_first_offender_witness :
  Settings.validateSettingsUtil "free-user"
    [("dark_mode_enabled", JBool true); ("no_such_setting", JNum 1);
     ("risk_profile", JStr "balanced")]
  = Throw (new_Error "Unknown setting: no_such_setting")
  /\ Settings.validateSettingsUtil "free-user"
       [("dark_mode_enabled", JBool true); ("auto_invest_enabled", JBool true)]
     = Throw (new_Error "Unauthorized setting: auto_invest_enabled").
Proof.
  split.
  - apply (SettingsFacts.validateSettingsUtil_first_offender "free-user"
             [("dark_mode_enabled", JBool true)]
             [("risk_profile", JStr "balanced")] "no_such_setting" (JNum 1));
      reflexivity.
  - apply (proj2 (SettingsFacts.validateSettingsUtil_first_offender "free-user"
                    [("dark_mode_enabled", JBool true)] []
                    "auto_invest_enabled" (JBool true) eq_refl)
                 (Settings.mkSetting Settings.TBoolean [] (JBool false) true true));
      [reflexivity|reflexivity|discriminate].
Defined.

Lemma session_create_then_fetch_witness :
  exists w1 w2,
    saveUserSessionRedis Fixture.env "auth0|u1" "at2" (Some "s9") Fixture.world
    = (Ok "s9", w1)
    /\ getUserSessionRedis Fixture.env "s9" w1
       = (Ok (JObj [("accessToken", JStr "at2"); ("userId", JStr "auth0|u1");
                    ("accessExp", JNum 2000)], true), w2).
Proof.
  apply (session_create_then_fetch Fixture.env "auth0|u1" "at2" "s9" Fixture.world
           2000%Z); [reflexivity|discriminate|cbn; lia|reflexivity|lia|lia].
Defined.

Lemma deleteUserSessionRedis_removes_witness :
  exists existed w',
    deleteUserSessionRedis "s1" Fixture.world = (Ok existed, w')
    /\ (existed = true
        <-> redis Fixture.world !! session_key "s1" <> None
            \/ redis Fixture.world !! active_key "s1" <> None)
    /\ redis w' !! session_key "s1" = None
    /\ redis w' !! active_key "s1" = None
    /\ (forall key,
          key <> session_key "s1" -> key <> active_key "s1" ->
          redis w' !! key = redis Fixture.world !! key)
    /\ beside_redis w' = beside_redis Fixture.world
    /\ deleteUserSessionRedis "s1" w' = (Ok false, w')
    /\ getValidSessionOrRevoke Fixture.env "s1" w'
       = (Ok (mkGate false NotFound None), w').
Proof.
  apply (deleteUserSessionRedis_removes Fixture.env "s1" Fixture.world).
  reflexivity.
Defined.

Lemma getManagementAPIToken_caches_witness :
  let w' := (getManagementAPIToken Fixture.env Fixture.world).2 in
  getManagementAPITokenRedis Fixture.env (calm w') = (Ok (JStr "m2m"), calm w').
Proof.
  apply (getManagementAPIToken_caches Fixture.env Fixture.world (JStr "m2m")).
  vm_compute. reflexivity.
Defined.

Lemma revoke_then_fetch_witness :
  exists w1,
    revokeRefreshTokenPrisma "s1" "auth0|u1" Scenario.world_two = (Ok tt, w1)
    /\ fetchRefreshTokenPrisma Fixture.gcm Fixture.env "s1" "auth0|u1" w1
       = (Throw (mkError "No valid refresh token found" (Some 404%Z)), w1)
    /\ (forall other,
          other <> "s1" ->
          (fetchRefreshTokenPrisma Fixture.gcm Fixture.env other "auth0|u1" w1).1
          = (fetchRefreshTokenPrisma Fixture.gcm Fixture.env other "auth0|u1"
               Scenario.world_two).1)
    /\ length (ledger w1) = length (ledger Scenario.world_two)
    /\ revokeRefreshTokenPrisma "s1" "auth0|u1" w1 = (Ok tt, w1).
Proof.
  apply (revoke_then_fetch Fixture.gcm Fixture.env "s1" "auth0|u1" "u-1"
           Scenario.world_two); [reflexivity|vm_compute; reflexivity].
Defined.

Lemma ledger_rejects_unknown_user_witness :
  let notFound := mkError "User not found" (Some 404%Z) in
  saveRefreshTokenPrisma Fixture.gcm Fixture.env "s1" "rt9" "auth0|nobody" None
                         Fixture.world
  = (Throw notFound, Fixture.world)
  /\ fetchRefreshTokenPrisma Fixture.gcm Fixture.env "s1" "auth0|nobody"
                             Fixture.world
     = (Throw notFound, Fixture.world)
  /\ revokeRefreshTokenPrisma "s1" "auth0|nobody" Fixture.world
     = (Throw notFound, Fixture.world).
Proof.
  apply (ledger_rejects_unknown_user Fixture.gcm Fixture.env "s1" "auth0|nobody"
           "rt9" None Fixture.world); [reflexivity|vm_compute; reflexivity].
Defined.

Lemma encryptToken_blob_length_witness :
  Z.of_nat (String.length
              "000102030405060708090a0b0c0d0e0f:d2d2d2d2d2d2d2d2d2d2d2d2d2d2d2d2:737532")
  = (2 * Z.of_nat IV_LENGTH + 34 + 2 * Z.of_nat (String.length "rt1"))%Z
  /\ drawn (set_drawn 16 Fixture.world) = (drawn Fixture.world + IV_LENGTH)%nat.
Proof.
  apply (encryptToken_blob_length Fixture.gcm FixtureFacts.fixture_gcm_laws "rt1"
           Fixture.key IV_LENGTH Fixture.world
           "000102030405060708090a0b0c0d0e0f:d2d2d2d2d2d2d2d2d2d2d2d2d2d2d2d2:737532"
           (set_drawn 16 Fixture.world)).
  vm_compute. reflexivity.
Defined.

Lemma saveRefreshToken_too_long_witness :
  exists w',
    saveRefreshTokenPrisma Fixture.gcm Fixture.env "s1" Scenario.long_token
                           "auth0|u1" (Some "rt1") Fixture.world
    = (Throw (new_Error "value too long for type character varying(255)"), w')
    /\ ledger w'
       = map (Prisma.revoke_if "s1" "u-1") (ledger Fixture.world)
    /\ (truthy_str (Some "rt1") = true ->
        (forall now,
            List.find (Prisma.valid_for "s1" "u-1" now) (ledger w') = None)
        /\ fetchRefreshTokenPrisma Fixture.gcm Fixture.env "s1" "auth0|u1" (calm w')
           = (Throw (mkError "No valid refresh token found" (Some 404%Z)),
              calm w')).
Proof.
  apply (saveRefreshToken_too_long Fixture.gcm Fixture.env
           FixtureFacts.fixture_gcm_laws "s1" Scenario.long_token "auth0|u1" "u-1"
           (Some "rt1") Fixture.world).
  - reflexivity.
  - vm_compute. reflexivity.
  - reflexivity.
  - apply Z.leb_le. vm_compute. reflexivity.
Defined.

Lemma saveRefreshToken_without_old_witness :
  let w' := (saveRefreshTokenPrisma Fixture.gcm Fixture.env "s9" "rt9" "auth0|u1"
                                    None Fixture.world).2 in
  length (ledger w') = S (length (ledger Fixture.world))
  /\ (forall i r, ledger Fixture.world !! i = Some r -> ledger w' !! i = Some r)
  /\ (exists newRow,
        List.filter (Prisma.valid_for "s9" "u-1" (clock w')) (ledger w') = [newRow]
        /\ decryptToken Fixture.gcm (row_refreshToken newRow)
                        (ENCRYPTION_KEY Fixture.env) = Ok "rt9")
  /\ fetchRefreshTokenPrisma Fixture.gcm Fixture.env "s9" "auth0|u1" (calm w')
     = (Ok "rt9", calm w').
Proof.
  apply (saveRefreshToken_without_old Fixture.gcm Fixture.env
           FixtureFacts.fixture_gcm_laws "s9" "rt9" "auth0|u1" "u-1" Fixture.world).
  - discriminate.
  - cbn. lia.
  - vm_compute. reflexivity.
  - vm_compute. reflexivity.
  - vm_compute. reflexivity.
Defined.

Lemma session_calls_are_confined_witness :
  session_step "s1" Fixture.world_inactive
    (getValidSessionOrRevoke Fixture.env "s1" Fixture.world_inactive).2
  /\ session_step "s1" Fixture.world
       (logoutService Fixture.env "s1" Fixture.world).2
  /\ session_step "s1" Fixture.world
       (maybeRefreshAccessToken Fixture.gcm Fixture.env "s1" Fixture.session
                                Fixture.world).2.
Proof.
  split; [|split].
  - apply (session_calls_are_confined Fixture.gcm Fixture.env "s1" Fixture.session
             Fixture.world_inactive). discriminate.
  - apply (session_calls_are_confined Fixture.gcm Fixture.env "s1" Fixture.session
             Fixture.world). discriminate.
  - apply (session_calls_are_confined Fixture.gcm Fixture.env "s1" Fixture.session
             Fixture.world). discriminate.
Defined.

Lemma gate_expires_inactive_session_witness :
  exists w',
    getValidSessionOrRevoke Fixture.env "s1" Fixture.world_inactive
    = (Ok (mkGate false Expired None), w')
    /\ redis w' !! session_key "s1" = None
    /\ redis w' !! active_key "s1" = None
    /\ length (ledger w') = length (ledger Fixture.world_inactive)
    /\ (forall auth0Id userID now,
          get_prop (session_document "at1" "auth0|u1" (JNum 1030)) "userId"
          = JStr auth0Id ->
          users Fixture.world_inactive !! auth0Id = Some userID ->
          List.find (Prisma.valid_for "s1" userID now) (ledger w') = None).
Proof.
  apply (gate_expires_inactive_session Fixture.env "s1" Fixture.world_inactive
           (session_document "at1" "auth0|u1" (JNum 1030)) (Some 30000%Z)).
  - reflexivity.
  - vm_compute. reflexivity.
  - reflexivity.
  - vm_compute. reflexivity.
Defined.

Lemma gate_admits_live_session_witness :
  exists w',
    getValidSessionOrRevoke Fixture.env "s1" Fixture.world
    = (Ok (mkGate true Valid
                  (Some (session_document "at1" "auth0|u1" (JNum 1030)))), w')
    /\ beside_redis w' = beside_redis Fixture.world
    /\ redis w' !! session_key "s1"
       = Some (mkEntry (Json (session_document "at1" "auth0|u1" (JNum 1030)))
                       (Some 30000%Z))
    /\ (exists left',
          redis w' !! active_key "s1" = Some (mkEntry (Plain "1") (Some left'))
          /\ (0 <= left')%Z).
Proof.
  apply (gate_admits_live_session Fixture.env "s1" Fixture.world
           (session_document "at1" "auth0|u1" (JNum 1030)) (Some 30000%Z)
           (Plain "1") 100000%Z).
  - reflexivity.
  - cbn. lia.
  - vm_compute. reflexivity.
  - vm_compute. reflexivity.
  - reflexivity.
  - lia.
Defined.

Lemma gate_admits_only_live_sessions_witness :
  code (mkGate true Valid (Some (session_document "at1" "auth0|u1" (JNum 1030))))
  = Valid
  /\ exists doc life marker,
       Some (session_document "at1" "auth0|u1" (JNum 1030)) = Some doc
       /\ redis Fixture.world !! session_key "s1" = Some (mkEntry (Json doc) life)
       /\ redis Fixture.world !! active_key "s1" = Some marker
       /\ Redis.present (Some (e_value marker)) = true.
Proof.
  apply (gate_admits_only_live_sessions Fixture.env "s1" Fixture.world
           (mkGate true Valid
                   (Some (session_document "at1" "auth0|u1" (JNum 1030))))).
  vm_compute. reflexivity.
Defined.

Lemma rotation_renews_session_witness :
  let w' := (maybeRefreshAccessToken Fixture.gcm Fixture.env "s1" Fixture.session
                                     Fixture.world).2 in
  exists e life w'',
    get_prop (jwt_decode (provider Fixture.world) "at2") "exp" = JNum e
    /\ redis w' !! session_key "s1"
       = Some (mkEntry (Json (session_document "at2" "auth0|u1" (JNum e))) life)
    /\ redis w' !! active_key "s1"
       = Some (mkEntry (Plain "1")
                       (Some (INACTIVITY_TIMEOUT Fixture.env * 1000)%Z))
    /\ getValidSessionOrRevoke Fixture.env "s1" (calm w')
       = (Ok (mkGate true Valid
                     (Some (session_document "at2" "auth0|u1" (JNum e)))), w'').
Proof.
  apply (rotation_renews_session Fixture.gcm Fixture.env "s1" Fixture.session
           Fixture.world "at2").
  - discriminate.
  - vm_compute. reflexivity.
Defined.

Lemma refresh_without_pair_writes_nothing_witness :
  let w := Fixture.with_provider Fixture.idp_bad_signature Fixture.world in
  exists w',
    maybeRefreshAccessToken Fixture.gcm Fixture.env "s1" Fixture.session w
    = (Ok (mkRefresh false "at1"), w')
    /\ stores w' = stores w
    /\ sent w' = (sent w ++ [ReqRefresh "rt1"])%list.
Proof.
  apply (refresh_without_pair_writes_nothing Fixture.gcm Fixture.env "s1"
           Fixture.session
           (Fixture.with_provider Fixture.idp_bad_signature Fixture.world)
           "u-1" (mkRow "u-1" Fixture.blob_rt1 "s1" 5000000%Z false) "rt1").
  - reflexivity.
  - cbn. lia.
  - vm_compute. reflexivity.
  - vm_compute. reflexivity.
  - vm_compute. reflexivity.
  - right; right. exists "at2", "rt2". split; reflexivity.
Defined.

Lemma rotation_is_not_atomic_witness :
  let w := Fixture.with_provider Scenario.idp_long_token Fixture.world in
  exists w',
    maybeRefreshAccessToken Fixture.gcm Fixture.env "s1" Fixture.session w
    = (Ok (mkRefresh false "at1"), w')
    /\ (exists life,
          redis w' !! session_key "s1"
          = Some (mkEntry (Json (session_document "at2" "auth0|u1" (JNum 2000)))
                          life))
    /\ (forall now,
          List.find (Prisma.valid_for "s1" "u-1" now) (ledger w') = None).
Proof.
  apply (rotation_is_not_atomic Fixture.gcm Fixture.env
           FixtureFacts.fixture_gcm_laws "s1" Fixture.session
           (Fixture.with_provider Scenario.idp_long_token Fixture.world)
           "u-1" (mkRow "u-1" Fixture.blob_rt1 "s1" 5000000%Z false)
           "rt1" "at2" Scenario.long_token 2000%Z).
  - reflexivity.
  - discriminate.
  - cbn. lia.
  - reflexivity.
  - cbn. lia.
  - vm_compute. reflexivity.
  - vm_compute. reflexivity.
  - vm_compute. reflexivity.
  - discriminate.
  - reflexivity.
  - discriminate.
  - apply Z.leb_le. vm_compute. reflexivity.
  - reflexivity.
  - reflexivity.
  - lia.
  - lia.
Defined.

Lemma plan_change_synchronises_role_witness :
  (exists w',
      updateUserPlanService Fixture.env Scenario.call_premium Fixture.world_cached
      = (Ok (mkResponse true "" 200), w')
      /\ user_plan w' !! "auth0|u1" = Some "plan_premium"
      /\ sent w'
         = [ReqGetRoles "auth0|u1";
            ReqPostRoles "auth0|u1" (JStr "rol_free");
            ReqPostRoles "auth0|u1" (JStr "rol_premium")])
  /\ (forall accessToken role,
        deleteUserRole accessToken "auth0|u1" role
        = updateUserRole accessToken "auth0|u1" role).
Proof.
  apply (plan_change_synchronises_role Fixture.env Scenario.call_premium
           Fixture.world_cached "Bearer m2m" "u-1" "m2m" "rol_free" "rol_premium"
           (JObj [("id", JStr "rol_free")]) [] (Some 3600000%Z)).
  - reflexivity.
  - reflexivity.
  - reflexivity.
  - reflexivity.
  - discriminate.
  - reflexivity.
  - vm_compute. reflexivity.
  - reflexivity.
  - vm_compute. reflexivity.
  - reflexivity.
  - reflexivity.
  - reflexivity.
  - reflexivity.
  - intros _. split; reflexivity.
Defined.

Lemma plan_change_unauthenticated_witness :
  exists w',
    updateUserPlanService Fixture.env Scenario.call_anonymous Fixture.world
    = (Ok (mkResponse false "Unauthenticated" 401), w')
    /\ stores w' = stores Fixture.world /\ sent w' = sent Fixture.world.
Proof.
  apply (plan_change_unauthenticated Fixture.env Scenario.call_anonymous
           Fixture.world).
  left. reflexivity.
Defined.



Lemma sessionHandler_attaches_token_witness :
  exists w',
    sessionHandler Fixture.env Scenario.request_with_cookie Fixture.world
    = (Ok (Next (mkRequest (Some "s1") (Some "s1")
                           (Some (session_document "at1" "auth0|u1" (JNum 1030)))
                           (Some "Bearer at1"))), w')
    /\ beside_redis w' = beside_redis Fixture.world
    /\ redis w' !! session_key "s1"
       = Some (mkEntry (Json (session_document "at1" "auth0|u1" (JNum 1030)))
                       (Some 30000%Z)).
Proof.
  apply (sessionHandler_attaches_token Fixture.env
           Scenario.request_with_cookie Fixture.world "s1" "at1"
           (session_document "at1" "auth0|u1" (JNum 1030)) (Some 30000%Z)
           (Plain "1") 100000%Z).
  - reflexivity.
  - cbn. lia.
  - reflexivity.
  - discriminate.
  - vm_compute. reflexivity.
  - reflexivity.
  - vm_compute. reflexivity.
  - reflexivity.
  - lia.
Defined.

Lemma getUserDetails_ignores_inactivity_witness :
  getUserDetailsService Fixture.env ["Bearer m2m"] "s1" Fixture.world_inactive
  = (Ok (Details (mkDetails true (JStr "auth0|u1") JUndefined (JArr []) None 200)),
     Fixture.world_inactive)
  /\ (getValidSessionOrRevoke Fixture.env "s1" Fixture.world_inactive).1
     = Ok (mkGate false Expired None).
Proof.
  apply (getUserDetails_ignores_inactivity Fixture.env ["Bearer m2m"] "Bearer m2m"
           "s1" "at1" Fixture.world_inactive
           (session_document "at1" "auth0|u1" (JNum 1030)) (Some 30000%Z)).
  - reflexivity.
  - reflexivity.
  - reflexivity.
  - reflexivity.
  - vm_compute. reflexivity.
  - vm_compute. reflexivity.
  - reflexivity.
  - reflexivity.
  - reflexivity.
  - right. exists 2000%Z. split; [reflexivity|lia].
Defined.

(** A store that fails on the first read: the middleware answers 401 and
    clears the cookie. *)
Example sessionHandler_store_failure :
  (sessionHandler Fixture.env Scenario.request_with_cookie
                  (set_faults [true] Fixture.world)).1
  = Ok (Replied [ResClearCookie "sessionId"; ResStatus 401;
                 ResJson (JObj [("error", JStr "Session not found or expired")])]).
Proof. vm_compute. reflexivity. Qed.

(** A stored access token that is an object with a [toString] field: the
    template literal of the middleware throws, and the answer is 500. *)
Example sessionHandler_object_token :
  (sessionHandler Fixture.env Scenario.request_with_cookie
                  Scenario.world_object_token).1
  = Ok (Replied [ResStatus 500;
                 ResJson (JObj [("success", JBool false);
                                ("message",
                                 JStr "Cannot convert object to primitive value")])]).
Proof. vm_compute. reflexivity. Qed.

(** An expiry claim beyond the range of dates: decoding throws, in the
    details handler as in a create call. *)
Example decodeAccessToken_far_expiry :
  (decodeAccessToken "at9"
     (Fixture.with_provider Scenario.idp_exp_far Fixture.world)).1
  = Throw (new_Error "Invalid time value").
Proof. vm_compute. reflexivity. Qed.

(** The bytes [ED A0 80], which would stand for the unpaired surrogate
    U+D800, are no well-formed string; the replacement character U+FFFD
    that the encoder writes in its place is one. *)
Example well_formed_surrogate :
  well_formed (utf8 [237; 160; 128]%N) = false
  /\ well_formed (utf8 [239; 191; 189]%N) = true.
Proof. vm_compute. by split. Qed.

(** The provider is unreachable: the logout still clears the cookie and
    redirects, and the session is gone from the store. *)
Example logoutController_provider_down :
  let run := logoutController Fixture.env Scenario.logoutUrl (Some "s1")
               (Fixture.with_provider Fixture.idp_down Fixture.world) in
  run.1 = Ok [ResClearCookie "sessionId"; ResRedirect Scenario.logoutUrl]
  /\ redis run.2 !! session_key "s1" = None.
Proof. vm_compute. by split. Qed.

(** A key inherited from [Object.prototype] passes the validation, for
    any role; a key that is nowhere does not. *)
Example validateSettingsUtil_inherited_key :
  Settings.validateSettingsUtil "free-user" [("constructor", JNum 1)] = Ok true
  /\ Settings.validateSettingsUtil "free-user" [("dark_mode", JBool true)]
     = Throw (new_Error "Unknown setting: dark_mode").
Proof. vm_compute. by split. Qed.
